(** * ragger: the smart chunker of [util/smart_chunking.py] and the
      extractors of [util/data_extraction.py]

    A shallow embedding of [SmartDocumentChunker], of the extractors that
    write the texts it chunks, and of the Python built-ins they rely on,
    followed by the properties of the chunking pipeline, of the structure
    analyzer and of the path from the extractors to the chunker.

    Conventions.
    - A Python [str] is a [string]; a character is a code point below 256
      (the Latin-1 block of Unicode), so the character classes below are
      the restrictions of [str.isspace], [str.isupper], [str.lower], [\s]
      and [\d] to that block.
    - A Python [int] is a [Z]; [len] is [length] and is compared in [Z].
    - A call that may raise returns a [result]; the only exception the
      chunker can raise is the [ValueError] of [int(...)].
    - [RecursiveCharacterTextSplitter] is a third-party class: the chunker
      record carries its [split_text] as a field and the development is
      parametric in it.
    - What the extractors read from files, document libraries and OCR
      engines is a [World]; paths are read as [posixpath] reads them. *)

From Stdlib Require Import ZArith Lia List Bool Ascii String Sorted.
From Stdlib Require Import Decimal DecimalString DecimalZ.
Import ListNotations.

Local Open Scope string_scope.
Local Open Scope list_scope.
Local Open Scope bool_scope.

(** ** Exceptions *)

Inductive exn : Type := ValueError.

Inductive result (A : Type) : Type :=
| Ok (a : A)
| Raise (e : exn).

Arguments Ok {A} a.
Arguments Raise {A} e.

Definition bind {A B : Type} (m : result A) (k : A -> result B) : result B :=
  match m with
  | Ok a => k a
  | Raise e => Raise e
  end.

Notation "x <- m ;; k" := (bind m (fun x => k))
  (at level 61, m at next level, right associativity).

(** ** Python string built-ins *)

Module PyStr.

Definition code (c : ascii) : nat := nat_of_ascii c.

Definition between (lo hi : nat) (c : ascii) : bool :=
  (lo <=? code c)%nat && (code c <=? hi)%nat.

(** [str.isspace] on one character; also the class [\s] of [re] on a
    [str] pattern: TAB LF VT FF CR, FS GS RS US, SPACE, NEL, NBSP. *)
Definition isspace (c : ascii) : bool :=
  between 9 13 c || between 28 31 c || (code c =? 32)%nat
  || (code c =? 133)%nat || (code c =? 160)%nat.

(** The white space [int(...)] skips around a literal: as [isspace]
    without the four separators FS GS RS US. *)
Definition int_space (c : ascii) : bool :=
  between 9 13 c || (code c =? 32)%nat
  || (code c =? 133)%nat || (code c =? 160)%nat.

(** [\d] of [re], and the digits [int(...)] reads. *)
Definition isdigit (c : ascii) : bool := between 48 57 c.

(** Characters with the Uppercase, resp. Lowercase, property. *)
Definition upper_char (c : ascii) : bool :=
  between 65 90 c || between 192 214 c || between 216 222 c.

Definition lower_char (c : ascii) : bool :=
  between 97 122 c || (code c =? 170)%nat || (code c =? 181)%nat
  || (code c =? 186)%nat || between 223 246 c || between 248 255 c.

(** [str.lower] *)
Definition lower1 (c : ascii) : ascii :=
  if upper_char c then ascii_of_nat (code c + 32) else c.

Fixpoint lower (s : string) : string :=
  match s with
  | EmptyString => EmptyString
  | String c s' => String (lower1 c) (lower s')
  end.

(** [str.isupper]: at least one cased character and no lowercase one. *)
Fixpoint any (p : ascii -> bool) (s : string) : bool :=
  match s with
  | EmptyString => false
  | String c s' => p c || any p s'
  end.

Definition isupper (s : string) : bool :=
  any upper_char s && negb (any lower_char s).

(** [str.lstrip], [str.rstrip], [str.strip] without argument. *)
Fixpoint lstrip (s : string) : string :=
  match s with
  | EmptyString => EmptyString
  | String c s' => if isspace c then lstrip s' else s
  end.

Fixpoint rstrip_with (sp : ascii -> bool) (s : string) : string :=
  match s with
  | EmptyString => EmptyString
  | String c s' =>
      match rstrip_with sp s' with
      | EmptyString => if sp c then EmptyString else String c EmptyString
      | r => String c r
      end
  end.

Definition rstrip : string -> string := rstrip_with isspace.

Definition strip (s : string) : string := rstrip (lstrip s).

(** Truth value of a string: non-empty. *)
Definition truthy (s : string) : bool :=
  match s with
  | EmptyString => false
  | String _ _ => true
  end.

(** [len(s)] as a Python integer. *)
Definition len (s : string) : Z := Z.of_nat (String.length s).

(** [s.startswith(p)] *)
Definition startswith (s p : string) : bool := String.prefix p s.

(** [sub in s] *)
Fixpoint contains (sub s : string) : bool :=
  String.prefix sub s
  || match s with
     | EmptyString => false
     | String _ s' => contains sub s'
     end.

(** [s.split(sep)] and [s.split(sep, maxsplit)] for a non-empty [sep]:
    the occurrences of [sep] are found from the left and do not overlap.
    [limit] is the number of cuts still allowed ([None]: no bound) and
    [skip] the number of characters of a separator still to be passed.
    The head of the result is the field being read. *)
Definition may_cut (limit : option nat) : bool :=
  match limit with
  | Some O => false
  | _ => true
  end.

Definition after_cut (limit : option nat) : option nat :=
  match limit with
  | Some n => Some (Nat.pred n)
  | None => None
  end.

Definition push (c : ascii) (fields : list string) : list string :=
  match fields with
  | f :: fs => String c f :: fs
  | [] => [String c EmptyString]
  end.

Fixpoint split_from (sep : string) (limit : option nat) (skip : nat)
         (s : string) : list string :=
  match s with
  | EmptyString => [EmptyString]
  | String c s' =>
      match skip with
      | S k => split_from sep limit k s'
      | O =>
          if may_cut limit && String.prefix sep s
          then EmptyString
                 :: split_from sep (after_cut limit)
                      (Nat.pred (String.length sep)) s'
          else push c (split_from sep limit 0 s')
      end
  end.

Definition split (s sep : string) : list string :=
  split_from sep None 0 s.

Definition split_max (s sep : string) (maxsplit : nat) : list string :=
  split_from sep (Some maxsplit) 0 s.

(** [l[0]] and [l[-1]] on the result of a split, which is never empty. *)
Definition first (l : list string) : string := hd EmptyString l.
Definition final (l : list string) : string := last l EmptyString.

(** [str(n)] and the [{n}] of an f-string for an integer. *)
Definition str_of_int (n : Z) : string :=
  NilEmpty.string_of_int (Z.to_int n).

(** [int(s)] in base 10: optional white space, an optional sign, then
    digits in groups separated by single underscores, then optional white
    space.  More digits than [int_max_str_digits] are refused
    (the default of [sys.set_int_max_str_digits]). *)
Definition int_max_str_digits : nat := 4300.

Fixpoint lstrip_int (s : string) : string :=
  match s with
  | EmptyString => EmptyString
  | String c s' => if int_space c then lstrip_int s' else s
  end.

Definition digit_val (c : ascii) : Z := Z.of_nat (code c - 48).

(** [digits acc n prev s]: [acc] is the value read so far, [n] the number
    of digits read, [prev] tells that the previous character was a
    digit (an underscore is legal only between two digits). *)
Fixpoint digits (acc : Z) (n : nat) (prev : bool) (s : string)
  : option (Z * nat) :=
  match s with
  | EmptyString => if prev then Some (acc, n) else None
  | String c s' =>
      if isdigit c then digits (10 * acc + digit_val c) (S n) true s'
      else if (code c =? 95)%nat && prev then digits acc n false s'
      else None
  end.

Definition int_unsigned (s : string) : option Z :=
  match digits 0 0 false s with
  | Some (v, n) => if (n <=? int_max_str_digits)%nat then Some v else None
  | None => None
  end.

Definition int (s : string) : result Z :=
  let body := rstrip_with int_space (lstrip_int s) in
  let signed :=
    match body with
    | String "-" r => option_map Z.opp (int_unsigned r)
    | String "+" r => int_unsigned r
    | _ => int_unsigned body
    end in
  match signed with
  | Some v => Ok v
  | None => Raise ValueError
  end.

End PyStr.

(** ** The fragment of [re] the analyzer uses

    [re.match(p, s)] succeeds when some prefix of [s] is in the language of
    [p].  None of the patterns below has a back-reference or a look-around,
    so whether the backtracking matcher succeeds depends on the language
    only; the matcher here follows derivatives. *)

Module Re.

Inductive regex : Type :=
| Void                              (* no string *)
| Eps                               (* the empty string *)
| Class (p : ascii -> bool)         (* one character of a class *)
| Cat (r1 r2 : regex)
| Alt (r1 r2 : regex)
| Star (r : regex).

Definition Plus (r : regex) : regex := Cat r (Star r).      (* r+ *)
Definition Opt (r : regex) : regex := Alt r Eps.            (* r? *)
Definition Chr (c : ascii) : regex := Class (Ascii.eqb c).
Definition OneOf (cs : string) : regex :=
  Class (fun c => PyStr.any (Ascii.eqb c) cs).

(** The language of a pattern. *)
Inductive lang : regex -> string -> Prop :=
| L_eps : lang Eps ""
| L_class p c : p c = true -> lang (Class p) (String c "")
| L_cat r1 r2 s1 s2 : lang r1 s1 -> lang r2 s2 -> lang (Cat r1 r2) (s1 ++ s2)
| L_alt_l r1 r2 s : lang r1 s -> lang (Alt r1 r2) s
| L_alt_r r1 r2 s : lang r2 s -> lang (Alt r1 r2) s
| L_star_nil r : lang (Star r) ""
| L_star_app r s1 s2 :
    lang r s1 -> lang (Star r) s2 -> lang (Star r) (s1 ++ s2).

Fixpoint nullable (r : regex) : bool :=
  match r with
  | Void => false
  | Eps => true
  | Class _ => false
  | Cat r1 r2 => nullable r1 && nullable r2
  | Alt r1 r2 => nullable r1 || nullable r2
  | Star _ => true
  end.

Fixpoint deriv (c : ascii) (r : regex) : regex :=
  match r with
  | Void => Void
  | Eps => Void
  | Class p => if p c then Eps else Void
  | Cat r1 r2 =>
      if nullable r1
      then Alt (Cat (deriv c r1) r2) (deriv c r2)
      else Cat (deriv c r1) r2
  | Alt r1 r2 => Alt (deriv c r1) (deriv c r2)
  | Star r1 => Cat (deriv c r1) (Star r1)
  end.

(** [re.fullmatch]: the whole string is in the language. *)
Fixpoint fullmatch (r : regex) (s : string) : bool :=
  match s with
  | EmptyString => nullable r
  | String c s' => fullmatch (deriv c r) s'
  end.

(** [re.match]: some prefix of the string is in the language. *)
Fixpoint match_ (r : regex) (s : string) : bool :=
  nullable r
  || match s with
     | EmptyString => false
     | String c s' => match_ (deriv c r) s'
     end.

Definition space : regex := Class PyStr.isspace.     (* \s *)
Definition digit : regex := Class PyStr.isdigit.     (* \d *)
Definition A_Z : regex := Class (PyStr.between 65 90).   (* [A-Z] *)

End Re.

(** ** Documents *)

Definition Image : Type := (string * string)%type.

(** The [metadata] dictionary of a [Document]: a key a policy does not set
    is [None]. *)
Record Metadata : Type := {
  source : string;
  chunk_id : string;
  document_type : string;
  page : option Z;
  total_pages : option Z;
  slide : option Z;
  total_slides : option Z;
  total_chunks : option Z;
  images : option (list Image);
  links : option (list string)
}.

Record Document : Type := {
  page_content : string;
  metadata : Metadata
}.

(** [x or []] for an optional list argument whose default is [None]. *)
Definition or_empty {A : Type} (x : option (list A)) : list A :=
  match x with
  | Some l => l
  | None => []
  end.

(** [enumerate(l)] *)
Definition enumerate {A : Type} (l : list A) : list (nat * A) :=
  combine (seq 0 (List.length l)) l.

(** A [for] loop over a list whose body updates a state and may raise. *)
Fixpoint for_each {S A : Type} (body : S -> A -> result S)
         (l : list A) (s : S) : result S :=
  match l with
  | [] => Ok s
  | x :: l' => s' <- body s x ;; for_each body l' s'
  end.

Definition LF : string := String (ascii_of_nat 10) "".

(** ** The chunker *)

Definition TextSplitter : Type := string -> list string.

Record SmartDocumentChunker : Type := {
  chunk_size : Z;
  chunk_overlap : Z;
  default_splitter : TextSplitter      (* its [split_text] *)
}.

Inductive DocType : Type := Pdf | Docx | Pptx | Txt | Unknown.

Section Chunking.

Variable self : SmartDocumentChunker.

(** *** [_chunk_pdf] *)

Definition pdf_document (file_path : string) (images : option (list Image))
           (links : option (list string)) (total : Z) (page_num : Z)
           (id content : string) : Document :=
  {| page_content := content;
     metadata :=
       {| source := file_path;
          chunk_id := id;
          document_type := "pdf";
          page := Some page_num;
          total_pages := Some total;
          slide := None;
          total_slides := None;
          total_chunks := None;
          images :=
            Some (filter
                    (fun img =>
                       PyStr.contains ("page" ++ PyStr.str_of_int page_num)
                         (fst img))
                    (or_empty images));
          links := Some (or_empty links) |} |}.

(** The label of segment [i]: the ordinal for the text before the first
    marker, the parsed token before [" ---"] otherwise. *)
Definition label (i : nat) (content : string) : result Z :=
  if (i =? 0)%nat then Ok (Z.of_nat i)
  else PyStr.int (PyStr.first (PyStr.split content " ---")).

(** The text after the first ["---\n"], or the whole text. *)
Definition body_of (content : string) : string :=
  if PyStr.contains ("---" ++ LF) content
  then PyStr.final (PyStr.split_max content ("---" ++ LF) 1)
  else content.

Definition pdf_page (file_path : string) (images : option (list Image))
           (links : option (list string)) (total : Z)
           (chunks : list Document) (ip : nat * string)
  : result (list Document) :=
  let (i, page_content) := ip in
  if negb (PyStr.truthy (PyStr.strip page_content)) then Ok chunks
  else
    page_num <- label i page_content ;;
    let actual_content := body_of page_content in
    if (PyStr.len actual_content >? chunk_size self)%Z
    then
      let page_chunks := default_splitter self actual_content in
      Ok (fold_left
            (fun chunks (jc : nat * string) =>
               let (j, chunk) := jc in
               chunks ++
                 [pdf_document file_path images links total page_num
                    ("page_" ++ PyStr.str_of_int page_num ++ "_chunk_"
                       ++ PyStr.str_of_int (Z.of_nat j))
                    chunk])
            (enumerate page_chunks) chunks)
    else
      Ok (chunks ++
            [pdf_document file_path images links total page_num
               ("page_" ++ PyStr.str_of_int page_num) actual_content]).

Definition _chunk_pdf (text file_path : string)
           (images : option (list Image)) (links : option (list string))
  : result (list Document) :=
  let pages := PyStr.split text "--- Page " in
  for_each
    (pdf_page file_path images links (Z.of_nat (List.length pages) - 1))
    (enumerate pages) [].

(** *** [_chunk_docx] *)

Definition docx_document (file_path : string) (images : option (list Image))
           (links : option (list string)) (k : Z) (content : string)
  : Document :=
  {| page_content := content;
     metadata :=
       {| source := file_path;
          chunk_id := "docx_chunk_" ++ PyStr.str_of_int k;
          document_type := "docx";
          page := None;
          total_pages := None;
          slide := None;
          total_slides := None;
          total_chunks := None;
          images := Some (or_empty images);
          links := Some (or_empty links) |} |}.

(** The state of the paragraph loop. *)
Record DocxState : Type := {
  chunks : list Document;
  current_chunk : string;
  chunk_count : Z                    (* the local variable [chunk_id] *)
}.

Definition paragraphs (text : string) : list string :=
  map PyStr.strip
    (filter (fun p => PyStr.truthy (PyStr.strip p)) (PyStr.split text LF)).

Definition docx_para (file_path : string) (images : option (list Image))
           (links : option (list string)) (st : DocxState) (para : string)
  : DocxState :=
  if (PyStr.len (current_chunk st) + PyStr.len para >? chunk_size self)%Z
     && PyStr.truthy (current_chunk st)
  then
    {| chunks :=
         chunks st ++
           [docx_document file_path images links (chunk_count st)
              (PyStr.strip (current_chunk st))];
       current_chunk := para ++ LF;
       chunk_count := chunk_count st + 1 |}
  else
    {| chunks := chunks st;
       current_chunk := current_chunk st ++ para ++ LF;
       chunk_count := chunk_count st |}.

(** The block after the loop: "Add the last chunk". *)
Definition docx_last (file_path : string) (images : option (list Image))
           (links : option (list string)) (st : DocxState)
  : list Document :=
  if PyStr.truthy (PyStr.strip (current_chunk st))
  then
    chunks st ++
      [docx_document file_path images links (chunk_count st)
         (PyStr.strip (current_chunk st))]
  else chunks st.

Definition _chunk_docx (text file_path : string)
           (images : option (list Image)) (links : option (list string))
  : list Document :=
  docx_last file_path images links
    (fold_left (docx_para file_path images links) (paragraphs text)
       {| chunks := []; current_chunk := ""; chunk_count := 0 |}).

(** *** [_chunk_pptx] *)

Definition pptx_document (file_path : string) (images : option (list Image))
           (links : option (list string)) (total : Z) (slide_num : Z)
           (content : string) : Document :=
  {| page_content := content;
     metadata :=
       {| source := file_path;
          chunk_id := "slide_" ++ PyStr.str_of_int slide_num;
          document_type := "pptx";
          page := None;
          total_pages := None;
          slide := Some slide_num;
          total_slides := Some total;
          total_chunks := None;
          images :=
            Some (filter
                    (fun img =>
                       PyStr.contains
                         ("slide" ++ PyStr.str_of_int slide_num) (fst img))
                    (or_empty images));
          links := Some (or_empty links) |} |}.

Definition pptx_slide (file_path : string) (images : option (list Image))
           (links : option (list string)) (total : Z)
           (chunks : list Document) (entry : nat * string)
  : result (list Document) :=
  let (i, slide_content) := entry in
  if negb (PyStr.truthy (PyStr.strip slide_content)) then Ok chunks
  else
    slide_num <- label i slide_content ;;
    let actual_content := body_of slide_content in
    if PyStr.truthy (PyStr.strip actual_content)
    then
      Ok (chunks ++
            [pptx_document file_path images links total slide_num
               (PyStr.strip actual_content)])
    else Ok chunks.

Definition _chunk_pptx (text file_path : string)
           (images : option (list Image)) (links : option (list string))
  : result (list Document) :=
  let slides := PyStr.split text "--- Slide " in
  for_each
    (pptx_slide file_path images links (Z.of_nat (List.length slides) - 1))
    (enumerate slides) [].

(** *** [_chunk_txt] and [_chunk_default] *)

Definition txt_document (file_path : string) (total : Z) (i : nat)
           (content : string) : Document :=
  {| page_content := content;
     metadata :=
       {| source := file_path;
          chunk_id := "txt_chunk_" ++ PyStr.str_of_int (Z.of_nat i);
          document_type := "txt";
          page := None;
          total_pages := None;
          slide := None;
          total_slides := None;
          total_chunks := Some total;
          images := None;
          links := None |} |}.

Definition _chunk_txt (text file_path : string) : list Document :=
  let text_chunks := default_splitter self text in
  fold_left
    (fun chunks (ic : nat * string) =>
       let (i, chunk) := ic in
       chunks ++
         [txt_document file_path (Z.of_nat (List.length text_chunks)) i
            chunk])
    (enumerate text_chunks) [].

Definition default_document (file_path : string)
           (images : option (list Image)) (links : option (list string))
           (total : Z) (i : nat) (content : string) : Document :=
  {| page_content := content;
     metadata :=
       {| source := file_path;
          chunk_id := "chunk_" ++ PyStr.str_of_int (Z.of_nat i);
          document_type := "unknown";
          page := None;
          total_pages := None;
          slide := None;
          total_slides := None;
          total_chunks := Some total;
          images := Some (or_empty images);
          links := Some (or_empty links) |} |}.

Definition _chunk_default (text file_path : string)
           (images : option (list Image)) (links : option (list string))
  : list Document :=
  let text_chunks := default_splitter self text in
  fold_left
    (fun chunks (ic : nat * string) =>
       let (i, chunk) := ic in
       chunks ++
         [default_document file_path images links
            (Z.of_nat (List.length text_chunks)) i chunk])
    (enumerate text_chunks) [].

(** *** [chunk_document] *)

Definition chunk_document (text file_path : string)
           (images : option (list Image)) (links : option (list string))
  : result (list Document) :=
  let file_ext := PyStr.final (PyStr.split (PyStr.lower file_path) ".") in
  if file_ext =? "pdf" then _chunk_pdf text file_path images links
  else if file_ext =? "docx"
       then Ok (_chunk_docx text file_path images links)
  else if file_ext =? "pptx" then _chunk_pptx text file_path images links
  else if file_ext =? "txt" then Ok (_chunk_txt text file_path)
  else Ok (_chunk_default text file_path images links).

End Chunking.

(** ** The structure analyzer *)

Module Header.
Record t : Type := {
  text : string;
  line_number : nat;
  level : Z
}.
End Header.

Module Item.
Record t : Type := {
  text : string;
  line_number : nat;
  type : string
}.
End Item.

(** The dictionary [structure]; nothing is ever put in ['tables'] and
    ['sections']. *)
Record Structure : Type := {
  headers : list Header.t;
  lists : list Item.t;
  tables : list unit;
  sections : list unit
}.

Module Pattern.
Import Re.

(** [^#+\s] *)
Definition markdown_header : regex := Cat (Plus (Chr "#")) space.

(** [^\d+\.?\s+[A-Z]] *)
Definition numbered_section : regex :=
  Cat (Plus digit) (Cat (Opt (Chr ".")) (Cat (Plus space) A_Z)).

(** [^[\*\-\+]\s+] *)
Definition bullet : regex := Cat (OneOf "*-+") (Plus space).

(** [^\d+\.?\s+] *)
Definition numbered : regex :=
  Cat (Plus digit) (Cat (Opt (Chr ".")) (Plus space)).
End Pattern.

Definition _estimate_header_level (text : string) : Z :=
  if PyStr.startswith text "###" then 3
  else if PyStr.startswith text "##" then 2
  else if PyStr.startswith text "#" then 1
  else if PyStr.isupper text then 1
  else if Re.match_ Pattern.numbered text then 2
  else 3.

(** The two tests of the loop body, on the stripped line. *)
Definition header_test (line : string) : bool :=
  PyStr.truthy line
  && (PyStr.isupper line
      || Re.match_ Pattern.markdown_header line
      || Re.match_ Pattern.numbered_section line).

Definition list_test (line : string) : bool :=
  Re.match_ Pattern.bullet line || Re.match_ Pattern.numbered line.

Definition analyze_line (structure : Structure) (entry : nat * string)
  : Structure :=
  let (i, raw) := entry in
  let line := PyStr.strip raw in
  let structure :=
    if header_test line
    then
      {| headers :=
           headers structure ++
             [ {| Header.text := line;
                  Header.line_number := i;
                  Header.level := _estimate_header_level line |} ];
         lists := lists structure;
         tables := tables structure;
         sections := sections structure |}
    else structure in
  if list_test line
  then
    {| headers := headers structure;
       lists :=
         lists structure ++
           [ {| Item.text := line;
                Item.line_number := i;
                Item.type :=
                  if PyStr.startswith line "*" || PyStr.startswith line "-"
                     || PyStr.startswith line "+"
                  then "bullet" else "numbered" |} ];
       tables := tables structure;
       sections := sections structure |}
  else structure.

Definition extract_headers_and_structure (text : string) : Structure :=
  let lines := PyStr.split text LF in
  fold_left analyze_line (enumerate lines)
    {| headers := []; lists := []; tables := []; sections := [] |}.

(** ** A concrete chunker

    The theorems hold for every splitter.  Where a closed example needs a
    chunker, the splitter below stands in for the third-party one: it cuts
    the text every [size] characters, so it returns no piece for the empty
    text. *)

Fixpoint hard_cut_from (fuel size : nat) (s : string) : list string :=
  match fuel with
  | O => []
  | S fuel' =>
      match s with
      | EmptyString => []
      | String _ _ =>
          String.substring 0 (Nat.max 1 size) s
            :: hard_cut_from fuel' size
                 (String.substring (Nat.max 1 size) (String.length s) s)
      end
  end.

Definition hard_cut (size : nat) : TextSplitter :=
  fun s => hard_cut_from (String.length s) size s.

Definition chunker_1000 : SmartDocumentChunker :=
  {| chunk_size := 1000;
     chunk_overlap := 200;
     default_splitter := hard_cut 1000 |}.

(** [s * n] *)
Fixpoint times (s : string) (n : nat) : string :=
  match n with
  | O => EmptyString
  | S n' => (s ++ times s n')%string
  end.

Definition ids_of (docs : list Document) : list string :=
  map (fun d => chunk_id (metadata d)) docs.

Definition contents_of (docs : list Document) : list string :=
  map page_content docs.

Definition contents_of_result (r : result (list Document))
  : result (list string) :=
  docs <- r ;; Ok (contents_of docs).

(** ** Auxiliary notions used in the statements *)

(** Segment [i] with text [content] is read (it is not blank) and its
    label does not parse. *)
Definition bad_label (entry : nat * string) : bool :=
  PyStr.truthy (PyStr.strip (snd entry))
  && match label (fst entry) (snd entry) with
     | Ok _ => false
     | Raise _ => true
     end.

(** The tag a chunk's images are matched against: ["page<n>"] or
    ["slide<n>"], from the chunk's own [page] or [slide] entry. *)
Definition positional_tag (m : Metadata) : option string :=
  match page m, slide m with
  | Some n, _ => Some ("page" ++ PyStr.str_of_int n)%string
  | None, Some n => Some ("slide" ++ PyStr.str_of_int n)%string
  | None, None => None
  end.

Definition images_rule (imgs : option (list Image))
           (lks : option (list string)) (d : Document) : Prop :=
  exists tag,
    positional_tag (metadata d) = Some tag
    /\ images (metadata d)
       = Some (filter (fun img => PyStr.contains tag (fst img))
                 (or_empty imgs))
    /\ links (metadata d) = Some (or_empty lks).

(** The docx policy in the words of the specification: paragraphs are
    accumulated into a buffer; when appending the next paragraph would make
    the buffer exceed [max_size] and the buffer is not empty, the buffer is
    flushed and a new buffer starts with that paragraph; what remains is
    flushed at the end.  The result is the sequence of flushed buffers. *)
Fixpoint greedy (max_size : Z) (buffer : string) (paras : list string)
  : list string :=
  match paras with
  | [] => if PyStr.truthy (PyStr.strip buffer) then [buffer] else []
  | para :: rest =>
      if (PyStr.len buffer + PyStr.len para >? max_size)%Z
         && PyStr.truthy buffer
      then buffer :: greedy max_size (para ++ LF) rest
      else greedy max_size (buffer ++ para ++ LF) rest
  end.

(** One chunk per flushed buffer, numbered in the order of the flushes. *)
Definition number_from (fp : string) (imgs : option (list Image))
           (lks : option (list string)) (k : nat) (buffers : list string)
  : list Document :=
  map (fun kb : nat * string =>
         docx_document fp imgs lks (Z.of_nat (fst kb)) (PyStr.strip (snd kb)))
    (combine (seq k (List.length buffers)) buffers).

(** The extension in the words of the specification: the substring after
    the last occurrence of [d], or the whole string when [d] does not
    occur in it. *)
Fixpoint after_last (d : ascii) (s : string) : string :=
  match s with
  | EmptyString => EmptyString
  | String c s' =>
      if PyStr.any (Ascii.eqb d) s' then after_last d s'
      else if Ascii.eqb d c then s'
      else s
  end.

Definition extension (file_path : string) : string :=
  after_last "." (PyStr.lower file_path).

Definition policy_of_ext (ext : string) : DocType :=
  if ext =? "pdf" then Pdf
  else if ext =? "docx" then Docx
  else if ext =? "pptx" then Pptx
  else if ext =? "txt" then Txt
  else Unknown.

Definition apply_policy (self : SmartDocumentChunker) (t : DocType)
           (text file_path : string) (imgs : option (list Image))
           (lks : option (list string)) : result (list Document) :=
  match t with
  | Pdf => _chunk_pdf self text file_path imgs lks
  | Docx => Ok (_chunk_docx self text file_path imgs lks)
  | Pptx => _chunk_pptx text file_path imgs lks
  | Txt => Ok (_chunk_txt self text file_path)
  | Unknown => Ok (_chunk_default self text file_path imgs lks)
  end.

Definition types_of_result (r : result (list Document))
  : result (list string) :=
  docs <- r ;; Ok (map (fun d => document_type (metadata d)) docs).

Definition has_dot (s : string) : bool := PyStr.any (Ascii.eqb ".") s.

(** The entries the analyzer appends for line [i]. *)
Definition header_entry (i : nat) (line : string) : Header.t :=
  {| Header.text := line;
     Header.line_number := i;
     Header.level := _estimate_header_level line |}.

Definition item_entry (i : nat) (line : string) : Item.t :=
  {| Item.text := line;
     Item.line_number := i;
     Item.type :=
       if PyStr.startswith line "*" || PyStr.startswith line "-"
          || PyStr.startswith line "+"
       then "bullet" else "numbered" |}.

(** The numbered, stripped lines of a text. *)
Definition stripped_lines (text : string) : list (nat * string) :=
  map (fun e : nat * string => (fst e, PyStr.strip (snd e)))
    (enumerate (PyStr.split text LF)).

(** The structure segmenter, which the loops of [_chunk_pdf] and
    [_chunk_pptx] contain: the (label, body) pairs of the segments that
    are not blank, in order. *)
Definition segment (entry : nat * string) : result (option (Z * string)) :=
  if negb (PyStr.truthy (PyStr.strip (snd entry))) then Ok None
  else n <- label (fst entry) (snd entry) ;; Ok (Some (n, body_of (snd entry))).

Fixpoint segments (l : list (nat * string)) : result (list (Z * string)) :=
  match l with
  | [] => Ok []
  | e :: l' =>
      o <- segment e ;;
      rest <- segments l' ;;
      Ok (match o with
          | Some x => x :: rest
          | None => rest
          end)
  end.

Definition pdf_segments (text : string) : result (list (Z * string)) :=
  segments (enumerate (PyStr.split text "--- Page ")).

Definition pptx_segments (text : string) : result (list (Z * string)) :=
  segments (enumerate (PyStr.split text "--- Slide ")).

(** What each policy emits for one segment. *)
Definition emit_pdf (self : SmartDocumentChunker) (fp : string)
           (imgs : option (list Image)) (lks : option (list string))
           (total : Z) (seg : Z * string) : list Document :=
  let (n, body) := seg in
  if (PyStr.len body >? chunk_size self)%Z
  then
    map (fun jc : nat * string =>
           pdf_document fp imgs lks total n
             ("page_" ++ PyStr.str_of_int n ++ "_chunk_"
                ++ PyStr.str_of_int (Z.of_nat (fst jc)))
             (snd jc))
      (enumerate (default_splitter self body))
  else [pdf_document fp imgs lks total n ("page_" ++ PyStr.str_of_int n) body].

Definition emit_pptx (fp : string) (imgs : option (list Image))
           (lks : option (list string)) (total : Z) (seg : Z * string)
  : list Document :=
  let (n, body) := seg in
  if PyStr.truthy (PyStr.strip body)
  then [pptx_document fp imgs lks total n (PyStr.strip body)]
  else [].

Definition ids_of_result (r : result (list Document))
  : result (list string) :=
  docs <- r ;; Ok (ids_of docs).

(** An identifier built on the label [n]: [pre ++ str(n)], alone or
    followed by an underscore and more. *)
Definition labelled (pre : string) (n : Z) (id : string) : Prop :=
  exists t, id = (pre ++ PyStr.str_of_int n ++ t)%string
            /\ (t = "" \/ exists t', t = String "_" t').

Definition no_underscore (s : string) : Prop :=
  PyStr.any (Ascii.eqb "_") s = false.

Definition emitted (emit : Z * string -> list Document)
           (o : option (Z * string)) : list Document :=
  match o with
  | Some seg => emit seg
  | None => []
  end.

(** The first character exists and is not white space. *)
Definition starts_clean (s : string) : bool :=
  match s with
  | EmptyString => false
  | String c _ => negb (PyStr.isspace c)
  end.

(** The content of a chunk is neither empty nor white space only. *)
Definition not_blank (d : Document) : Prop :=
  PyStr.truthy (PyStr.strip (page_content d)) = true.

(** A paragraph as [_chunk_docx] keeps it: stripped and not empty. *)
Definition stripped (s : string) : Prop :=
  starts_clean s = true /\ PyStr.rstrip s = s.

(** The buffer [para + "\n"] repeated over a list of paragraphs. *)
Fixpoint buffer_of (paras : list string) : string :=
  match paras with
  | [] => EmptyString
  | para :: rest => (para ++ LF ++ buffer_of rest)%string
  end.

(** No occurrence of [sep] starts inside [a] in the text [a ++ rest]. *)
Fixpoint no_cut_before (sep a rest : string) : bool :=
  match a with
  | EmptyString => true
  | String _ a' =>
      negb (String.prefix sep (a ++ rest)) && no_cut_before sep a' rest
  end.

(** Only decimal digits. *)
Definition digits_only (s : string) : bool :=
  negb (PyStr.any (fun c => negb (PyStr.isdigit c)) s).

(** The value of a numeral read from the left, starting from [acc]. *)
Fixpoint uval (acc : Z) (d : Decimal.uint) : Z :=
  match d with
  | Nil => acc
  | D0 l => uval (10 * acc + 0) l
  | D1 l => uval (10 * acc + 1) l
  | D2 l => uval (10 * acc + 2) l
  | D3 l => uval (10 * acc + 3) l
  | D4 l => uval (10 * acc + 4) l
  | D5 l => uval (10 * acc + 5) l
  | D6 l => uval (10 * acc + 6) l
  | D7 l => uval (10 * acc + 7) l
  | D8 l => uval (10 * acc + 8) l
  | D9 l => uval (10 * acc + 9) l
  end.

(** The largest integer [int(...)] reads back from its own [str(...)]:
    [int_max_str_digits] digits. *)
Definition int_limit : Z := 10 ^ 4300.

(** A segment as the extractors write it after a marker: the number, the
    end of the marker line, and the text. *)
Definition numbered (n : Z) (rest : string) : string :=
  (PyStr.str_of_int n ++ " ---" ++ LF ++ rest)%string.

(** ** The extractors of [util/data_extraction.py]

    What the extractors obtain from outside the program is given by a
    [World]: the file system, the documents as PyMuPDF, python-docx and
    python-pptx present them, and the two OCR engines.  [bytes] are a
    [string].  A call the code guards with [try] is an [option], [None]
    when it raises; the other library calls are taken to return. *)

(** A page as [fitz] presents it: [get_text()], for each entry of
    [get_images(full=True)] the ["image"] and ["ext"] of
    [doc.extract_image(xref)], and for each entry of [get_links()] its
    [get('uri')]. *)
Record PdfPage : Type := {
  get_text : string;
  get_images : list (option (string * string));
  get_links : list (option string)
}.

(** A paragraph of a docx file: its text and, for each run, the
    [target_ref] of its hyperlink when it has one. *)
Record Paragraph : Type := {
  para_text : string;
  run_targets : list (option string)
}.

(** A relationship of the document part: [target_ref] and
    [target_part.blob]. *)
Record Rel : Type := {
  target_ref : string;
  target_blob : option string
}.

Record DocxFile : Type := {
  doc_paragraphs : list Paragraph;
  doc_rels : list Rel
}.

(** A shape of a slide: [text] when the shape has the attribute; [image]
    when it has a true one, with its [blob]; the [address] of its
    hyperlink when it has one. *)
Record Shape : Type := {
  shape_text : option string;
  shape_image : option (option string);
  shape_address : option string
}.

Record World : Type := {
  path_exists : string -> bool;                     (* os.path.exists *)
  getsize : string -> Z;                            (* os.path.getsize *)
  fitz_open : string -> list PdfPage;
  docx_Document : string -> DocxFile;
  Presentation : string -> list (list Shape);       (* prs.slides' shapes *)
  read_utf8 : string -> option string;          (* None: UnicodeDecodeError *)
  read_latin1 : string -> string;
  read_bytes : string -> option string;
  GOOGLE_VISION_AVAILABLE : bool;
  TESSERACT_AVAILABLE : bool;
  text_annotations : string -> option (list string);  (* their descriptions *)
  image_to_string : string -> option string
}.

(** *** Paths: [str.rfind], slices, [os.path.basename], [os.path.splitext]
    (as [posixpath] defines them) *)

Fixpoint rfind (c : ascii) (s : string) : Z :=
  match s with
  | EmptyString => -1
  | String d s' =>
      let r := rfind c s' in
      if (0 <=? r)%Z then r + 1
      else if Ascii.eqb c d then 0 else -1
  end.

(** [s[i:]] and [s[:i]] for [0 <= i]. *)
Definition slice_from (i : Z) (s : string) : string :=
  String.substring (Z.to_nat i) (String.length s - Z.to_nat i) s.

Definition slice_to (i : Z) (s : string) : string :=
  String.substring 0 (Z.to_nat i) s.

Definition basename (p : string) : string :=
  slice_from (rfind "/" p + 1) p.

(** The [while] loop of [_splitext]: [true] when a character that is not a
    dot is found in the [n] characters from [filenameIndex] on. *)
Fixpoint name_before_dot (p : string) (filenameIndex n : nat) : bool :=
  match n with
  | O => false
  | S n' =>
      match String.get filenameIndex p with
      | Some c =>
          if Ascii.eqb c "." then name_before_dot p (S filenameIndex) n'
          else true
      | None => true
      end
  end.

Definition splitext (p : string) : string * string :=
  let sepIndex := rfind "/" p in
  let dotIndex := rfind "." p in
  if (dotIndex >? sepIndex)%Z
     && name_before_dot p (Z.to_nat (sepIndex + 1))
          (Z.to_nat (dotIndex - (sepIndex + 1)))
  then (slice_to dotIndex p, slice_from dotIndex p)
  else (p, EmptyString).

(** [os.path.splitext(os.path.basename(path))[0]] *)
Definition stem (path : string) : string := fst (splitext (basename path)).

(** *** OCR *)

Definition _extract_text_google_vision (w : World) (image_bytes : string)
  : option string :=
  match text_annotations w image_bytes with
  | Some (t :: _) => Some t
  | Some [] => Some EmptyString
  | None => None
  end.

Definition _extract_text_tesseract (w : World) (image_bytes : string)
  : option string :=
  image_to_string w image_bytes.

Definition extract_text_from_image (w : World) (image_bytes : string)
           (use_google_vision : bool) : string :=
  let attempt :=
    if use_google_vision && GOOGLE_VISION_AVAILABLE w
    then _extract_text_google_vision w image_bytes
    else if TESSERACT_AVAILABLE w
         then _extract_text_tesseract w image_bytes
         else Some "[OCR not available - no text extracted from image]" in
  match attempt with
  | Some t => t
  | None => "[OCR failed - no text extracted from image]"
  end.

(** *** [validate_file]

    The dictionary it returns is a tagged union: ['valid'] false with the
    reason, or true with the size and the type.  The size is kept in bytes:
    [file_size > max_size_mb], on the quotient by [1024 * 1024], is the
    comparison below (exactly so for sizes under 2^53 bytes). *)

Inductive ValidationError : Type :=
| FileDoesNotExist
| FileTooLarge (size_bytes max_size_mb : Z)
| UnsupportedFileType (file_ext : string).

Inductive Validation : Type :=
| Invalid (error : ValidationError)
| Valid (size_bytes : Z) (type : string).

Definition supported_exts : list string :=
  [".pdf"; ".docx"; ".pptx"; ".txt"; ".jpg"; ".jpeg"; ".png"; ".bmp"; ".tiff"].

Definition validate_file (w : World) (file_path : string) (max_size_mb : Z)
  : Validation :=
  if negb (path_exists w file_path) then Invalid FileDoesNotExist
  else
    let file_size := getsize w file_path in
    if (file_size >? max_size_mb * (1024 * 1024))%Z
    then Invalid (FileTooLarge file_size max_size_mb)
    else
      let file_ext := PyStr.lower (snd (splitext file_path)) in
      if negb (existsb (String.eqb file_ext) supported_exts)
      then Invalid (UnsupportedFileType file_ext)
      else Valid file_size file_ext.

(** What an extractor returns: the text, the images and the links. *)
Definition Extracted : Type := (string * list Image * list string)%type.

(** The line an image adds to the text, without its line feeds. *)
Definition ocr_line (image_name ocr_text : string) : string :=
  ("[Image OCR - " ++ image_name ++ "]: " ++ ocr_text)%string.

(** The links a list of optional addresses contributes: the true ones. *)
Definition true_links (l : list (option string)) : list string :=
  flat_map (fun x => match x with
                     | Some u => if PyStr.truthy u then [u] else []
                     | None => []
                     end) l.

(** *** [extract_from_pdf] *)

Definition pdf_image_name (pdf_path : string) (i img_index : nat)
           (image_ext : string) : string :=
  (stem pdf_path ++ "_page" ++ PyStr.str_of_int (Z.of_nat i + 1)
     ++ "_img" ++ PyStr.str_of_int (Z.of_nat img_index + 1)
     ++ "." ++ image_ext)%string.

(** The body of the loop over the images of page [i]. *)
Definition pdf_image (w : World) (pdf_path : string) (i : nat)
           (st : string * list Image) (entry : nat * option (string * string))
  : string * list Image :=
  let (all_text, images) := st in
  let (img_index, img) := entry in
  match img with
  | None => (all_text, images)
  | Some (image_bytes, image_ext) =>
      let image_name := pdf_image_name pdf_path i img_index image_ext in
      let ocr_text := extract_text_from_image w image_bytes true in
      ((if PyStr.truthy (PyStr.strip ocr_text)
        then all_text ++ LF ++ ocr_line image_name ocr_text
        else all_text)%string,
       images ++ [(image_name, ocr_text)])
  end.

(** The body of the loop over the pages. *)
Definition pdf_page_step (w : World) (pdf_path : string) (st : Extracted)
           (entry : nat * PdfPage) : Extracted :=
  let '(all_text, images, links) := st in
  let (i, page) := entry in
  let all_text :=
    (all_text ++ LF ++ "--- Page " ++ PyStr.str_of_int (Z.of_nat i + 1)
       ++ " ---" ++ LF ++ get_text page)%string in
  let (all_text, images) :=
    fold_left (pdf_image w pdf_path i) (enumerate (get_images page))
      (all_text, images) in
  (all_text, images, links ++ true_links (get_links page)).

Definition extract_from_pdf (w : World) (pdf_path : string)
  : result Extracted :=
  match validate_file w pdf_path 50 with
  | Invalid _ => Raise ValueError
  | Valid _ _ =>
      Ok (fold_left (pdf_page_step w pdf_path)
            (enumerate (fitz_open w pdf_path)) (EmptyString, [], []))
  end.

(** *** [extract_from_docx] *)

Definition docx_para_step (st : string * list string) (para : Paragraph)
  : string * list string :=
  let (all_text, links) := st in
  ((if PyStr.truthy (PyStr.strip (para_text para))
    then all_text ++ para_text para ++ LF
    else all_text)%string,
   links ++ true_links (run_targets para)).

Definition docx_image_name (docx_path : string) (img_count : nat) : string :=
  (stem docx_path ++ "_img"
     ++ PyStr.str_of_int (Z.of_nat img_count + 1))%string.

(** The body of the loop over the relationships; [img_count] is the number
    of images appended so far. *)
Definition docx_rel_step (w : World) (docx_path : string)
           (st : string * list Image * nat) (rel : Rel)
  : string * list Image * nat :=
  let '(all_text, images, img_count) := st in
  if PyStr.contains "image" (target_ref rel)
  then
    match target_blob rel with
    | None => (all_text, images, img_count)
    | Some image_bytes =>
        let image_name := docx_image_name docx_path img_count in
        let ocr_text := extract_text_from_image w image_bytes true in
        ((if PyStr.truthy (PyStr.strip ocr_text)
          then all_text ++ LF ++ ocr_line image_name ocr_text ++ LF
          else all_text)%string,
         images ++ [(image_name, ocr_text)],
         S img_count)
    end
  else (all_text, images, img_count).

Definition extract_from_docx (w : World) (docx_path : string)
  : result Extracted :=
  match validate_file w docx_path 50 with
  | Invalid _ => Raise ValueError
  | Valid _ _ =>
      let doc := docx_Document w docx_path in
      let (all_text, links) :=
        fold_left docx_para_step (doc_paragraphs doc) (EmptyString, []) in
      let '(all_text, images, _) :=
        fold_left (docx_rel_step w docx_path) (doc_rels doc)
          (all_text, [], 0%nat) in
      Ok (all_text, images, links)
  end.

(** *** [extract_from_pptx] *)

Definition pptx_image_name (pptx_path : string) (i : nat) : string :=
  (stem pptx_path ++ "_slide" ++ PyStr.str_of_int (Z.of_nat i + 1)
     ++ "_img")%string.

(** The body of the loop over the shapes of slide [i]. *)
Definition pptx_shape (w : World) (pptx_path : string) (i : nat)
           (st : Extracted) (shape : Shape) : Extracted :=
  let '(slide_text, images, links) := st in
  let slide_text :=
    match shape_text shape with
    | Some t =>
        if PyStr.truthy (PyStr.strip t) then (slide_text ++ t ++ LF)%string
        else slide_text
    | None => slide_text
    end in
  let (slide_text, images) :=
    match shape_image shape with
    | Some (Some image_bytes) =>
        let image_name := pptx_image_name pptx_path i in
        let ocr_text := extract_text_from_image w image_bytes true in
        ((if PyStr.truthy (PyStr.strip ocr_text)
          then slide_text ++ LF ++ ocr_line image_name ocr_text ++ LF
          else slide_text)%string,
         images ++ [(image_name, ocr_text)])
    | _ => (slide_text, images)
    end in
  let links :=
    match shape_address shape with
    | Some a => if PyStr.truthy a then links ++ [a] else links
    | None => links
    end in
  (slide_text, images, links).

(** The body of the loop over the slides. *)
Definition pptx_slide_step (w : World) (pptx_path : string) (st : Extracted)
           (entry : nat * list Shape) : Extracted :=
  let '(all_text, images, links) := st in
  let (i, shapes) := entry in
  let slide_text :=
    (LF ++ "--- Slide " ++ PyStr.str_of_int (Z.of_nat i + 1)
       ++ " ---" ++ LF)%string in
  let '(slide_text, images, links) :=
    fold_left (pptx_shape w pptx_path i) shapes (slide_text, images, links) in
  ((all_text ++ slide_text)%string, images, links).

Definition extract_from_pptx (w : World) (pptx_path : string)
  : result Extracted :=
  match validate_file w pptx_path 50 with
  | Invalid _ => Raise ValueError
  | Valid _ _ =>
      Ok (fold_left (pptx_slide_step w pptx_path)
            (enumerate (Presentation w pptx_path)) (EmptyString, [], []))
  end.

(** *** [extract_from_txt], [extract_from_image], [extract_content] *)

Definition extract_from_txt (w : World) (txt_path : string)
  : result Extracted :=
  match validate_file w txt_path 50 with
  | Invalid _ => Raise ValueError
  | Valid _ _ =>
      let text :=
        match read_utf8 w txt_path with
        | Some text => text
        | None => read_latin1 w txt_path
        end in
      Ok (text, [], [])
  end.

Definition extract_from_image (w : World) (image_path : string)
  : result Extracted :=
  match validate_file w image_path 50 with
  | Invalid _ => Raise ValueError
  | Valid _ _ =>
      match read_bytes w image_path with
      | None => Raise ValueError
      | Some image_bytes =>
          let image_name := stem image_path in
          let ocr_text := extract_text_from_image w image_bytes true in
          Ok (ocr_text, [(image_name, ocr_text)], [])
      end
  end.

Definition image_exts : list string :=
  [".jpg"; ".jpeg"; ".png"; ".bmp"; ".tiff"].

Definition extract_content (w : World) (file_path : string)
  : result Extracted :=
  match validate_file w file_path 50 with
  | Invalid _ => Raise ValueError
  | Valid _ file_ext =>
      if file_ext =? ".pdf" then extract_from_pdf w file_path
      else if file_ext =? ".docx" then extract_from_docx w file_path
      else if file_ext =? ".pptx" then extract_from_pptx w file_path
      else if file_ext =? ".txt" then extract_from_txt w file_path
      else if existsb (String.eqb file_ext) image_exts
           then extract_from_image w file_path
      else Raise ValueError
  end.

(** ** From the extractors to the chunker *)

(** The text [extract_from_pdf] writes for page [i] after the marker line:
    the text of the page and the OCR lines of its images. *)
Definition pdf_page_text (w : World) (pdf_path : string)
           (entry : nat * PdfPage) : string :=
  fst (fold_left (pdf_image w pdf_path (fst entry))
         (enumerate (get_images (snd entry)))
         (get_text (snd entry), [])).

Definition pdf_page_texts (w : World) (pdf_path : string) : list string :=
  map (pdf_page_text w pdf_path) (enumerate (fitz_open w pdf_path)).

(** The text [extract_from_pptx] writes for slide [i] after the marker
    line. *)
Definition pptx_slide_text (w : World) (pptx_path : string)
           (entry : nat * list Shape) : string :=
  fst (fst (fold_left (pptx_shape w pptx_path (fst entry)) (snd entry)
              (EmptyString, [], []))).

Definition pptx_slide_texts (w : World) (pptx_path : string) : list string :=
  map (pptx_slide_text w pptx_path) (enumerate (Presentation w pptx_path)).

(** A text made of blocks, each after a line feed and a marker. *)
Fixpoint marked (marker : string) (blocks : list string) : string :=
  match blocks with
  | [] => EmptyString
  | b :: bs => (LF ++ marker ++ b ++ marked marker bs)%string
  end.

(** The fields around the markers of [x ++ marked marker blocks]. *)
Fixpoint fields (x : string) (blocks : list string) : list string :=
  match blocks with
  | [] => [x]
  | b :: bs => (x ++ LF)%string :: fields b bs
  end.

(** The blocks numbered from [k] on. *)
Fixpoint blocks_from (k : nat) (payloads : list string) : list string :=
  match payloads with
  | [] => []
  | p :: ps => numbered (Z.of_nat k) p :: blocks_from (S k) ps
  end.

(** The segments read back from the texts of the pages, numbered from [k]
    on: every text but the last is followed by the line feed that
    precedes the next marker. *)
Fixpoint bodies_from (k : nat) (p : string) (ps : list string)
  : list (Z * string) :=
  match ps with
  | [] => [(Z.of_nat k, p)]
  | q :: qs => (Z.of_nat k, (p ++ LF)%string) :: bodies_from (S k) q qs
  end.

Definition numbered_bodies (payloads : list string) : list (Z * string) :=
  match payloads with
  | [] => []
  | p :: ps => bodies_from 1 p ps
  end.

(** A small world: a pdf of two pages, the second with one image, and a
    deck of two slides; no OCR engine is installed. *)
Definition sample_world : World :=
  {| path_exists := fun _ => true;
     getsize := fun _ => 2048%Z;
     fitz_open := fun _ =>
       [ {| get_text := "First page"; get_images := []; get_links := [] |};
         {| get_text := "Second page";
            get_images := [Some ("bytes", "png")];
            get_links := [Some "https://example.org"; None] |} ];
     docx_Document := fun _ =>
       {| doc_paragraphs :=
            [ {| para_text := "Title"; run_targets := [] |};
              {| para_text := "  "; run_targets := [] |};
              {| para_text := "Body text"; run_targets := [None] |} ];
          doc_rels := [] |};
     Presentation := fun _ =>
       [ [ {| shape_text := Some "Welcome"; shape_image := None;
              shape_address := None |} ];
         [ {| shape_text := Some "Agenda"; shape_image := None;
              shape_address := Some "https://example.org" |} ] ];
     read_utf8 := fun _ => Some "plain text";
     read_latin1 := fun _ => "plain text";
     read_bytes := fun _ => Some "bytes";
     GOOGLE_VISION_AVAILABLE := false;
     TESSERACT_AVAILABLE := false;
     text_annotations := fun _ => None;
     image_to_string := fun _ => None |}.

(** The texts of the slides with their numbers, from 1 on. *)
Definition numbered_texts (payloads : list string) : list (Z * string) :=
  map (fun e : nat * string => (Z.of_nat (fst e), snd e))
    (combine (seq 1 (List.length payloads)) payloads).

(** The text is empty or ends with a line feed. *)
Definition closed (t : string) : Prop :=
  t = "" \/ exists t', t = (t' ++ LF)%string.

(** Only white space. *)
Definition blank (s : string) : bool :=
  negb (PyStr.any (fun c => negb (PyStr.isspace c)) s).

(** The paragraphs the OCR line of an image gives: none when the OCR text
    is blank, as no line is written then. *)
Definition ocr_paragraphs (img : Image) : list string :=
  if PyStr.truthy (PyStr.strip (snd img))
  then paragraphs (ocr_line (fst img) (snd img))
  else [].

(** The images [extract_from_pdf] appends for one entry of
    [get_images], and for one page. *)
Definition pdf_image_entry (w : World) (pdf_path : string) (i : nat)
           (entry : nat * option (string * string)) : list Image :=
  match snd entry with
  | Some (image_bytes, image_ext) =>
      [(pdf_image_name pdf_path i (fst entry) image_ext,
        extract_text_from_image w image_bytes true)]
  | None => []
  end.

Definition pdf_page_images (w : World) (pdf_path : string)
           (entry : nat * PdfPage) : list Image :=
  flat_map (pdf_image_entry w pdf_path (fst entry))
    (enumerate (get_images (snd entry))).

(** The name is the one of a slide of the deck. *)
Definition slide_name (pptx_path : string) (slides : nat) (name : string)
  : Prop :=
  exists i : nat, (i < slides)%nat /\ name = pptx_image_name pptx_path i.

(** A deck of one slide with two pictures. *)
Definition two_pictures : list (list Shape) :=
  [ [ {| shape_text := None; shape_image := Some (Some "first");
         shape_address := None |};
      {| shape_text := None; shape_image := Some (Some "second");
         shape_address := None |} ] ].

Definition two_pictures_world : World :=
  {| path_exists := path_exists sample_world;
     getsize := getsize sample_world;
     fitz_open := fitz_open sample_world;
     docx_Document := docx_Document sample_world;
     Presentation := fun _ => two_pictures;
     read_utf8 := read_utf8 sample_world;
     read_latin1 := read_latin1 sample_world;
     read_bytes := read_bytes sample_world;
     GOOGLE_VISION_AVAILABLE := false;
     TESSERACT_AVAILABLE := true;
     text_annotations := fun _ => None;
     image_to_string := fun image_bytes => Some image_bytes |}.

(** What [extract_text_from_image] returns when no engine is installed. *)
Definition ocr_not_available : string :=
  "[OCR not available - no text extracted from image]".

(** * Properties *)

(** ** The built-ins on small inputs *)

Example split_keeps_empty_fields :
  PyStr.split "" "--- Page " = [""]
  /\ PyStr.split "a--- Page " "--- Page " = ["a"; ""]
  /\ PyStr.split "aaaa" "aa" = [""; ""; ""]
  /\ PyStr.split "aaa" "aa" = [""; "a"]
  /\ PyStr.split_max "x---y---z" "---" 1 = ["x"; "y---z"].
Proof. repeat split; reflexivity. Qed.

Example int_accepts :
  map PyStr.int [" 12 "; "+7"; "-0"; "1_000"; "007"]
  = [Ok 12%Z; Ok 7%Z; Ok 0%Z; Ok 1000%Z; Ok 7%Z].
Proof. reflexivity. Qed.

Example int_refuses :
  map PyStr.int [""; "X"; "1.0"; "+-1"; "+ 1"; "_1"; "1_"; "1__0"; "0x1"]
  = repeat (Raise ValueError) 9.
Proof. reflexivity. Qed.

Example strip_both_ends :
  map PyStr.strip ["  a b  "; "   "; ""; "a"] = ["a b"; ""; ""; "a"].
Proof. reflexivity. Qed.

Example isupper_needs_a_cased_character :
  map PyStr.isupper ["ABC1"; "1"; "A b"; "- ABC"] = [true; false; false; true].
Proof. reflexivity. Qed.

(** ** Strings and lists *)

Lemma append_assoc (a b c : string) :
  ((a ++ b) ++ c = a ++ (b ++ c))%string.
Proof. induction a as [|x a IH]; simpl; [reflexivity | now rewrite IH]. Qed.

Lemma append_empty_r (a : string) : (a ++ "")%string = a.
Proof. induction a as [|x a IH]; simpl; [reflexivity | now rewrite IH]. Qed.

Lemma truthy_true (s : string) : PyStr.truthy s = true <-> s <> "".
Proof. destruct s; simpl; split; congruence. Qed.

(** Membership in [enumerate l] is indexing in [l]. *)
Lemma in_combine_seq {A : Type} (l : list A) (a i : nat) (x : A) :
  In (i, x) (combine (seq a (List.length l)) l)
  <-> (a <= i)%nat /\ nth_error l (i - a) = Some x.
Proof.
  revert a; induction l as [|y l IH]; intros a; simpl.
  - split; [tauto | intros [_ H]; destruct (i - a)%nat; discriminate].
  - rewrite IH; split.
    + intros [H | [Hle H]].
      * inversion H; subst; rewrite Nat.sub_diag; auto.
      * split; [lia |].
        replace (i - a)%nat with (S (i - S a)) by lia; exact H.
    + intros [Hle H].
      destruct (i - a)%nat as [|k] eqn:E.
      * left; inversion H; f_equal; lia.
      * right; split; [lia |].
        replace (i - S a)%nat with k by lia; exact H.
Qed.

Lemma in_enumerate {A : Type} (l : list A) (i : nat) (x : A) :
  In (i, x) (enumerate l) <-> nth_error l i = Some x.
Proof.
  unfold enumerate; rewrite in_combine_seq, Nat.sub_0_r.
  split; [tauto | split; [lia | assumption]].
Qed.

Lemma fold_left_ext_pair {A : Type}
      (f : list Document -> A -> list Document) (mk : A -> Document)
      (l : list A) (acc : list Document) :
  (forall acc x, f acc x = acc ++ [mk x]) ->
  fold_left f l acc = fold_left (fun chunks x => chunks ++ [mk x]) l acc.
Proof.
  intros H; revert acc; induction l as [|x l IH]; intros acc; simpl.
  - reflexivity.
  - now rewrite H, IH.
Qed.

(** ** Loops that may raise *)

Section ForEach.

Context {S A : Type}.
Variable body : S -> A -> result S.

(** When whether the body raises depends on the item only, the loop
    raises exactly when one of the items does. *)
Variable raises : A -> bool.
Hypothesis body_raises :
  forall s x, raises x = true -> body s x = Raise ValueError.
Hypothesis body_returns :
  forall s x, raises x = false -> exists s', body s x = Ok s'.

Lemma for_each_raises (l : list A) (s : S) :
  for_each body l s = Raise ValueError <-> exists x, In x l /\ raises x = true.
Proof.
  revert s; induction l as [|x l IH]; intros s; simpl.
  - split; [discriminate | intros [x [[] _]]].
  - destruct (raises x) eqn:R.
    + rewrite (body_raises s x R); simpl; split; [| reflexivity].
      intros _; exists x; auto.
    + destruct (body_returns s x R) as [s' E]; rewrite E; simpl.
      rewrite IH; split.
      * intros [y [Hy Ry]]; exists y; auto.
      * intros [y [[Hy | Hy] Ry]]; [congruence | exists y; auto].
Qed.

End ForEach.

(** ** Unparsable page and slide numbers *)

Lemma label_ordinal (content : string) : label 0 content = Ok 0%Z.
Proof. reflexivity. Qed.

Lemma label_parsed (i : nat) (content : string) :
  i <> 0%nat ->
  label i content = PyStr.int (PyStr.first (PyStr.split content " ---")).
Proof. intros H; unfold label; destruct i; [congruence | reflexivity]. Qed.

Lemma exn_is_ValueError (e : exn) : e = ValueError.
Proof. now destruct e. Qed.

Lemma pdf_page_raises self fp imgs lks total chunks entry :
  bad_label entry = true ->
  pdf_page self fp imgs lks total chunks entry = Raise ValueError.
Proof.
  destruct entry as [i content]; unfold bad_label, pdf_page; simpl.
  intros H; apply andb_prop in H as [H1 H2]; rewrite H1; simpl.
  destruct (label i content) as [n|e]; [discriminate |].
  now rewrite (exn_is_ValueError e).
Qed.

Lemma pdf_page_returns self fp imgs lks total chunks entry :
  bad_label entry = false ->
  exists chunks', pdf_page self fp imgs lks total chunks entry = Ok chunks'.
Proof.
  destruct entry as [i content]; unfold bad_label, pdf_page; simpl.
  destruct (PyStr.truthy (PyStr.strip content)); simpl; [| eauto].
  destruct (label i content) as [n|e]; [| discriminate]; intros _; simpl.
  destruct (_ >? _)%Z; eauto.
Qed.

Lemma pptx_slide_raises fp imgs lks total chunks entry :
  bad_label entry = true ->
  pptx_slide fp imgs lks total chunks entry = Raise ValueError.
Proof.
  destruct entry as [i content]; unfold bad_label, pptx_slide; simpl.
  intros H; apply andb_prop in H as [H1 H2]; rewrite H1; simpl.
  destruct (label i content) as [n|e]; [discriminate |].
  now rewrite (exn_is_ValueError e).
Qed.

Lemma pptx_slide_returns fp imgs lks total chunks entry :
  bad_label entry = false ->
  exists chunks', pptx_slide fp imgs lks total chunks entry = Ok chunks'.
Proof.
  destruct entry as [i content]; unfold bad_label, pptx_slide; simpl.
  destruct (PyStr.truthy (PyStr.strip content)); simpl; [| eauto].
  destruct (label i content) as [n|e]; [| discriminate]; intros _; simpl.
  destruct (PyStr.truthy _); eauto.
Qed.

(** C3, as stated, fails: the marker ["--- Page X ---"] makes the pdf
    policy raise. *)
Lemma unparsable_page_number_raises :
  chunk_document chunker_1000 ("--- Page X ---" ++ LF ++ "Hello world")
    "report.pdf" None None = Raise ValueError.
Proof. reflexivity. Qed.

(** C3 (amended): a page or slide number that does not parse is not
    recovered from.  [_chunk_pdf] and [_chunk_pptx] raise [ValueError], and
    return no chunk at all, exactly when some non-blank segment after the
    first marker has a label [int] refuses; the ordinal is used only for
    the text before the first marker. *)
Theorem unparsable_label_is_propagated
        (self : SmartDocumentChunker) (text file_path : string)
        (imgs : option (list Image)) (lks : option (list string)) :
  (_chunk_pdf self text file_path imgs lks = Raise ValueError
   <-> exists i content,
        nth_error (PyStr.split text "--- Page ") i = Some content
        /\ i <> 0%nat
        /\ PyStr.strip content <> ""
        /\ PyStr.int (PyStr.first (PyStr.split content " ---"))
           = Raise ValueError)
  /\ (_chunk_pptx text file_path imgs lks = Raise ValueError
      <-> exists i content,
           nth_error (PyStr.split text "--- Slide ") i = Some content
           /\ i <> 0%nat
           /\ PyStr.strip content <> ""
           /\ PyStr.int (PyStr.first (PyStr.split content " ---"))
              = Raise ValueError).
Proof.
  assert (bad : forall i content,
             bad_label (i, content) = true
             <-> i <> 0%nat /\ PyStr.strip content <> ""
                 /\ PyStr.int (PyStr.first (PyStr.split content " ---"))
                    = Raise ValueError).
  { intros i content; unfold bad_label; simpl.
    rewrite andb_true_iff, truthy_true.
    destruct i as [|i].
    - rewrite label_ordinal; split; [intros [_ H]; discriminate | tauto].
    - rewrite label_parsed by discriminate.
      destruct (PyStr.int _) as [n|e].
      + split; [intros [_ H]; discriminate | intros [_ [_ H]]; discriminate].
      + rewrite (exn_is_ValueError e); intuition discriminate. }
  split.
  - unfold _chunk_pdf.
    rewrite (for_each_raises _ bad_label
               (fun s x => pdf_page_raises self _ _ _ _ s x)
               (fun s x => pdf_page_returns self _ _ _ _ s x)).
    split.
    + intros [[i content] [Hin Hbad]].
      exists i, content; rewrite <- in_enumerate, <- bad; auto.
    + intros [i [content [Hin Hbad]]].
      exists (i, content); rewrite in_enumerate, bad; auto.
  - unfold _chunk_pptx.
    rewrite (for_each_raises _ bad_label
               (fun s x => pptx_slide_raises _ _ _ _ s x)
               (fun s x => pptx_slide_returns _ _ _ _ s x)).
    split.
    + intros [[i content] [Hin Hbad]].
      exists i, content; rewrite <- in_enumerate, <- bad; auto.
    + intros [i [content [Hin Hbad]]].
      exists (i, content); rewrite in_enumerate, bad; auto.
Qed.

(** ** The empty text *)

(** C8: on the empty text every policy returns the empty sequence and none
    raises, for a splitter that returns no piece for the empty text; the
    pdf, docx and pptx policies do not consult the splitter. *)
Theorem empty_text_gives_no_chunk
        (self : SmartDocumentChunker) (file_path : string)
        (imgs : option (list Image)) (lks : option (list string))
        (splitter_empty : default_splitter self "" = []) :
  _chunk_pdf self "" file_path imgs lks = Ok []
  /\ _chunk_docx self "" file_path imgs lks = []
  /\ _chunk_pptx "" file_path imgs lks = Ok []
  /\ _chunk_txt self "" file_path = []
  /\ _chunk_default self "" file_path imgs lks = []
  /\ chunk_document self "" file_path imgs lks = Ok [].
Proof.
  assert (Htxt : _chunk_txt self "" file_path = []).
  { unfold _chunk_txt; now rewrite splitter_empty. }
  assert (Hdef : _chunk_default self "" file_path imgs lks = []).
  { unfold _chunk_default; now rewrite splitter_empty. }
  repeat split; try reflexivity; try assumption.
  unfold chunk_document.
  repeat match goal with
         | |- context [if ?b then _ else _] => destruct b
         end;
    try reflexivity; now rewrite ?Htxt, ?Hdef.
Qed.

Lemma empty_text_gives_no_chunk_witness :
  default_splitter chunker_1000 "" = []
  /\ chunk_document chunker_1000 "" "notes.txt" None None = Ok []
  /\ chunk_document chunker_1000 "" "archive" None None = Ok [].
Proof.
  split; [reflexivity |].
  split.
  - apply (empty_text_gives_no_chunk chunker_1000 "notes.txt" None None).
    reflexivity.
  - apply (empty_text_gives_no_chunk chunker_1000 "archive" None None).
    reflexivity.
Defined.

(** ** Images and links *)

Lemma prefix_app (p s : string) :
  String.prefix p s = true <-> exists r, s = (p ++ r)%string.
Proof.
  revert s; induction p as [|c p IH]; intros s.
  - destruct s; simpl; split; eauto.
  - destruct s as [|d s]; simpl;
      [split; [discriminate | intros [r H]; discriminate] |].
    destruct (ascii_dec c d) as [->|N].
    + rewrite IH; split; intros [r H]; exists r; congruence.
    + split; [discriminate | intros [r H]; congruence].
Qed.

(** [sub in s] holds exactly when [s] is [a + sub + b] for some [a], [b]. *)
Lemma contains_spec (sub s : string) :
  PyStr.contains sub s = true <-> exists a b, s = (a ++ sub ++ b)%string.
Proof.
  induction s as [|c s IH].
  - cbn [PyStr.contains]; rewrite orb_false_r, prefix_app; split.
    + intros [r H]; exists "", r; exact H.
    + intros [a [b H]]; destruct a; [eauto | discriminate].
  - cbn [PyStr.contains]; rewrite orb_true_iff, prefix_app, IH; split.
    + intros [[r H] | [a [b H]]].
      * exists "", r; exact H.
      * exists (String c a), b; simpl; now rewrite H.
    + intros [a [b H]]; destruct a as [|d a].
      * left; exists b; exact H.
      * right; exists a, b; simpl in H; congruence.
Qed.

Section Invariant.

Context {S A : Type}.
Variable body : S -> A -> result S.
Variable I : S -> Prop.
Hypothesis body_keeps : forall s x s', I s -> body s x = Ok s' -> I s'.

Lemma for_each_invariant (l : list A) (s s' : S) :
  I s -> for_each body l s = Ok s' -> I s'.
Proof.
  revert s; induction l as [|x l IH]; intros s Hs; simpl.
  - now intros [= <-].
  - destruct (body s x) as [s1|e] eqn:E; simpl; [| discriminate].
    apply IH; eapply body_keeps; eauto.
Qed.

End Invariant.

(** Appending, piece by piece, documents that satisfy [P]. *)
Lemma fold_left_append_Forall {A : Type} (P : Document -> Prop)
      (mk : A -> Document) (l : list A) (acc : list Document) :
  (forall x, P (mk x)) -> Forall P acc ->
  Forall P (fold_left (fun chunks x => chunks ++ [mk x]) l acc).
Proof.
  intros Hmk; revert acc; induction l as [|x l IH]; intros acc Hacc; simpl.
  - exact Hacc.
  - apply IH, Forall_app; split; [exact Hacc | constructor; auto].
Qed.

Lemma pdf_page_Forall (P : Document -> Prop) self fp imgs lks total :
  (forall n id content, P (pdf_document fp imgs lks total n id content)) ->
  forall chunks entry chunks',
    Forall P chunks ->
    pdf_page self fp imgs lks total chunks entry = Ok chunks' ->
    Forall P chunks'.
Proof.
  intros HP chunks [i content] chunks' Hc; unfold pdf_page.
  destruct (negb _); [now intros [= <-] |].
  destruct (label i content) as [n|e]; simpl; [| discriminate].
  destruct (_ >? _)%Z; intros [= <-].
  - rewrite (fold_left_ext_pair _
               (fun jc : nat * string =>
                  pdf_document fp imgs lks total n
                    ("page_" ++ PyStr.str_of_int n ++ "_chunk_"
                       ++ PyStr.str_of_int (Z.of_nat (fst jc)))
                    (snd jc))).
    + apply fold_left_append_Forall; auto.
    + now intros acc [j c].
  - apply Forall_app; split; [exact Hc | constructor; auto].
Qed.

Lemma pptx_slide_Forall (P : Document -> Prop) fp imgs lks total :
  (forall n content, P (pptx_document fp imgs lks total n content)) ->
  forall chunks entry chunks',
    Forall P chunks ->
    pptx_slide fp imgs lks total chunks entry = Ok chunks' ->
    Forall P chunks'.
Proof.
  intros HP chunks [i content] chunks' Hc; unfold pptx_slide.
  destruct (negb _); [now intros [= <-] |].
  destruct (label i content) as [n|e]; simpl; [| discriminate].
  destruct (PyStr.truthy _); intros [= <-]; [| exact Hc].
  apply Forall_app; split; [exact Hc | constructor; auto].
Qed.

(** C7: every chunk of the pdf and pptx policies carries the images whose
    identifier contains the tag of its own page or slide, and the whole
    list of links.  With the single image [("doc_page2_img1", "OCR text")]
    the chunk of page 2 carries it and the chunk of page 1 carries none. *)
Theorem images_follow_the_positional_tag :
  (forall (self : SmartDocumentChunker) (text file_path : string)
          (imgs : option (list Image)) (lks : option (list string))
          (docs : list Document),
      _chunk_pdf self text file_path imgs lks = Ok docs
      \/ _chunk_pptx text file_path imgs lks = Ok docs ->
      Forall (images_rule imgs lks) docs)
  /\ (exists d1 d2,
         chunk_document chunker_1000
           ("--- Page 1 ---" ++ LF ++ "First" ++ LF
              ++ "--- Page 2 ---" ++ LF ++ "Second")
           "doc.pdf" (Some [("doc_page2_img1", "OCR text")]) None
         = Ok [d1; d2]
         /\ page (metadata d1) = Some 1%Z
         /\ images (metadata d1) = Some []
         /\ page (metadata d2) = Some 2%Z
         /\ images (metadata d2) = Some [("doc_page2_img1", "OCR text")]).
Proof.
  split.
  - intros self text fp imgs lks docs [H | H].
    + unfold _chunk_pdf in H.
      refine (for_each_invariant _ (Forall (images_rule imgs lks)) _ _ _ _
                (Forall_nil _) H).
      intros s x s'; apply pdf_page_Forall.
      intros n id content; eexists; repeat split.
    + unfold _chunk_pptx in H.
      refine (for_each_invariant _ (Forall (images_rule imgs lks)) _ _ _ _
                (Forall_nil _) H).
      intros s x s'; apply pptx_slide_Forall.
      intros n content; eexists; repeat split.
  - do 2 eexists; split; [vm_compute; reflexivity |].
    repeat split.
Qed.

Lemma images_follow_the_positional_tag_witness :
  Forall (images_rule (Some [("doc_page2_img1", "OCR text")]) None)
    [pdf_document "doc.pdf" (Some [("doc_page2_img1", "OCR text")]) None
       2 1 "page_1" ("First" ++ LF);
     pdf_document "doc.pdf" (Some [("doc_page2_img1", "OCR text")]) None
       2 2 "page_2" "Second"].
Proof.
  apply (proj1 images_follow_the_positional_tag chunker_1000
           ("--- Page 1 ---" ++ LF ++ "First" ++ LF
              ++ "--- Page 2 ---" ++ LF ++ "Second")%string
           "doc.pdf").
  left; reflexivity.
Defined.

(** ** The docx policy *)

Lemma docx_loop self fp imgs lks (paras : list string) :
  forall (st : DocxState) (k : nat),
    chunk_count st = Z.of_nat k ->
    docx_last fp imgs lks (fold_left (docx_para self fp imgs lks) paras st)
    = chunks st ++
        number_from fp imgs lks k
          (greedy (chunk_size self) (current_chunk st) paras).
Proof.
  induction paras as [|para rest IH]; intros st k Hk.
  - cbn [fold_left greedy]; unfold docx_last.
    destruct (PyStr.truthy (PyStr.strip (current_chunk st))).
    + unfold number_from; simpl; now rewrite Hk.
    + unfold number_from; simpl; now rewrite app_nil_r.
  - cbn [fold_left greedy]; unfold docx_para at 2.
    destruct ((PyStr.len (current_chunk st) + PyStr.len para
               >? chunk_size self)%Z && PyStr.truthy (current_chunk st)).
    + rewrite (IH _ (S k)) by (cbn [chunk_count]; lia).
      cbn [chunks current_chunk]; unfold number_from; simpl.
      now rewrite <- app_assoc, Hk.
    + rewrite (IH _ k) by exact Hk; reflexivity.
Qed.

Lemma ids_of_number_from fp imgs lks (buffers : list string) (k : nat) :
  ids_of (number_from fp imgs lks k buffers)
  = map (fun j => ("docx_chunk_" ++ PyStr.str_of_int (Z.of_nat j))%string)
      (seq k (List.length buffers)).
Proof.
  unfold ids_of, number_from; rewrite map_map; simpl.
  revert k; induction buffers as [|b buffers IH]; intros k; simpl.
  - reflexivity.
  - now rewrite IH.
Qed.

Lemma length_number_from fp imgs lks (buffers : list string) (k : nat) :
  List.length (number_from fp imgs lks k buffers) = List.length buffers.
Proof.
  unfold number_from.
  rewrite length_map, length_combine, length_seq; apply Nat.min_id.
Qed.

Lemma chunk_docx_greedy self text fp imgs lks :
  _chunk_docx self text fp imgs lks
  = number_from fp imgs lks 0 (greedy (chunk_size self) "" (paragraphs text)).
Proof.
  unfold _chunk_docx.
  apply (docx_loop self fp imgs lks (paragraphs text)
           {| chunks := []; current_chunk := ""; chunk_count := 0 |} 0%nat).
  reflexivity.
Qed.

Lemma chunk_docx_ids self text fp imgs lks :
  ids_of (_chunk_docx self text fp imgs lks)
  = map (fun k => ("docx_chunk_" ++ PyStr.str_of_int (Z.of_nat k))%string)
      (seq 0 (List.length (_chunk_docx self text fp imgs lks))).
Proof.
  now rewrite chunk_docx_greedy, ids_of_number_from, length_number_from.
Qed.

(** C6: [_chunk_docx] is the greedy accumulation of the trimmed, non-blank
    lines: it emits the flushed buffers in order, trimmed, the k-th (from 0)
    under the identifier ["docx_chunk_<k>"].  On the text
    ["Para one.\nPara two.\n" + "x"*1200] with [chunk_size = 1000] the
    first two paragraphs are flushed before the third is appended, which
    gives two chunks. *)
Theorem docx_policy_is_greedy :
  (forall (self : SmartDocumentChunker) (text file_path : string)
          (imgs : option (list Image)) (lks : option (list string)),
      _chunk_docx self text file_path imgs lks
      = number_from file_path imgs lks 0
          (greedy (chunk_size self) "" (paragraphs text))
      /\ ids_of (_chunk_docx self text file_path imgs lks)
         = map (fun k => ("docx_chunk_" ++ PyStr.str_of_int (Z.of_nat k))%string)
             (seq 0 (List.length (_chunk_docx self text file_path imgs lks))))
  /\ (let text := ("Para one." ++ LF ++ "Para two." ++ LF ++ times "x" 1200)%string in
      paragraphs text = ["Para one."; "Para two."; times "x" 1200]
      /\ greedy 1000 "" (paragraphs text)
         = [("Para one." ++ LF ++ "Para two." ++ LF)%string;
            (times "x" 1200 ++ LF)%string]
      /\ contents_of (_chunk_docx chunker_1000 text "letter.docx" None None)
         = [("Para one." ++ LF ++ "Para two.")%string; times "x" 1200]
      /\ ids_of (_chunk_docx chunker_1000 text "letter.docx" None None)
         = ["docx_chunk_0"; "docx_chunk_1"]).
Proof.
  split.
  - intros self text fp imgs lks.
    split; [apply chunk_docx_greedy | apply chunk_docx_ids].
  - repeat split; vm_compute; reflexivity.
Qed.

(** ** The dispatch on the file name *)

Lemma prefix_dot (c : ascii) (s : string) :
  String.prefix "." (String c s) = Ascii.eqb "." c.
Proof.
  change (String.prefix "." (String c s))
    with (if ascii_dec "." c then String.prefix "" s else false).
  destruct (ascii_dec "." c) as [<-|N].
  - now destruct s.
  - symmetry; now apply Ascii.eqb_neq.
Qed.

Lemma split_no_dot (s : string) :
  has_dot s = false -> PyStr.split s "." = [s].
Proof.
  unfold PyStr.split, has_dot; induction s as [|c s IH]; [reflexivity |].
  cbn [PyStr.any]; intros H; apply orb_false_elim in H as [Hc Hs].
  cbn [PyStr.split_from PyStr.may_cut andb]; rewrite prefix_dot, Hc.
  now rewrite (IH Hs).
Qed.

Lemma split_dot_two (s : string) :
  has_dot s = true ->
  exists f g rest, PyStr.split s "." = f :: g :: rest.
Proof.
  unfold PyStr.split, has_dot; induction s as [|c s IH]; [discriminate |].
  cbn [PyStr.any]; intros H.
  cbn [PyStr.split_from PyStr.may_cut andb]; rewrite prefix_dot.
  destruct (Ascii.eqb "." c) eqn:Hc.
  - cbn [PyStr.after_cut String.length Nat.pred].
    destruct (PyStr.any (Ascii.eqb ".") s) eqn:Hs.
    + destruct (IH eq_refl) as [f [g [rest E]]]; rewrite E; eauto.
    + pose proof (split_no_dot s Hs) as E; unfold PyStr.split in E.
      rewrite E; eauto.
  - simpl in H; destruct (IH H) as [f [g [rest E]]]; rewrite E.
    simpl; eauto.
Qed.

Lemma after_last_no_dot (s : string) :
  has_dot s = false -> after_last "." s = s.
Proof.
  unfold has_dot; destruct s as [|c s]; [reflexivity |].
  cbn [PyStr.any after_last]; intros H.
  apply orb_false_elim in H as [Hc Hs].
  now rewrite Hs, Hc.
Qed.

(** [s.split('.')[-1]] is the substring after the last dot. *)
Lemma final_split_dot (s : string) :
  PyStr.final (PyStr.split s ".") = after_last "." s.
Proof.
  unfold PyStr.final, PyStr.split; induction s as [|c s IH]; [reflexivity |].
  cbn [PyStr.split_from PyStr.may_cut andb after_last]; rewrite prefix_dot.
  cbn [PyStr.after_cut String.length Nat.pred].
  destruct (PyStr.any (Ascii.eqb ".") s) eqn:Hs.
  - destruct (split_dot_two s Hs) as [f [g [rest E]]].
    unfold PyStr.split in E; rewrite E in IH |- *.
    destruct (Ascii.eqb "." c); rewrite <- IH; reflexivity.
  - pose proof (split_no_dot s Hs) as E; unfold PyStr.split in E; rewrite E.
    destruct (Ascii.eqb "." c); reflexivity.
Qed.

Lemma has_dot_app (a b : string) : has_dot (a ++ "." ++ b) = true.
Proof.
  unfold has_dot; induction a as [|x a IH]; cbn [append PyStr.any] in *.
  - reflexivity.
  - rewrite IH; apply orb_true_r.
Qed.

Lemma after_last_app (a b : string) :
  has_dot b = false -> after_last "." (a ++ "." ++ b) = b.
Proof.
  intros Hb; induction a as [|c a IH].
  - unfold has_dot in Hb; simpl; now rewrite Hb.
  - cbn [append after_last].
    pose proof (has_dot_app a b) as H; unfold has_dot in H.
    cbn [append] in H, IH; now rewrite H.
Qed.

Lemma lower1_dot (c : ascii) :
  Ascii.eqb "." (PyStr.lower1 c) = Ascii.eqb "." c.
Proof.
  destruct c as [[] [] [] [] [] [] [] []]; reflexivity.
Qed.

Lemma has_dot_lower (s : string) : has_dot (PyStr.lower s) = has_dot s.
Proof.
  unfold has_dot; induction s as [|c s IH]; [reflexivity |].
  cbn [PyStr.lower PyStr.any]; now rewrite lower1_dot, IH.
Qed.

Lemma lower_app (a b : string) :
  PyStr.lower (a ++ b) = (PyStr.lower a ++ PyStr.lower b)%string.
Proof. induction a as [|c a IH]; simpl; [reflexivity | now rewrite IH]. Qed.

Lemma policy_unknown (ext : string) :
  policy_of_ext ext = Unknown
  <-> ext <> "pdf" /\ ext <> "docx" /\ ext <> "pptx" /\ ext <> "txt".
Proof.
  unfold policy_of_ext.
  destruct (String.eqb_spec ext "pdf"); [split; [discriminate | tauto] |].
  destruct (String.eqb_spec ext "docx"); [split; [discriminate | tauto] |].
  destruct (String.eqb_spec ext "pptx"); [split; [discriminate | tauto] |].
  destruct (String.eqb_spec ext "txt"); [split; [discriminate | tauto] |].
  tauto.
Qed.

(** C10, as stated, fails: the name ["PDF"] has no dot and is routed to
    the pdf policy, not to the default one. *)
Lemma dotless_name_can_select_pdf :
  PyStr.contains "." "PDF" = false
  /\ types_of_result (chunk_document chunker_1000 "Hello" "PDF" None None)
     = Ok ["pdf"].
Proof. split; reflexivity. Qed.

(** C10 (amended): [chunk_document] selects its policy from the substring
    after the last ['.'] of the lowercased path and from nothing else.  For
    a path [a + "." + b] with no dot in [b] that substring is [b]
    lowercased; for a path without a dot it is the whole lowercased path,
    which selects the default policy unless it is itself one of [pdf],
    [docx], [pptx], [txt].  ["file.PDF"] is a pdf, ["file.pdf.bak"] is
    unknown. *)
Theorem policy_is_chosen_by_the_last_dot_segment :
  (forall (self : SmartDocumentChunker) (text file_path : string)
          (imgs : option (list Image)) (lks : option (list string)),
      chunk_document self text file_path imgs lks
      = apply_policy self (policy_of_ext (extension file_path))
          text file_path imgs lks)
  /\ (forall a b : string,
         PyStr.contains "." b = false ->
         extension (a ++ "." ++ b) = PyStr.lower b)
  /\ (forall file_path : string,
         PyStr.contains "." file_path = false ->
         extension file_path = PyStr.lower file_path
         /\ (policy_of_ext (extension file_path) = Unknown
             <-> ~ In (PyStr.lower file_path) ["pdf"; "docx"; "pptx"; "txt"]))
  /\ policy_of_ext (extension "file.PDF") = Pdf
  /\ policy_of_ext (extension "file.pdf.bak") = Unknown.
Proof.
  assert (dot : forall s, PyStr.contains "." s = has_dot s).
  { unfold has_dot; induction s as [|c s IH]; [reflexivity |].
    cbn [PyStr.contains PyStr.any]; now rewrite prefix_dot, IH. }
  split; [| split; [| split; [| split; reflexivity]]].
  - intros self text fp imgs lks; unfold chunk_document, extension.
    rewrite final_split_dot; unfold policy_of_ext.
    repeat match goal with
           | |- context [if ?b then _ else _] => destruct b
           end; reflexivity.
  - intros a b Hb; unfold extension.
    rewrite lower_app; rewrite (lower_app "." b).
    apply after_last_app; rewrite has_dot_lower, <- dot; exact Hb.
  - intros fp Hfp; unfold extension.
    rewrite after_last_no_dot by (now rewrite has_dot_lower, <- dot).
    split; [reflexivity |].
    rewrite policy_unknown; simpl; intuition congruence.
Qed.

Lemma policy_is_chosen_by_the_last_dot_segment_witness :
  extension "notes.archive.TXT" = "txt"
  /\ extension "README" = "readme"
  /\ (policy_of_ext (extension "README") = Unknown
      <-> ~ In "readme" ["pdf"; "docx"; "pptx"; "txt"]).
Proof.
  split.
  - apply (proj1 (proj2 policy_is_chosen_by_the_last_dot_segment)
             "notes.archive" "TXT").
    reflexivity.
  - apply (proj1 (proj2 (proj2 policy_is_chosen_by_the_last_dot_segment))
             "README").
    reflexivity.
Defined.

(** ** The matcher and the language of a pattern *)

Lemma append_eq_empty (a b : string) :
  (a ++ b)%string = "" -> a = "" /\ b = "".
Proof. destruct a; simpl; [auto | discriminate]. Qed.

Lemma lang_void_inv (s : string) : Re.lang Re.Void s -> False.
Proof. intros H; inversion H. Qed.

Lemma lang_eps_inv (s : string) : Re.lang Re.Eps s -> s = "".
Proof. intros H; now inversion H. Qed.

Lemma lang_class_inv (p : ascii -> bool) (s : string) :
  Re.lang (Re.Class p) s -> exists c, s = String c "" /\ p c = true.
Proof. intros H; inversion H; subst; eauto. Qed.

Lemma lang_cat_inv (r1 r2 : Re.regex) (s : string) :
  Re.lang (Re.Cat r1 r2) s ->
  exists s1 s2, s = (s1 ++ s2)%string /\ Re.lang r1 s1 /\ Re.lang r2 s2.
Proof. intros H; inversion H; subst; eauto. Qed.

Lemma lang_alt_inv (r1 r2 : Re.regex) (s : string) :
  Re.lang (Re.Alt r1 r2) s -> Re.lang r1 s \/ Re.lang r2 s.
Proof. intros H; inversion H; subst; auto. Qed.

Lemma nullable_lang (r : Re.regex) :
  Re.nullable r = true <-> Re.lang r "".
Proof.
  induction r as [| |p|r1 IH1 r2 IH2|r1 IH1 r2 IH2|r IH]; simpl.
  - split; [discriminate | intros H; now apply lang_void_inv in H].
  - split; [constructor | reflexivity].
  - split; [discriminate |].
    intros H; apply lang_class_inv in H as [c [E _]]; discriminate.
  - rewrite andb_true_iff, IH1, IH2; split.
    + intros [H1 H2]; apply (Re.L_cat r1 r2 "" "" H1 H2).
    + intros H; apply lang_cat_inv in H as [s1 [s2 [E [H1 H2]]]].
      symmetry in E; apply append_eq_empty in E as [-> ->]; auto.
  - rewrite orb_true_iff, IH1, IH2; split.
    + intros [H | H]; [now apply Re.L_alt_l | now apply Re.L_alt_r].
    + apply lang_alt_inv.
  - split; [constructor | reflexivity].
Qed.

(** A non-empty word of [r*] starts with a non-empty word of [r]. *)
Lemma star_cons (r : Re.regex) (c : ascii) (s : string) :
  Re.lang (Re.Star r) (String c s) ->
  exists s1 s2, s = (s1 ++ s2)%string
                /\ Re.lang r (String c s1) /\ Re.lang (Re.Star r) s2.
Proof.
  intros H.
  remember (Re.Star r) as R eqn:ER.
  remember (String c s) as w eqn:Ew.
  revert s Ew.
  induction H as [| | | | | |r' s1 s2 H1 _ H2 IH2]; intros t Et;
    try discriminate.
  injection ER as ->.
  destruct s1 as [|d s1]; simpl in Et.
  - apply (IH2 eq_refl t Et).
  - injection Et as -> <-; exists s1, s2; auto.
Qed.

Lemma deriv_lang (c : ascii) (r : Re.regex) :
  forall s, Re.lang (Re.deriv c r) s <-> Re.lang r (String c s).
Proof.
  induction r as [| |p|r1 IH1 r2 IH2|r1 IH1 r2 IH2|r IH]; intros s; simpl.
  - split; intros H; now apply lang_void_inv in H.
  - split; intros H; [now apply lang_void_inv in H |].
    apply lang_eps_inv in H; discriminate.
  - split.
    + destruct (p c) eqn:Hp; intros H; [| now apply lang_void_inv in H].
      apply lang_eps_inv in H as ->; now constructor.
    + intros H; apply lang_class_inv in H as [d [E Hd]].
      injection E as -> ->; rewrite Hd; constructor.
  - assert (L : Re.lang (Re.Cat (Re.deriv c r1) r2) s
                -> Re.lang (Re.Cat r1 r2) (String c s)).
    { intros H; apply lang_cat_inv in H as [s1 [s2 [-> [H1 H2]]]].
      apply IH1 in H1; apply (Re.L_cat r1 r2 (String c s1) s2 H1 H2). }
    destruct (Re.nullable r1) eqn:N; split.
    + intros H; apply lang_alt_inv in H as [H | H]; [now apply L |].
      apply IH2 in H; apply nullable_lang in N.
      apply (Re.L_cat r1 r2 "" (String c s) N H).
    + intros H; apply lang_cat_inv in H as [s1 [s2 [E [H1 H2]]]].
      destruct s1 as [|d s1]; simpl in E.
      * subst s2; apply Re.L_alt_r, IH2, H2.
      * injection E as -> ->; apply Re.L_alt_l.
        apply Re.L_cat; [now apply IH1 | exact H2].
    + exact L.
    + intros H; apply lang_cat_inv in H as [s1 [s2 [E [H1 H2]]]].
      destruct s1 as [|d s1]; simpl in E.
      * apply nullable_lang in H1; congruence.
      * injection E as -> ->.
        apply Re.L_cat; [now apply IH1 | exact H2].
  - split; intros H; apply lang_alt_inv in H as [H | H].
    + now apply Re.L_alt_l, IH1.
    + now apply Re.L_alt_r, IH2.
    + now apply Re.L_alt_l, IH1.
    + now apply Re.L_alt_r, IH2.
  - split.
    + intros H; apply lang_cat_inv in H as [s1 [s2 [-> [H1 H2]]]].
      apply IH in H1.
      apply (Re.L_star_app r (String c s1) s2 H1 H2).
    + intros H; apply star_cons in H as [s1 [s2 [-> [H1 H2]]]].
      apply Re.L_cat; [now apply IH | exact H2].
Qed.

(** [fullmatch] decides the language. *)
Lemma fullmatch_lang (s : string) :
  forall r, Re.fullmatch r s = true <-> Re.lang r s.
Proof.
  induction s as [|c s IH]; intros r; simpl.
  - apply nullable_lang.
  - now rewrite IH, deriv_lang.
Qed.

(** [match_] succeeds exactly when a prefix is in the language. *)
Lemma match_lang (s : string) :
  forall r, Re.match_ r s = true
            <-> exists p q, s = (p ++ q)%string /\ Re.lang r p.
Proof.
  induction s as [|c s IH]; intros r; cbn [Re.match_].
  - rewrite orb_false_r, nullable_lang; split.
    + intros H; exists "", ""; auto.
    + intros [p [q [E H]]]; symmetry in E.
      apply append_eq_empty in E as [-> _]; exact H.
  - rewrite orb_true_iff, nullable_lang, IH; split.
    + intros [H | [p [q [-> H]]]].
      * exists "", (String c s); auto.
      * exists (String c p), q; split; [reflexivity | now apply deriv_lang].
    + intros [p [q [E H]]]; destruct p as [|d p]; simpl in E.
      * now left.
      * injection E as <- ->; right; exists p, q.
        split; [reflexivity | now apply deriv_lang].
Qed.

(** ** Headers and list items *)

Lemma analyze_lines (l : list (nat * string)) :
  forall st : Structure,
    let st' := fold_left analyze_line l st in
    headers st'
    = headers st ++
        map (fun e => header_entry (fst e) (PyStr.strip (snd e)))
          (filter (fun e => header_test (PyStr.strip (snd e))) l)
    /\ lists st'
       = lists st ++
           map (fun e => item_entry (fst e) (PyStr.strip (snd e)))
             (filter (fun e => list_test (PyStr.strip (snd e))) l).
Proof.
  induction l as [|[i raw] l IH]; intros st; cbn [fold_left filter map].
  - now rewrite !app_nil_r.
  - destruct (IH (analyze_line st (i, raw))) as [Hh Hl].
    cbv zeta in *; rewrite Hh, Hl; clear IH Hh Hl.
    unfold analyze_line; cbn [fst snd].
    destruct (header_test (PyStr.strip raw));
      destruct (list_test (PyStr.strip raw));
      cbn [headers lists map]; rewrite <- ?app_assoc; auto.
Qed.

Lemma filter_map_stripped {B : Type} (mk : nat -> string -> B)
      (test : string -> bool) (l : list (nat * string)) :
  map (fun e => mk (fst e) (PyStr.strip (snd e)))
    (filter (fun e => test (PyStr.strip (snd e))) l)
  = map (fun e => mk (fst e) (snd e))
      (filter (fun e => test (snd e))
         (map (fun e : nat * string => (fst e, PyStr.strip (snd e))) l)).
Proof.
  induction l as [|[i raw] l IH]; cbn [map filter fst snd]; [reflexivity |].
  destruct (test (PyStr.strip raw)); cbn [map fst snd]; now rewrite IH.
Qed.

(** Whatever matches [^\d+\.?\s+[A-Z]] matches [^\d+\.?\s+]. *)
Lemma numbered_section_is_numbered (line : string) :
  Re.match_ Pattern.numbered_section line = true ->
  Re.match_ Pattern.numbered line = true.
Proof.
  rewrite !match_lang; intros [p [q [-> H]]].
  unfold Pattern.numbered_section in H.
  apply lang_cat_inv in H as [p1 [r1 [-> [H1 H]]]].
  apply lang_cat_inv in H as [p2 [r2 [-> [H2 H]]]].
  apply lang_cat_inv in H as [p3 [p4 [-> [H3 H4]]]].
  exists (p1 ++ p2 ++ p3)%string, (p4 ++ q)%string; split.
  - now rewrite !append_assoc.
  - unfold Pattern.numbered; repeat apply Re.L_cat; assumption.
Qed.

(** C9, as stated, fails: the line ["1. Introduction"] is reported both as
    a header and as a list item. *)
Lemma numbered_header_is_also_a_list_item :
  map Header.text (headers (extract_headers_and_structure "1. Introduction"))
  = ["1. Introduction"]
  /\ map Item.text (lists (extract_headers_and_structure "1. Introduction"))
     = ["1. Introduction"].
Proof. split; reflexivity. Qed.

(** C9 (amended): header detection and list detection are independent.
    Both tests are applied to every stripped line, the header test first;
    the headers are the lines that pass the header test and the list items
    the lines that pass the list test, each in the order of the text.  A
    line can be in both: every line that matches the numbered-section rule
    of the header test is also a list item. *)
Theorem header_and_list_detection_are_independent :
  (forall text : string,
      headers (extract_headers_and_structure text)
      = map (fun e => header_entry (fst e) (snd e))
          (filter (fun e => header_test (snd e)) (stripped_lines text))
      /\ lists (extract_headers_and_structure text)
         = map (fun e => item_entry (fst e) (snd e))
             (filter (fun e => list_test (snd e)) (stripped_lines text)))
  /\ (forall line : string,
         Re.match_ Pattern.numbered_section line = true ->
         header_test line = true /\ list_test line = true)
  /\ header_test "1. Introduction" = true
  /\ list_test "1. Introduction" = true.
Proof.
  split; [| split; [| split; reflexivity]].
  - intros text; unfold extract_headers_and_structure, stripped_lines.
    destruct (analyze_lines (enumerate (PyStr.split text LF))
                {| headers := []; lists := []; tables := []; sections := [] |})
      as [Hh Hl].
    cbv zeta in *; rewrite Hh, Hl; cbn [headers lists app].
    split; apply filter_map_stripped.
  - intros line H; split.
    + unfold header_test; rewrite H, orb_true_r, andb_true_r.
      destruct line; [discriminate | reflexivity].
    + unfold list_test.
      now rewrite (numbered_section_is_numbered line H), orb_true_r.
Qed.

Lemma header_and_list_detection_are_independent_witness :
  header_test "2 Methods" = true /\ list_test "2 Methods" = true.
Proof.
  apply (proj1 (proj2 header_and_list_detection_are_independent) "2 Methods").
  reflexivity.
Defined.

(** ** Identifiers *)

Lemma append_inv_head (a b c : string) :
  (a ++ b)%string = (a ++ c)%string -> b = c.
Proof. induction a as [|x a IH]; simpl; [auto | intros [= H]; auto]. Qed.

Lemma str_of_int_inj (a b : Z) :
  PyStr.str_of_int a = PyStr.str_of_int b -> a = b.
Proof.
  unfold PyStr.str_of_int; intros H.
  apply DecimalZ.to_int_inj.
  pose proof (NilEmpty.isi (Z.to_int a)) as Ha.
  pose proof (NilEmpty.isi (Z.to_int b)) as Hb.
  rewrite H in Ha; congruence.
Qed.

Lemma string_of_uint_no_underscore (d : Decimal.uint) :
  no_underscore (NilEmpty.string_of_uint d).
Proof. unfold no_underscore; induction d; simpl; auto. Qed.

Lemma str_of_int_no_underscore (n : Z) : no_underscore (PyStr.str_of_int n).
Proof.
  unfold PyStr.str_of_int; destruct (Z.to_int n) as [d|d]; simpl.
  - apply string_of_uint_no_underscore.
  - apply string_of_uint_no_underscore.
Qed.

(** Two strings without underscore that agree up to what follows their
    first underscore are equal. *)
Lemma underscore_delimits (a b t u : string) :
  no_underscore a -> no_underscore b ->
  (t = "" \/ exists t', t = String "_" t') ->
  (u = "" \/ exists u', u = String "_" u') ->
  (a ++ t)%string = (b ++ u)%string -> a = b.
Proof.
  unfold no_underscore; revert b; induction a as [|x a IH]; intros b Ha Hb Ht Hu E.
  - destruct b as [|y b]; [reflexivity |].
    simpl in E, Hb; apply orb_false_elim in Hb as [Hy _].
    destruct Ht as [-> | [t' ->]]; [discriminate |].
    injection E as <- _; discriminate.
  - simpl in Ha; apply orb_false_elim in Ha as [Hx Ha].
    destruct b as [|y b]; simpl in E.
    + destruct Hu as [-> | [u' ->]]; [discriminate |].
      injection E as -> _; discriminate.
    + simpl in Hb; apply orb_false_elim in Hb as [_ Hb].
      injection E as -> E; f_equal; eauto.
Qed.

Lemma labelled_inj (pre : string) (n m : Z) (id : string) :
  labelled pre n id -> labelled pre m id -> n = m.
Proof.
  intros [t [-> Ht]] [u [E Hu]].
  apply append_inv_head in E.
  apply str_of_int_inj.
  apply (underscore_delimits _ _ t u); auto using str_of_int_no_underscore.
Qed.

Lemma NoDup_map_injective {A B : Type} (f : A -> B) (l : list A) :
  (forall x y, f x = f y -> x = y) -> NoDup l -> NoDup (map f l).
Proof.
  intros Hf; induction 1 as [|x l Hx Hl IH]; simpl; constructor; auto.
  rewrite in_map_iff; intros [y [E Hy]]; apply Hf in E; now subst.
Qed.

(** Identifiers numbered by consecutive integers are pairwise distinct. *)
Lemma numbered_ids_NoDup (pre : string) (a n : nat) :
  NoDup (map (fun k => (pre ++ PyStr.str_of_int (Z.of_nat k))%string)
           (seq a n)).
Proof.
  apply NoDup_map_injective; [| apply seq_NoDup].
  intros x y E; apply append_inv_head, str_of_int_inj in E.
  now apply Nat2Z.inj.
Qed.

Lemma NoDup_flat_map {A B : Type} (key : A -> Z) (f : A -> list B)
      (own : Z -> B -> Prop) (l : list A) :
  (forall x b, In b (f x) -> own (key x) b) ->
  (forall n m b, own n b -> own m b -> n = m) ->
  (forall x, NoDup (f x)) ->
  NoDup (map key l) -> NoDup (flat_map f l).
Proof.
  intros Hown Hinj Hf; induction l as [|x l IH]; simpl; intros H.
  - constructor.
  - inversion H as [|? ? Hx Hl]; subst.
    assert (D : forall b, In b (f x) -> ~ In b (flat_map f l)).
    { intros b Hb Hb'; apply in_flat_map in Hb' as [y [Hy Hby]].
      apply Hx, in_map_iff; exists y; split; [| exact Hy].
      apply (Hinj _ _ b); auto. }
    revert D; generalize (IH Hl); generalize (flat_map f l) as r.
    generalize (Hf x); generalize (f x) as fx.
    induction fx as [|b fx IHfx]; simpl; intros Hfx r Hr D; [exact Hr |].
    inversion Hfx; subst; constructor.
    + rewrite in_app_iff; intros [Hb | Hb]; [contradiction |].
      apply (D b); auto.
    + apply IHfx; auto.
Qed.

Lemma ids_of_app (a b : list Document) :
  ids_of (a ++ b) = ids_of a ++ ids_of b.
Proof. apply map_app. Qed.

Lemma ids_of_fold_enumerate (mk : nat -> string -> Document)
      (idf : nat -> string) (pieces : list string) :
  (forall j c, chunk_id (metadata (mk j c)) = idf j) ->
  forall a acc,
    ids_of (fold_left
              (fun chunks (jc : nat * string) =>
                 let (j, c) := jc in chunks ++ [mk j c])
              (combine (seq a (List.length pieces)) pieces) acc)
    = ids_of acc ++ map idf (seq a (List.length pieces)).
Proof.
  intros Hid; induction pieces as [|p pieces IH]; intros a acc; simpl.
  - now rewrite app_nil_r.
  - rewrite IH, ids_of_app, <- app_assoc; simpl; now rewrite Hid.
Qed.

(** ** The pdf and pptx policies, segment by segment *)

Lemma fold_left_append_map {A : Type} (mk : A -> Document) (l : list A)
      (acc : list Document) :
  fold_left (fun chunks x => chunks ++ [mk x]) l acc = acc ++ map mk l.
Proof.
  revert acc; induction l as [|x l IH]; intros acc; simpl.
  - now rewrite app_nil_r.
  - now rewrite IH, <- app_assoc.
Qed.

Lemma for_each_segments (body : list Document -> nat * string
                                -> result (list Document))
      (emit : Z * string -> list Document) :
  (forall acc e,
      body acc e = (o <- segment e ;; Ok (acc ++ emitted emit o))) ->
  forall l acc,
    for_each body l acc
    = (segs <- segments l ;; Ok (acc ++ flat_map emit segs)).
Proof.
  intros Hbody; induction l as [|e l IH]; intros acc; simpl.
  - now rewrite app_nil_r.
  - rewrite Hbody; destruct (segment e) as [o|x]; simpl; [| reflexivity].
    rewrite IH; destruct (segments l) as [rest|x]; simpl; [| reflexivity].
    destruct o as [seg|]; simpl.
    + now rewrite <- app_assoc.
    + now rewrite app_nil_r.
Qed.

Lemma pdf_page_emits self fp imgs lks total acc e :
  pdf_page self fp imgs lks total acc e
  = (o <- segment e ;;
     Ok (acc ++ emitted (emit_pdf self fp imgs lks total) o)).
Proof.
  destruct e as [i content]; unfold pdf_page, segment; cbn [fst snd].
  destruct (negb _); simpl; [now rewrite app_nil_r |].
  destruct (label i content) as [n|x]; simpl; [| reflexivity].
  destruct (_ >? _)%Z; [| reflexivity].
  f_equal.
  rewrite (fold_left_ext_pair _
             (fun jc : nat * string =>
                pdf_document fp imgs lks total n
                  ("page_" ++ PyStr.str_of_int n ++ "_chunk_"
                     ++ PyStr.str_of_int (Z.of_nat (fst jc)))
                  (snd jc))).
  - apply fold_left_append_map.
  - now intros a [j c].
Qed.

Lemma pptx_slide_emits fp imgs lks total acc e :
  pptx_slide fp imgs lks total acc e
  = (o <- segment e ;; Ok (acc ++ emitted (emit_pptx fp imgs lks total) o)).
Proof.
  destruct e as [i content]; unfold pptx_slide, segment; cbn [fst snd].
  destruct (negb _); simpl; [now rewrite app_nil_r |].
  destruct (label i content) as [n|x]; simpl; [| reflexivity].
  destruct (PyStr.truthy _); simpl; [reflexivity | now rewrite app_nil_r].
Qed.

Lemma chunk_pdf_by_segments self text fp imgs lks :
  _chunk_pdf self text fp imgs lks
  = (segs <- pdf_segments text ;;
     Ok (flat_map
           (emit_pdf self fp imgs lks
              (Z.of_nat (List.length (PyStr.split text "--- Page ")) - 1))
           segs)).
Proof.
  unfold _chunk_pdf, pdf_segments.
  now rewrite (for_each_segments _ _ (pdf_page_emits self fp imgs lks _)).
Qed.

Lemma chunk_pptx_by_segments text fp imgs lks :
  _chunk_pptx text fp imgs lks
  = (segs <- pptx_segments text ;;
     Ok (flat_map
           (emit_pptx fp imgs lks
              (Z.of_nat (List.length (PyStr.split text "--- Slide ")) - 1))
           segs)).
Proof.
  unfold _chunk_pptx, pptx_segments.
  now rewrite (for_each_segments _ _ (pptx_slide_emits fp imgs lks _)).
Qed.

Lemma ids_of_flat_map {A : Type} (f : A -> list Document) (l : list A) :
  ids_of (flat_map f l) = flat_map (fun x => ids_of (f x)) l.
Proof.
  induction l as [|x l IH]; simpl; [reflexivity |].
  now rewrite ids_of_app, IH.
Qed.

Lemma map_fst_enumerate {A B : Type} (f : nat -> B) (l : list A) (a : nat) :
  map (fun jc : nat * A => f (fst jc)) (combine (seq a (List.length l)) l)
  = map f (seq a (List.length l)).
Proof.
  revert a; induction l as [|x l IH]; intros a; simpl; [reflexivity |].
  now rewrite IH.
Qed.

Lemma ids_of_emit_pdf self fp imgs lks total (n : Z) (body : string) :
  ids_of (emit_pdf self fp imgs lks total (n, body))
  = if (PyStr.len body >? chunk_size self)%Z
    then map (fun j => (("page_" ++ PyStr.str_of_int n ++ "_chunk_")
                          ++ PyStr.str_of_int (Z.of_nat j))%string)
           (seq 0 (List.length (default_splitter self body)))
    else [("page_" ++ PyStr.str_of_int n)%string].
Proof.
  unfold emit_pdf; destruct (_ >? _)%Z; [| reflexivity].
  unfold ids_of, enumerate; rewrite map_map; cbn [chunk_id metadata pdf_document].
  rewrite (map_fst_enumerate
             (fun j => ("page_" ++ PyStr.str_of_int n ++ "_chunk_"
                          ++ PyStr.str_of_int (Z.of_nat j))%string)).
  apply map_ext; intros j.
  now rewrite !append_assoc.
Qed.

Lemma emit_pdf_labelled self fp imgs lks total seg id :
  In id (ids_of (emit_pdf self fp imgs lks total seg)) ->
  labelled "page_" (fst seg) id.
Proof.
  destruct seg as [n body]; rewrite ids_of_emit_pdf; cbn [fst].
  destruct (_ >? _)%Z.
  - rewrite in_map_iff; intros [j [<- _]].
    exists ("_chunk_" ++ PyStr.str_of_int (Z.of_nat j))%string; split.
    + now rewrite !append_assoc.
    + right; simpl; eauto.
  - intros [<- | []]; exists ""; split; [| now left].
    now rewrite append_empty_r.
Qed.

Lemma emit_pdf_NoDup self fp imgs lks total seg :
  NoDup (ids_of (emit_pdf self fp imgs lks total seg)).
Proof.
  destruct seg as [n body]; rewrite ids_of_emit_pdf.
  destruct (_ >? _)%Z.
  - apply numbered_ids_NoDup.
  - constructor; [intros [] | constructor].
Qed.

Lemma emit_pptx_labelled fp imgs lks total seg id :
  In id (ids_of (emit_pptx fp imgs lks total seg)) ->
  labelled "slide_" (fst seg) id.
Proof.
  destruct seg as [n body]; unfold emit_pptx; cbn [fst].
  destruct (PyStr.truthy _); [| intros []].
  intros [<- | []]; exists ""; split; [| now left].
  cbn [ids_of map chunk_id metadata pptx_document].
  now rewrite append_empty_r.
Qed.

Lemma emit_pptx_NoDup fp imgs lks total seg :
  NoDup (ids_of (emit_pptx fp imgs lks total seg)).
Proof.
  destruct seg as [n body]; unfold emit_pptx.
  destruct (PyStr.truthy _); simpl; [| constructor].
  constructor; [intros [] | constructor].
Qed.

(** C5, as stated, fails: two markers with the same page number give two
    chunks with the same identifier. *)
Lemma repeated_page_number_repeats_the_id :
  ids_of_result
    (chunk_document chunker_1000
       ("--- Page 1 ---" ++ LF ++ "First" ++ LF
          ++ "--- Page 1 ---" ++ LF ++ "Second")
       "doc.pdf" None None)
  = Ok ["page_1"; "page_1"].
Proof. reflexivity. Qed.

(** C5 (amended): the identifiers of the chunks of one document are
    pairwise distinct for the docx, txt and default policies, and for the
    pdf and pptx policies whenever the page or slide numbers of the
    segments read from the text are pairwise distinct.  When a number
    appears in more than one marker the identifiers can repeat: two
    markers for page 1, resp. slide 1, give [page_1], resp. [slide_1],
    twice. *)
Theorem chunk_ids_are_distinct_when_labels_are :
  (forall (self : SmartDocumentChunker) (text file_path : string)
          (imgs : option (list Image)) (lks : option (list string)),
      NoDup (ids_of (_chunk_docx self text file_path imgs lks))
      /\ NoDup (ids_of (_chunk_txt self text file_path))
      /\ NoDup (ids_of (_chunk_default self text file_path imgs lks)))
  /\ (forall (self : SmartDocumentChunker) (text file_path : string)
             (imgs : option (list Image)) (lks : option (list string))
             (segs : list (Z * string)),
         pdf_segments text = Ok segs ->
         NoDup (map fst segs) ->
         exists docs,
           _chunk_pdf self text file_path imgs lks = Ok docs
           /\ NoDup (ids_of docs))
  /\ (forall (text file_path : string)
             (imgs : option (list Image)) (lks : option (list string))
             (segs : list (Z * string)),
         pptx_segments text = Ok segs ->
         NoDup (map fst segs) ->
         exists docs,
           _chunk_pptx text file_path imgs lks = Ok docs
           /\ NoDup (ids_of docs))
  /\ (ids_of_result
        (_chunk_pdf chunker_1000
           ("--- Page 1 ---" ++ LF ++ "First" ++ LF
              ++ "--- Page 1 ---" ++ LF ++ "Second")
           "doc.pdf" None None)
      = Ok ["page_1"; "page_1"]
      /\ ids_of_result
           (_chunk_pptx
              ("--- Slide 1 ---" ++ LF ++ "First" ++ LF
                 ++ "--- Slide 1 ---" ++ LF ++ "Second")
              "deck.pptx" None None)
         = Ok ["slide_1"; "slide_1"]).
Proof.
  split; [| split; [| split; [| split; reflexivity]]].
  - intros self text fp imgs lks; repeat split.
    + rewrite chunk_docx_ids; apply numbered_ids_NoDup.
    + unfold _chunk_txt, enumerate.
      rewrite (ids_of_fold_enumerate
                 (txt_document fp
                    (Z.of_nat (List.length (default_splitter self text))))
                 (fun i => ("txt_chunk_" ++ PyStr.str_of_int (Z.of_nat i))%string))
        by reflexivity.
      apply numbered_ids_NoDup.
    + unfold _chunk_default, enumerate.
      rewrite (ids_of_fold_enumerate
                 (default_document fp imgs lks
                    (Z.of_nat (List.length (default_splitter self text))))
                 (fun i => ("chunk_" ++ PyStr.str_of_int (Z.of_nat i))%string))
        by reflexivity.
      apply numbered_ids_NoDup.
  - intros self text fp imgs lks segs Hsegs Hdistinct.
    rewrite chunk_pdf_by_segments, Hsegs; simpl.
    eexists; split; [reflexivity |].
    rewrite ids_of_flat_map.
    apply (NoDup_flat_map fst _ (labelled "page_")); auto.
    + intros x b; apply emit_pdf_labelled.
    + intros n m b; apply labelled_inj.
    + intros x; apply emit_pdf_NoDup.
  - intros text fp imgs lks segs Hsegs Hdistinct.
    rewrite chunk_pptx_by_segments, Hsegs; simpl.
    eexists; split; [reflexivity |].
    rewrite ids_of_flat_map.
    apply (NoDup_flat_map fst _ (labelled "slide_")); auto.
    + intros x b; apply emit_pptx_labelled.
    + intros n m b; apply labelled_inj.
    + intros x; apply emit_pptx_NoDup.
Qed.

Lemma chunk_ids_are_distinct_when_labels_are_witness :
  let text := ("--- Page 1 ---" ++ LF ++ "First" ++ LF
                 ++ "--- Page 2 ---" ++ LF ++ "Second")%string in
  pdf_segments text = Ok [(1%Z, ("First" ++ LF)%string); (2%Z, "Second")]
  /\ NoDup [1%Z; 2%Z]
  /\ exists docs,
       _chunk_pdf chunker_1000 text "doc.pdf" None None = Ok docs
       /\ NoDup (ids_of docs).
Proof.
  assert (D : NoDup [1%Z; 2%Z]).
  { constructor; [simpl; intros [H | []]; discriminate |].
    constructor; [intros [] | constructor]. }
  split; [reflexivity |].
  split; [exact D |].
  apply (proj1 (proj2 chunk_ids_are_distinct_when_labels_are) chunker_1000
           ("--- Page 1 ---" ++ LF ++ "First" ++ LF
              ++ "--- Page 2 ---" ++ LF ++ "Second")%string
           "doc.pdf" None None
           [(1%Z, ("First" ++ LF)%string); (2%Z, "Second")]).
  - reflexivity.
  - exact D.
Defined.

(** ** Oversized slides *)

Lemma contents_of_enumerate (mk : nat -> string -> Document)
      (pieces : list string) :
  (forall j c, page_content (mk j c) = c) ->
  contents_of
    (map (fun jc : nat * string => mk (fst jc) (snd jc)) (enumerate pieces))
  = pieces.
Proof.
  intros Hmk; unfold contents_of, enumerate; rewrite map_map.
  generalize 0%nat as a.
  induction pieces as [|p pieces IH]; intros a; simpl; [reflexivity |].
  now rewrite Hmk, IH.
Qed.

Lemma oversized_page_by_segments (split_text : TextSplitter) :
  let self := {| chunk_size := 1000; chunk_overlap := 200;
                 default_splitter := split_text |} in
  let body := times "word " 300 in
  chunk_document self ("--- Page 1 ---" ++ LF ++ body) "deck.pdf" None None
  = Ok (emit_pdf self "deck.pdf" None None 1 (1%Z, body)).
Proof.
  intros self body.
  change (chunk_document self ("--- Page 1 ---" ++ LF ++ body) "deck.pdf"
            None None)
    with (_chunk_pdf self ("--- Page 1 ---" ++ LF ++ body) "deck.pdf"
            None None).
  rewrite chunk_pdf_by_segments.
  replace (pdf_segments ("--- Page 1 ---" ++ LF ++ body))
    with (Ok [(1%Z, body)] : result (list (Z * string)))
    by (vm_compute; reflexivity).
  cbn [bind flat_map]; rewrite app_nil_r.
  replace (Z.of_nat
             (List.length
                (PyStr.split ("--- Page 1 ---" ++ LF ++ body) "--- Page "))
           - 1)%Z
    with 1%Z by (vm_compute; reflexivity).
  reflexivity.
Qed.

(** C1 (the code departs from it): a slide whose body is 1500 characters of
    space-separated words is emitted by [_chunk_pptx] as one chunk of 1499
    characters under [chunk_size = 1000], whatever the splitter;
    [_chunk_pdf] hands the same body to the splitter and emits its pieces. *)
Theorem oversized_slide_is_one_chunk (split_text : TextSplitter) :
  let self := {| chunk_size := 1000; chunk_overlap := 200;
                 default_splitter := split_text |} in
  let body := times "word " 300 in
  (exists d,
      chunk_document self ("--- Slide 1 ---" ++ LF ++ body)
        "deck.pptx" None None = Ok [d]
      /\ PyStr.len (page_content d) = 1499%Z
      /\ (PyStr.len (page_content d) >? chunk_size self)%Z = true
      /\ PyStr.contains " " (page_content d) = true)
  /\ contents_of_result
       (chunk_document self ("--- Page 1 ---" ++ LF ++ body)
          "deck.pdf" None None)
     = Ok (split_text body).
Proof.
  intros self body; split.
  - eexists; split; [vm_compute; reflexivity |].
    repeat split; vm_compute; reflexivity.
  - pose proof (oversized_page_by_segments split_text) as E.
    subst self body; cbv zeta in E; rewrite E; clear E.
    unfold contents_of_result, emit_pdf; cbn [bind chunk_size].
    replace (PyStr.len (times "word " 300) >? 1000)%Z with true
      by (vm_compute; reflexivity).
    f_equal.
    apply (contents_of_enumerate
             (fun j c =>
                pdf_document "deck.pdf" None None 1 1
                  ("page_" ++ PyStr.str_of_int 1 ++ "_chunk_"
                     ++ PyStr.str_of_int (Z.of_nat j))
                  c)).
    reflexivity.
Qed.

(** C2 (the code departs from it): [_chunk_pdf] follows the policy, one
    chunk ["page_<n>"] per segment, or one chunk ["page_<n>_chunk_<j>"] per
    piece of the splitter when the body is longer than [chunk_size].
    [_chunk_pptx] emits at most one chunk ["slide_<n>"] per segment and
    never consults the splitter: a slide body of 1500 characters under
    [chunk_size = 1000] yields the single identifier ["slide_1"]. *)
Theorem pptx_policy_never_splits :
  (forall (self : SmartDocumentChunker) (text file_path : string)
          (imgs : option (list Image)) (lks : option (list string)),
      _chunk_pdf self text file_path imgs lks
      = (segs <- pdf_segments text ;;
         Ok (flat_map
               (emit_pdf self file_path imgs lks
                  (Z.of_nat (List.length (PyStr.split text "--- Page ")) - 1))
               segs))
      /\ _chunk_pptx text file_path imgs lks
         = (segs <- pptx_segments text ;;
            Ok (flat_map
                  (emit_pptx file_path imgs lks
                     (Z.of_nat (List.length (PyStr.split text "--- Slide "))
                      - 1))
                  segs)))
  /\ (forall (self : SmartDocumentChunker) (fp : string)
             (imgs : option (list Image)) (lks : option (list string))
             (total n : Z) (body : string),
         ids_of (emit_pdf self fp imgs lks total (n, body))
         = if (PyStr.len body >? chunk_size self)%Z
           then map (fun j => (("page_" ++ PyStr.str_of_int n ++ "_chunk_")
                                 ++ PyStr.str_of_int (Z.of_nat j))%string)
                  (seq 0 (List.length (default_splitter self body)))
           else [("page_" ++ PyStr.str_of_int n)%string])
  /\ (forall split_text : TextSplitter,
         let self := {| chunk_size := 1000; chunk_overlap := 200;
                        default_splitter := split_text |} in
         let body := times "word " 300 in
         pptx_segments ("--- Slide 1 ---" ++ LF ++ body) = Ok [(1%Z, body)]
         /\ (PyStr.len body >? chunk_size self)%Z = true
         /\ ids_of_result
              (chunk_document self ("--- Slide 1 ---" ++ LF ++ body)
                 "deck.pptx" None None)
            = Ok ["slide_1"]
         /\ ids_of_result
              (chunk_document self ("--- Page 1 ---" ++ LF ++ body)
                 "deck.pdf" None None)
            = Ok (map (fun j => ("page_1_chunk_"
                                   ++ PyStr.str_of_int (Z.of_nat j))%string)
                    (seq 0 (List.length (split_text body))))).
Proof.
  split; [| split].
  - intros self text fp imgs lks; split.
    + apply chunk_pdf_by_segments.
    + apply chunk_pptx_by_segments.
  - intros; apply ids_of_emit_pdf.
  - intros split_text self body.
    split; [vm_compute; reflexivity |].
    split; [vm_compute; reflexivity |].
    split; [vm_compute; reflexivity |].
    pose proof (oversized_page_by_segments split_text) as E.
    subst self body; cbv zeta in E; rewrite E; clear E.
    unfold ids_of_result; cbn [bind]; f_equal.
    rewrite ids_of_emit_pdf; cbn [chunk_size default_splitter].
    replace (PyStr.len (times "word " 300) >? 1000)%Z with true
      by (vm_compute; reflexivity).
    reflexivity.
Qed.

(** ** Blank chunks *)

Lemma lstrip_clean (s : string) :
  PyStr.lstrip s = "" \/ starts_clean (PyStr.lstrip s) = true.
Proof.
  induction s as [|c s IH]; simpl; [now left |].
  destruct (PyStr.isspace c) eqn:E; [exact IH |].
  right; simpl; now rewrite E.
Qed.

Lemma lstrip_of_clean (s : string) :
  starts_clean s = true -> PyStr.lstrip s = s.
Proof.
  destruct s as [|c s]; simpl; [discriminate |].
  now destruct (PyStr.isspace c).
Qed.

Lemma rstrip_keeps_clean (s : string) :
  starts_clean s = true -> starts_clean (PyStr.rstrip s) = true.
Proof.
  destruct s as [|c s]; [discriminate |]; cbn [starts_clean]; intros H.
  unfold PyStr.rstrip; cbn [PyStr.rstrip_with].
  destruct (PyStr.rstrip_with PyStr.isspace s); [| exact H].
  destruct (PyStr.isspace c) eqn:E; [discriminate |].
  cbn [starts_clean]; now rewrite E.
Qed.

Lemma rstrip_idempotent (s : string) :
  PyStr.rstrip (PyStr.rstrip s) = PyStr.rstrip s.
Proof.
  unfold PyStr.rstrip; induction s as [|c s IH]; [reflexivity |].
  cbn [PyStr.rstrip_with].
  destruct (PyStr.rstrip_with PyStr.isspace s) as [|d r] eqn:E.
  - destruct (PyStr.isspace c) eqn:Hc; [reflexivity |].
    cbn [PyStr.rstrip_with]; now rewrite Hc.
  - change (PyStr.rstrip_with PyStr.isspace (String c (String d r)))
    with (match PyStr.rstrip_with PyStr.isspace (String d r) with
            | EmptyString =>
                if PyStr.isspace c then EmptyString else String c EmptyString
            | String a b => String c (String a b)
            end).
    now rewrite IH.
Qed.

Lemma strip_clean (s : string) :
  PyStr.strip s = "" \/ starts_clean (PyStr.strip s) = true.
Proof.
  unfold PyStr.strip; destruct (lstrip_clean s) as [-> | H].
  - now left.
  - right; now apply rstrip_keeps_clean.
Qed.

Lemma strip_idempotent (s : string) :
  PyStr.strip (PyStr.strip s) = PyStr.strip s.
Proof.
  destruct (strip_clean s) as [E | H].
  - rewrite E; reflexivity.
  - unfold PyStr.strip at 1; rewrite (lstrip_of_clean _ H).
    unfold PyStr.strip; apply rstrip_idempotent.
Qed.

Lemma strip_of_clean (s : string) :
  starts_clean s = true -> PyStr.truthy (PyStr.strip s) = true.
Proof.
  intros H; unfold PyStr.strip; rewrite (lstrip_of_clean s H).
  apply rstrip_keeps_clean in H.
  now destruct (PyStr.rstrip s).
Qed.

Lemma starts_clean_app (a b : string) :
  starts_clean a = true -> starts_clean (a ++ b) = true.
Proof. destruct a; simpl; [discriminate | auto]. Qed.

Lemma paragraphs_clean (text : string) :
  Forall (fun p => starts_clean p = true) (paragraphs text).
Proof.
  unfold paragraphs; apply Forall_forall; intros p Hp.
  apply in_map_iff in Hp as [x [<- Hx]].
  apply filter_In in Hx as [_ Hx].
  destruct (strip_clean x) as [E | H]; [| exact H].
  rewrite E in Hx; discriminate.
Qed.

Lemma greedy_not_blank (max_size : Z) (paras : list string) :
  Forall (fun p => starts_clean p = true) paras ->
  forall buffer,
    buffer = "" \/ starts_clean buffer = true ->
    Forall (fun b => PyStr.truthy (PyStr.strip b) = true)
      (greedy max_size buffer paras).
Proof.
  induction 1 as [|para rest Hpara _ IH]; intros buffer Hb; cbn [greedy].
  - destruct (PyStr.truthy (PyStr.strip buffer)) eqn:E; constructor; auto.
  - destruct ((_ >? _)%Z && PyStr.truthy buffer) eqn:E.
    + apply andb_prop in E as [_ E]; constructor.
      * destruct Hb as [-> | Hb]; [discriminate | now apply strip_of_clean].
      * apply IH; right; now apply starts_clean_app.
    + apply IH; right; destruct Hb as [-> | Hb].
      * cbn [append]; now apply starts_clean_app.
      * now apply starts_clean_app.
Qed.

Lemma chunk_docx_not_blank self text fp imgs lks :
  Forall not_blank (_chunk_docx self text fp imgs lks).
Proof.
  rewrite chunk_docx_greedy; unfold number_from.
  apply Forall_forall; intros d Hd.
  apply in_map_iff in Hd as [[k b] [<- Hkb]].
  apply in_combine_r in Hkb.
  unfold not_blank; cbn [page_content docx_document snd].
  rewrite strip_idempotent.
  revert b Hkb; apply Forall_forall.
  apply greedy_not_blank; [apply paragraphs_clean | now left].
Qed.

Lemma chunk_pptx_not_blank text fp imgs lks docs :
  _chunk_pptx text fp imgs lks = Ok docs -> Forall not_blank docs.
Proof.
  rewrite chunk_pptx_by_segments.
  destruct (pptx_segments text) as [segs|x]; simpl; [| discriminate].
  intros [= <-]; apply Forall_forall; intros d Hd.
  apply in_flat_map in Hd as [[n body] [_ Hd]].
  unfold emit_pptx in Hd.
  destruct (PyStr.truthy (PyStr.strip body)) eqn:E; [| destruct Hd].
  destruct Hd as [<- | []].
  unfold not_blank; cbn [page_content pptx_document].
  now rewrite strip_idempotent.
Qed.

(** C4 (the code departs from it): the text the extractor builds for a pdf
    whose first page is blank makes [_chunk_pdf] emit a chunk whose content
    is a single line break, and a marker that ends the text gives an empty
    content: [_chunk_pdf] tests the page with its marker line, never the
    body.  [_chunk_pptx], which tests [actual_content.strip()], and
    [_chunk_docx] never emit a blank chunk. *)
Theorem blank_page_is_emitted :
  (contents_of_result
     (chunk_document chunker_1000
        (LF ++ "--- Page 1 ---" ++ LF ++ LF ++ "--- Page 2 ---" ++ LF
            ++ "Hello")
        "scan.pdf" None None)
   = Ok [LF; "Hello"]
   /\ PyStr.strip LF = ""
   /\ contents_of_result
        (chunk_document chunker_1000 ("--- Page 1 ---" ++ LF) "scan.pdf"
           None None)
      = Ok [""])
  /\ (forall (text file_path : string) (imgs : option (list Image))
             (lks : option (list string)) (docs : list Document),
         _chunk_pptx text file_path imgs lks = Ok docs ->
         Forall not_blank docs)
  /\ (forall (self : SmartDocumentChunker) (text file_path : string)
             (imgs : option (list Image)) (lks : option (list string)),
         Forall not_blank (_chunk_docx self text file_path imgs lks)).
Proof.
  split; [repeat split; reflexivity |].
  split.
  - intros text fp imgs lks docs; apply chunk_pptx_not_blank.
  - intros; apply chunk_docx_not_blank.
Qed.

Lemma blank_page_is_emitted_witness :
  _chunk_pptx
    (LF ++ "--- Slide 1 ---" ++ LF ++ LF ++ "--- Slide 2 ---" ++ LF ++ "Hello")
    "deck.pptx" None None
  = Ok [pptx_document "deck.pptx" None None 2 2 "Hello"]
  /\ Forall not_blank [pptx_document "deck.pptx" None None 2 2 "Hello"].
Proof.
  split; [reflexivity |].
  apply (proj1 (proj2 blank_page_is_emitted)
           (LF ++ "--- Slide 1 ---" ++ LF ++ LF ++ "--- Slide 2 ---" ++ LF
               ++ "Hello")%string
           "deck.pptx" None None).
  reflexivity.
Defined.

(** * Further properties *)

(** ** The analyzer's entries *)

Lemma analyze_lines_rest (l : list (nat * string)) (st : Structure) :
  tables (fold_left analyze_line l st) = tables st
  /\ sections (fold_left analyze_line l st) = sections st.
Proof.
  revert st; induction l as [|[i raw] l IH]; intros st; cbn [fold_left];
    [auto |].
  destruct (IH (analyze_line st (i, raw))) as [-> ->].
  unfold analyze_line.
  destruct (header_test (PyStr.strip raw));
    destruct (list_test (PyStr.strip raw)); auto.
Qed.

Lemma combine_seq_lower {A : Type} (l : list A) (a : nat) :
  Forall (fun e : nat * A => (a <= fst e)%nat)
    (combine (seq a (List.length l)) l).
Proof.
  revert a; induction l as [|x l IH]; intros a; simpl; constructor.
  - simpl; lia.
  - eapply Forall_impl; [| apply (IH (S a))]; simpl; intros; lia.
Qed.

Lemma filter_enumerate_sorted {A : Type} (f : nat * A -> bool)
      (l : list A) (a : nat) :
  StronglySorted lt (map fst (filter f (combine (seq a (List.length l)) l))).
Proof.
  revert a; induction l as [|x l IH]; intros a; simpl; [constructor |].
  destruct (f (a, x)); [| apply IH].
  simpl; constructor; [apply IH |].
  apply Forall_forall; intros j Hj.
  apply in_map_iff in Hj as [e [<- He]].
  apply filter_In in He as [He _].
  pose proof (combine_seq_lower l (S a)) as L.
  rewrite Forall_forall in L; apply L in He; lia.
Qed.

(** X1: the line numbers are indices into [text.split('\n')], in increasing
    order, the texts are the stripped lines, and nothing is ever reported
    as a table or a section. *)
Theorem analyzer_entries_point_at_their_lines (text : string) :
  let r := extract_headers_and_structure text in
  tables r = [] /\ sections r = []
  /\ Forall (fun h => exists raw,
                 nth_error (PyStr.split text LF) (Header.line_number h)
                 = Some raw
                 /\ Header.text h = PyStr.strip raw
                 /\ header_test (Header.text h) = true)
       (headers r)
  /\ Forall (fun it => exists raw,
                 nth_error (PyStr.split text LF) (Item.line_number it)
                 = Some raw
                 /\ Item.text it = PyStr.strip raw
                 /\ list_test (Item.text it) = true)
       (lists r)
  /\ StronglySorted lt (map Header.line_number (headers r))
  /\ StronglySorted lt (map Item.line_number (lists r)).
Proof.
  cbv zeta; unfold extract_headers_and_structure.
  destruct (analyze_lines_rest (enumerate (PyStr.split text LF))
              {| headers := []; lists := []; tables := []; sections := [] |})
    as [Ht Hs].
  destruct (analyze_lines (enumerate (PyStr.split text LF))
              {| headers := []; lists := []; tables := []; sections := [] |})
    as [Hh Hl].
  cbv zeta in Hh, Hl.
  cbn [headers lists tables sections Datatypes.app] in Ht, Hs, Hh, Hl.
  rewrite Ht, Hs, Hh, Hl.
  split; [reflexivity |]; split; [reflexivity |].
  split; [| split; [| split]].
  - apply Forall_forall; intros h Hin.
    apply in_map_iff in Hin as [[i raw] [<- Hin]].
    apply filter_In in Hin as [Hin Htest]; apply in_enumerate in Hin.
    exists raw; cbn [fst snd header_entry Header.line_number Header.text] in *.
    auto.
  - apply Forall_forall; intros it Hin.
    apply in_map_iff in Hin as [[i raw] [<- Hin]].
    apply filter_In in Hin as [Hin Htest]; apply in_enumerate in Hin.
    exists raw; cbn [fst snd item_entry Item.line_number Item.text] in *.
    auto.
  - rewrite map_map; cbn [header_entry Header.line_number].
    apply (filter_enumerate_sorted _ (PyStr.split text LF) 0).
  - rewrite map_map; cbn [item_entry Item.line_number].
    apply (filter_enumerate_sorted _ (PyStr.split text LF) 0).
Qed.

(** ** Header levels and item types *)

Lemma chr_first (c : ascii) (r : Re.regex) (p : string) :
  Re.lang (Re.Cat (Re.Chr c) r) p -> exists t, p = String c t.
Proof.
  intros H; apply lang_cat_inv in H as [s1 [s2 [-> [H1 _]]]].
  apply lang_class_inv in H1 as [d [-> Hd]].
  apply Ascii.eqb_eq in Hd as <-; simpl; eauto.
Qed.

Lemma class_first (f : ascii -> bool) (r : Re.regex) (p : string) :
  Re.lang (Re.Cat (Re.Class f) r) p ->
  exists c t, p = String c t /\ f c = true.
Proof.
  intros H; apply lang_cat_inv in H as [s1 [s2 [-> [H1 _]]]].
  apply lang_class_inv in H1 as [d [-> Hd]]; simpl; eauto.
Qed.

Lemma markdown_starts_with_hash (line : string) :
  Re.match_ Pattern.markdown_header line = true ->
  PyStr.startswith line "#" = true.
Proof.
  rewrite match_lang; intros [p [q [-> H]]].
  unfold Pattern.markdown_header, Re.Plus in H.
  apply lang_cat_inv in H as [p1 [p2 [-> [H _]]]].
  apply chr_first in H as [t ->].
  unfold PyStr.startswith; apply prefix_app; simpl; eauto.
Qed.

Lemma numbered_starts_with_digit (line : string) :
  Re.match_ Pattern.numbered line = true ->
  exists c t, line = String c t /\ PyStr.isdigit c = true.
Proof.
  rewrite match_lang; intros [p [q [-> H]]].
  unfold Pattern.numbered, Re.Plus in H.
  apply lang_cat_inv in H as [p1 [p2 [-> [H _]]]].
  apply class_first in H as [c [t [-> Hc]]]; simpl; eauto.
Qed.

Lemma bullet_starts_with_sign (line : string) :
  Re.match_ Pattern.bullet line = true ->
  exists c t, line = String c t /\ PyStr.any (Ascii.eqb c) "*-+" = true.
Proof.
  rewrite match_lang; intros [p [q [-> H]]].
  unfold Pattern.bullet, Re.OneOf in H.
  apply class_first in H as [c [t [-> Hc]]]; simpl; eauto.
Qed.

Lemma startswith_char (c d : ascii) (t : string) :
  PyStr.startswith (String d t) (String c "") = Ascii.eqb c d.
Proof.
  unfold PyStr.startswith.
  change (String.prefix (String c "") (String d t))
    with (if ascii_dec c d then String.prefix "" t else false).
  destruct (ascii_dec c d) as [<-|N].
  - rewrite Ascii.eqb_refl; now destruct t.
  - symmetry; now apply Ascii.eqb_neq.
Qed.

Lemma level_of_header (line : string) :
  header_test line = true ->
  (_estimate_header_level line = 1 \/ _estimate_header_level line = 2
   \/ _estimate_header_level line = 3)%Z
  /\ (_estimate_header_level line = 3%Z
      <-> PyStr.startswith line "###" = true).
Proof.
  intros H; unfold header_test in H.
  apply andb_prop in H as [_ H].
  unfold _estimate_header_level.
  destruct (PyStr.startswith line "###") eqn:H3; [intuition |].
  destruct (PyStr.startswith line "##") eqn:H2;
    [split; [auto | split; discriminate] |].
  destruct (PyStr.startswith line "#") eqn:H1;
    [split; [auto | split; discriminate] |].
  destruct (PyStr.isupper line) eqn:Hu;
    [split; [auto | split; discriminate] |].
  destruct (Re.match_ Pattern.numbered line) eqn:Hn;
    [split; [auto | split; discriminate] |].
  exfalso; cbn [orb] in H.
  apply orb_prop in H as [H | H].
  - apply markdown_starts_with_hash in H; congruence.
  - apply numbered_section_is_numbered in H; congruence.
Qed.

(** X2: every reported header has level 1, 2 or 3, and level 3 exactly when its
    text starts with ["###"]: for a line the header test accepts, the
    last branch of [_estimate_header_level] is never taken. *)
Theorem reported_header_levels (text : string) :
  Forall (fun h =>
            (Header.level h = 1 \/ Header.level h = 2 \/ Header.level h = 3)%Z
            /\ (Header.level h = 3%Z
                <-> PyStr.startswith (Header.text h) "###" = true))
    (headers (extract_headers_and_structure text)).
Proof.
  unfold extract_headers_and_structure.
  destruct (analyze_lines (enumerate (PyStr.split text LF))
              {| headers := []; lists := []; tables := []; sections := [] |})
    as [Hh _].
  cbv zeta in Hh; cbn [headers Datatypes.app] in Hh; rewrite Hh.
  apply Forall_forall; intros h Hin.
  apply in_map_iff in Hin as [[i raw] [<- Hin]].
  apply filter_In in Hin as [_ Htest]; cbn [fst snd] in *.
  cbn [header_entry Header.level Header.text].
  now apply level_of_header.
Qed.

(** X3: every reported list item is a bullet whose text starts with [*], [-]
    or [+], or is numbered and its text starts with a decimal digit. *)
Theorem reported_item_types (text : string) :
  Forall (fun it =>
            exists c t,
              Item.text it = String c t
              /\ ((Item.type it = "bullet"
                   /\ PyStr.any (Ascii.eqb c) "*-+" = true)
                  \/ (Item.type it = "numbered"
                      /\ PyStr.isdigit c = true)))
    (lists (extract_headers_and_structure text)).
Proof.
  unfold extract_headers_and_structure.
  destruct (analyze_lines (enumerate (PyStr.split text LF))
              {| headers := []; lists := []; tables := []; sections := [] |})
    as [_ Hl].
  cbv zeta in Hl; cbn [lists Datatypes.app] in Hl; rewrite Hl.
  apply Forall_forall; intros it Hin.
  apply in_map_iff in Hin as [[i raw] [<- Hin]].
  apply filter_In in Hin as [_ Htest]; cbn [fst snd] in *.
  cbn [item_entry Item.type Item.text].
  set (line := PyStr.strip raw) in *.
  unfold list_test in Htest; apply orb_prop in Htest as [H | H].
  - apply bullet_starts_with_sign in H as [c [t [E Hc]]].
    exists c, t; split; [exact E |]; left; split; [| exact Hc].
    rewrite E, !startswith_char.
    simpl in Hc; rewrite !(Ascii.eqb_sym c) in Hc.
    rewrite orb_false_r in Hc.
    rewrite orb_assoc in Hc; now rewrite Hc.
  - apply numbered_starts_with_digit in H as [c [t [E Hc]]].
    exists c, t; split; [exact E |].
    rewrite E, !startswith_char.
    destruct (Ascii.eqb "*" c || Ascii.eqb "-" c || Ascii.eqb "+" c) eqn:B.
    + left; split; [reflexivity |].
      simpl; rewrite !(Ascii.eqb_sym c), orb_false_r, orb_assoc; exact B.
    + right; split; [reflexivity | exact Hc].
Qed.

(** ** The txt and the default policy *)

Lemma fold_enumerate_map (mk : nat -> string -> Document)
      (l : list (nat * string)) (acc : list Document) :
  fold_left
    (fun chunks (ic : nat * string) => let (i, c) := ic in chunks ++ [mk i c])
    l acc
  = acc ++ map (fun ic => mk (fst ic) (snd ic)) l.
Proof.
  revert acc; induction l as [|[i c] l IH]; intros acc; cbn [fold_left map].
  - now rewrite app_nil_r.
  - rewrite IH, <- app_assoc; reflexivity.
Qed.

Lemma length_enumerate {A : Type} (l : list A) :
  List.length (enumerate l) = List.length l.
Proof.
  unfold enumerate; rewrite length_combine, length_seq; apply Nat.min_id.
Qed.

(** X4: the txt policy emits the splitter's pieces unchanged and in order;
    every chunk records the number of chunks of the document and carries
    neither an image list nor a link list. *)
Theorem txt_chunks_are_the_splitter_pieces
        (self : SmartDocumentChunker) (text file_path : string) :
  let docs := _chunk_txt self text file_path in
  contents_of docs = default_splitter self text
  /\ Forall (fun d =>
               total_chunks (metadata d) = Some (Z.of_nat (List.length docs))
               /\ images (metadata d) = None
               /\ links (metadata d) = None
               /\ source (metadata d) = file_path
               /\ document_type (metadata d) = "txt")
       docs.
Proof.
  cbv zeta; unfold _chunk_txt.
  rewrite fold_enumerate_map; cbn [Datatypes.app].
  split.
  - apply (contents_of_enumerate
             (txt_document file_path
                (Z.of_nat (List.length (default_splitter self text))))).
    reflexivity.
  - rewrite length_map, length_enumerate.
    apply Forall_forall; intros d Hd.
    apply in_map_iff in Hd as [[i c] [<- _]].
    cbn; auto.
Qed.

(** X5: the default policy emits the splitter's pieces unchanged and in order;
    every chunk records the number of chunks and carries the whole image
    list and the whole link list of the document. *)
Theorem default_chunks_are_the_splitter_pieces
        (self : SmartDocumentChunker) (text file_path : string)
        (imgs : option (list Image)) (lks : option (list string)) :
  let docs := _chunk_default self text file_path imgs lks in
  contents_of docs = default_splitter self text
  /\ Forall (fun d =>
               total_chunks (metadata d) = Some (Z.of_nat (List.length docs))
               /\ images (metadata d) = Some (or_empty imgs)
               /\ links (metadata d) = Some (or_empty lks)
               /\ source (metadata d) = file_path
               /\ document_type (metadata d) = "unknown")
       docs.
Proof.
  cbv zeta; unfold _chunk_default.
  rewrite fold_enumerate_map; cbn [Datatypes.app].
  split.
  - apply (contents_of_enumerate
             (default_document file_path imgs lks
                (Z.of_nat (List.length (default_splitter self text))))).
    reflexivity.
  - rewrite length_map, length_enumerate.
    apply Forall_forall; intros d Hd.
    apply in_map_iff in Hd as [[i c] [<- _]].
    cbn; auto.
Qed.

(** ** The size and the content of docx chunks *)

Lemma rstrip_with_space_end (sp : ascii -> bool) (c : ascii) (s : string) :
  sp c = true ->
  PyStr.rstrip_with sp (s ++ String c "") = PyStr.rstrip_with sp s.
Proof.
  intros Hc; induction s as [|d s IH]; cbn [append PyStr.rstrip_with].
  - now rewrite Hc.
  - now rewrite IH.
Qed.

Lemma rstrip_LF (s : string) : PyStr.rstrip (s ++ LF) = PyStr.rstrip s.
Proof. apply rstrip_with_space_end; reflexivity. Qed.

Lemma length_rstrip_with (sp : ascii -> bool) (s : string) :
  (String.length (PyStr.rstrip_with sp s) <= String.length s)%nat.
Proof.
  induction s as [|c s IH]; cbn [PyStr.rstrip_with String.length]; [lia |].
  destruct (PyStr.rstrip_with sp s) as [|d r].
  - destruct (sp c); cbn [String.length]; lia.
  - cbn [String.length] in *; lia.
Qed.

Lemma length_append (a b : string) :
  String.length (a ++ b) = (String.length a + String.length b)%nat.
Proof. induction a as [|c a IH]; cbn; [reflexivity | now rewrite IH]. Qed.

Lemma lstrip_before_LF (s : string) :
  PyStr.lstrip (s ++ LF) = ""
  \/ exists t, PyStr.lstrip (s ++ LF) = (t ++ LF)%string
               /\ (String.length t <= String.length s)%nat.
Proof.
  induction s as [|c s IH]; cbn [append PyStr.lstrip].
  - left; reflexivity.
  - destruct (PyStr.isspace c).
    + destruct IH as [E | [t [E L]]]; [now left |].
      right; exists t; split; [exact E | cbn [String.length]; lia].
    + right; exists (String c s); split; [reflexivity | lia].
Qed.

Lemma len_strip_before_LF (s : string) :
  (PyStr.len (PyStr.strip (s ++ LF)) <= PyStr.len s)%Z.
Proof.
  unfold PyStr.len, PyStr.strip.
  destruct (lstrip_before_LF s) as [E | [t [E L]]]; rewrite E.
  - cbn; lia.
  - rewrite rstrip_LF.
    pose proof (length_rstrip_with PyStr.isspace t) as R.
    unfold PyStr.rstrip; lia.
Qed.

Lemma paragraphs_stripped (text : string) :
  Forall stripped (paragraphs text).
Proof.
  unfold paragraphs; apply Forall_forall; intros p Hp.
  apply in_map_iff in Hp as [raw [<- Hraw]].
  apply filter_In in Hraw as [_ Hraw].
  split.
  - destruct (strip_clean raw) as [E | E]; [| exact E].
    rewrite E in Hraw; discriminate.
  - unfold PyStr.strip; apply rstrip_idempotent.
Qed.

Lemma strip_paragraph_LF (p : string) :
  stripped p -> PyStr.strip (p ++ LF) = p.
Proof.
  intros [Hc Hr]; unfold PyStr.strip.
  rewrite lstrip_of_clean by now apply starts_clean_app.
  now rewrite rstrip_LF.
Qed.

(** The buffers the greedy policy flushes: one paragraph and its line
    feed, or a text within the size and a line feed. *)
Lemma greedy_buffers (max_size : Z) (all : list string) :
  forall (paras : list string) (buffer : string),
    incl paras all ->
    buffer = ""
    \/ (exists p, In p all /\ buffer = (p ++ LF)%string)
    \/ (exists b, buffer = (b ++ LF)%string /\ (PyStr.len b <= max_size)%Z) ->
    Forall (fun buffer' =>
              (exists p, In p all /\ buffer' = (p ++ LF)%string)
              \/ (exists b, buffer' = (b ++ LF)%string
                            /\ (PyStr.len b <= max_size)%Z))
      (greedy max_size buffer paras).
Proof.
  induction paras as [|para rest IH]; intros buffer Hin Hb; cbn [greedy].
  - destruct Hb as [-> | Hb]; [cbn; constructor |].
    destruct (PyStr.truthy (PyStr.strip buffer)); constructor; auto.
  - assert (Hp : In para all) by (apply Hin; now left).
    assert (Hrest : incl rest all) by (intros x Hx; apply Hin; now right).
    destruct ((PyStr.len buffer + PyStr.len para >? max_size)%Z) eqn:Hsize;
      cbn [andb].
    + destruct (PyStr.truthy buffer) eqn:Ht.
      * constructor.
        -- destruct Hb as [-> | Hb]; [discriminate | exact Hb].
        -- apply IH; [exact Hrest | right; left; eauto].
      * apply IH; [exact Hrest |].
        destruct buffer; [| discriminate].
        right; left; exists para; auto.
    + apply IH; [exact Hrest |].
      destruct buffer as [|c buffer].
      * right; left; exists para; auto.
      * right; right; exists (String c buffer ++ para)%string.
        split; [now rewrite append_assoc |].
        rewrite Z.gtb_ltb in Hsize; apply Z.ltb_ge in Hsize.
        unfold PyStr.len in *; rewrite length_append; lia.
Qed.

(** X6: a docx chunk is longer than [chunk_size] only when it is one single
    paragraph of the text. *)
Theorem docx_chunk_exceeds_the_size_only_for_one_paragraph
        (self : SmartDocumentChunker) (text file_path : string)
        (imgs : option (list Image)) (lks : option (list string)) :
  Forall (fun d =>
            (PyStr.len (page_content d) <= chunk_size self)%Z
            \/ In (page_content d) (paragraphs text))
    (_chunk_docx self text file_path imgs lks).
Proof.
  rewrite chunk_docx_greedy; unfold number_from.
  apply Forall_forall; intros d Hd.
  apply in_map_iff in Hd as [[k buffer] [<- Hk]].
  apply in_combine_r in Hk; cbn [fst snd docx_document page_content].
  pose proof (greedy_buffers (chunk_size self) (paragraphs text)
                (paragraphs text) "" (incl_refl _) (or_introl eq_refl)) as G.
  rewrite Forall_forall in G.
  destruct (G buffer Hk) as [[p [Hp ->]] | [b [-> Hb]]].
  - right; rewrite strip_paragraph_LF; [exact Hp |].
    pose proof (paragraphs_stripped text) as S.
    rewrite Forall_forall in S; auto.
  - left; pose proof (len_strip_before_LF b); lia.
Qed.

Lemma rstrip_with_app (sp : ascii -> bool) (a b : string) :
  PyStr.rstrip_with sp b <> "" ->
  PyStr.rstrip_with sp (a ++ b) = (a ++ PyStr.rstrip_with sp b)%string.
Proof.
  intros Hb; induction a as [|c a IH]; cbn [append PyStr.rstrip_with];
    [reflexivity |].
  rewrite IH.
  destruct (a ++ PyStr.rstrip_with sp b)%string eqn:E; [| reflexivity].
  apply append_eq_empty in E as [_ E]; contradiction.
Qed.

Lemma stripped_not_empty (p : string) : stripped p -> p <> "".
Proof. intros [H _] ->; discriminate. Qed.

Lemma concat_cons (sep x : string) (l : list string) :
  l <> [] ->
  String.concat sep (x :: l) = (x ++ sep ++ String.concat sep l)%string.
Proof. destruct l; [contradiction | reflexivity]. Qed.

Lemma concat_app (sep : string) (l1 l2 : list string) :
  l1 <> [] -> l2 <> [] ->
  String.concat sep (l1 ++ l2)
  = (String.concat sep l1 ++ sep ++ String.concat sep l2)%string.
Proof.
  intros H1 H2; induction l1 as [|x l1 IH]; [contradiction |].
  destruct l1 as [|y l1].
  - cbn [Datatypes.app]; now rewrite concat_cons.
  - change ((x :: y :: l1) ++ l2) with (x :: ((y :: l1) ++ l2)).
    rewrite concat_cons by discriminate.
    rewrite IH by discriminate.
    rewrite (concat_cons sep x (y :: l1)) by discriminate.
    now rewrite !append_assoc.
Qed.

Lemma buffer_of_app (l1 l2 : list string) :
  buffer_of (l1 ++ l2) = (buffer_of l1 ++ buffer_of l2)%string.
Proof.
  induction l1 as [|x l1 IH]; cbn [Datatypes.app buffer_of append];
    [reflexivity |].
  now rewrite IH, !append_assoc.
Qed.

Lemma buffer_of_concat (l : list string) :
  l <> [] -> buffer_of l = (String.concat LF l ++ LF)%string.
Proof.
  induction l as [|x l IH]; [contradiction | intros _].
  destruct l as [|y l].
  - cbn [buffer_of String.concat]; now rewrite append_empty_r.
  - rewrite concat_cons by discriminate.
    cbn [buffer_of] in *; rewrite IH by discriminate.
    now rewrite !append_assoc.
Qed.

Lemma concat_stripped (l : list string) :
  l <> [] -> Forall stripped l -> stripped (String.concat LF l).
Proof.
  induction l as [|x l IH]; [contradiction | intros _ H].
  inversion H as [|? ? Hx Hl]; subst.
  destruct l as [|y l]; [exact Hx |].
  rewrite concat_cons by discriminate.
  destruct (IH ltac:(discriminate) Hl) as [Hc Hr].
  split.
  - apply starts_clean_app, Hx.
  - unfold PyStr.rstrip in *.
    rewrite <- append_assoc.
    rewrite rstrip_with_app; rewrite Hr; [reflexivity |].
    intros E; rewrite E in Hc; discriminate.
Qed.

Lemma strip_buffer_of (l : list string) :
  l <> [] -> Forall stripped l ->
  PyStr.strip (buffer_of l) = String.concat LF l.
Proof.
  intros Hl H; rewrite buffer_of_concat by exact Hl.
  apply strip_paragraph_LF, concat_stripped; assumption.
Qed.

Lemma greedy_keeps_paragraphs (max_size : Z) :
  forall paras qs : list string,
    Forall stripped paras -> Forall stripped qs ->
    String.concat LF (map PyStr.strip (greedy max_size (buffer_of qs) paras))
    = String.concat LF (qs ++ paras).
Proof.
  induction paras as [|para rest IH]; intros qs Hp Hq; cbn [greedy].
  - rewrite app_nil_r.
    destruct qs as [|q qs]; [reflexivity |].
    pose proof (strip_buffer_of (q :: qs) ltac:(discriminate) Hq) as E.
    pose proof (concat_stripped (q :: qs) ltac:(discriminate) Hq) as S.
    apply stripped_not_empty, truthy_true in S.
    rewrite E, S; cbn [map String.concat]; exact E.
  - inversion Hp as [|? ? Hpara Hrest]; subst.
    destruct ((PyStr.len (buffer_of qs) + PyStr.len para >? max_size)%Z
              && PyStr.truthy (buffer_of qs)) eqn:C.
    + apply andb_prop in C as [_ C].
      assert (Hqs : qs <> []) by (intros ->; discriminate).
      cbn [map].
      pose proof (IH [para] Hrest (Forall_cons _ Hpara (Forall_nil _))) as E.
      cbn [buffer_of] in E; rewrite append_empty_r in E.
      rewrite concat_cons.
      * rewrite E, strip_buffer_of by assumption.
        symmetry; apply concat_app; [exact Hqs | discriminate].
      * intros N; rewrite N in E; cbn [String.concat] in E.
        pose proof (concat_stripped ([para] ++ rest) ltac:(discriminate)
                      (Forall_cons _ Hpara Hrest)) as S.
        rewrite <- E in S; now apply stripped_not_empty in S.
    + replace (buffer_of qs ++ para ++ LF)%string
        with (buffer_of (qs ++ [para])).
      * rewrite IH; [now rewrite <- app_assoc | exact Hrest |].
        apply Forall_app; auto.
      * rewrite buffer_of_app; cbn [buffer_of].
        now rewrite append_empty_r.
Qed.

(** X7: the docx chunks, joined by line feeds, are the paragraphs of the text
    joined by line feeds: no paragraph is lost, repeated, reordered or cut. *)
Theorem docx_chunks_keep_every_paragraph
        (self : SmartDocumentChunker) (text file_path : string)
        (imgs : option (list Image)) (lks : option (list string)) :
  String.concat LF (contents_of (_chunk_docx self text file_path imgs lks))
  = String.concat LF (paragraphs text).
Proof.
  rewrite chunk_docx_greedy; unfold number_from, contents_of.
  rewrite map_map; cbn [docx_document page_content].
  rewrite <- (map_map snd PyStr.strip).
  assert (S : forall (l : list string) (k : nat),
             map snd (combine (seq k (List.length l)) l) = l).
  { induction l as [|x l IHl]; intros k; cbn; [reflexivity |].
    now rewrite IHl. }
  rewrite S.
  apply (greedy_keeps_paragraphs (chunk_size self) (paragraphs text) []).
  - apply paragraphs_stripped.
  - constructor.
Qed.

(** ** Cutting a text at its separators *)

Lemma prefix_cons (d c : ascii) (p s : string) :
  String.prefix (String d p) (String c s)
  = Ascii.eqb d c && String.prefix p s.
Proof.
  change (String.prefix (String d p) (String c s))
    with (if ascii_dec d c then String.prefix p s else false).
  destruct (ascii_dec d c) as [<-|N].
  - now rewrite Ascii.eqb_refl.
  - apply Ascii.eqb_neq in N; now rewrite N.
Qed.

Lemma prefix_self_app (p r : string) : String.prefix p (p ++ r) = true.
Proof. apply prefix_app; eauto. Qed.

Lemma any_app (f : ascii -> bool) (a b : string) :
  PyStr.any f (a ++ b) = PyStr.any f a || PyStr.any f b.
Proof.
  induction a as [|c a IH]; cbn [append PyStr.any]; [reflexivity |].
  now rewrite IH, orb_assoc.
Qed.

Lemma split_from_skip (sep : string) (limit : option nat) (x b : string) :
  PyStr.split_from sep limit (String.length x) (x ++ b)
  = PyStr.split_from sep limit 0 b.
Proof.
  induction x as [|c x IH]; cbn [append String.length PyStr.split_from];
    [reflexivity | exact IH].
Qed.

Lemma split_from_cut (c0 : ascii) (sep' : string) (limit : option nat)
      (a b : string) :
  PyStr.may_cut limit = true ->
  no_cut_before (String c0 sep') a (String c0 sep' ++ b) = true ->
  PyStr.split_from (String c0 sep') limit 0 (a ++ String c0 sep' ++ b)
  = a :: PyStr.split_from (String c0 sep') (PyStr.after_cut limit) 0 b.
Proof.
  intros Hl; induction a as [|c a IH]; intros Ha.
  - cbn [append PyStr.split_from].
    change (String c0 (sep' ++ b)) with (String c0 sep' ++ b)%string.
    rewrite Hl, prefix_self_app; cbn [andb String.length Nat.pred].
    now rewrite split_from_skip.
  - cbn [no_cut_before] in Ha; apply andb_prop in Ha as [Hc Ha].
    apply negb_true_iff in Hc; specialize (IH Ha).
    cbn [append PyStr.split_from] in *.
    now rewrite Hc, andb_false_r, IH.
Qed.

Lemma contains_false_prefix (sep s : string) :
  PyStr.contains sep s = false -> String.prefix sep s = false.
Proof.
  destruct s; cbn [PyStr.contains]; intros H;
    apply orb_false_iff in H as [H _]; exact H.
Qed.

Lemma contains_false_tail (sep : string) (c : ascii) (s : string) :
  PyStr.contains sep (String c s) = false -> PyStr.contains sep s = false.
Proof.
  cbn [PyStr.contains]; intros H; apply orb_false_iff in H as [_ H]; exact H.
Qed.

Lemma split_from_absent (sep : string) (limit : option nat) (s : string) :
  PyStr.contains sep s = false ->
  PyStr.split_from sep limit 0 s = [s].
Proof.
  induction s as [|c s IH]; intros H; cbn [PyStr.split_from];
    [reflexivity |].
  rewrite (contains_false_prefix _ _ H), andb_false_r.
  now rewrite (IH (contains_false_tail _ _ _ H)).
Qed.

Lemma split_from_no_cut_left (sep : string) (s : string) :
  PyStr.split_from sep (Some 0%nat) 0 s = [s].
Proof.
  induction s as [|c s IH]; cbn [PyStr.split_from PyStr.may_cut andb];
    [reflexivity | now rewrite IH].
Qed.

Lemma no_cut_before_app (sep a1 a2 rest : string) :
  no_cut_before sep (a1 ++ a2) rest
  = no_cut_before sep a1 (a2 ++ rest) && no_cut_before sep a2 rest.
Proof.
  induction a1 as [|c a1 IH]; [reflexivity |].
  cbn [append no_cut_before]; rewrite IH.
  change (String c (a1 ++ a2)) with (String c a1 ++ a2)%string.
  now rewrite append_assoc, andb_assoc.
Qed.

Lemma prefix_blocked (c : ascii) (sep y rest : string) :
  PyStr.any (Ascii.eqb c) sep = false ->
  String.prefix sep (y ++ String c rest) = String.prefix sep y.
Proof.
  revert y; induction sep as [|d sep IH]; intros y H.
  - now destruct y.
  - cbn [PyStr.any] in H; apply orb_false_iff in H as [Hd H].
    destruct y as [|e y]; cbn [append].
    + rewrite prefix_cons, Ascii.eqb_sym, Hd; reflexivity.
    + rewrite !prefix_cons, (IH y H); reflexivity.
Qed.

Lemma no_cut_before_blocked (c d : ascii) (sep a rest : string) :
  PyStr.any (Ascii.eqb c) (String d sep) = false ->
  no_cut_before (String d sep) a (String c rest)
  = negb (PyStr.contains (String d sep) a).
Proof.
  intros H; induction a as [|e a IH]; [reflexivity |].
  cbn [no_cut_before PyStr.contains].
  rewrite prefix_blocked by exact H.
  now rewrite IH, negb_orb.
Qed.

Lemma no_cut_before_absent (d : ascii) (sep a rest : string) :
  PyStr.any (Ascii.eqb d) a = false ->
  no_cut_before (String d sep) a rest = true.
Proof.
  induction a as [|e a IH]; [reflexivity |]; intros H.
  cbn [PyStr.any] in H; apply orb_false_iff in H as [He H].
  cbn [no_cut_before append].
  now rewrite prefix_cons, He, (IH H).
Qed.

Lemma chunk_pdf_unmarked (self : SmartDocumentChunker)
      (text file_path : string) (imgs : option (list Image))
      (lks : option (list string)) :
  PyStr.contains "--- Page " text = false ->
  _chunk_pdf self text file_path imgs lks
  = Ok (if PyStr.truthy (PyStr.strip text)
        then emit_pdf self file_path imgs lks 0 (0%Z, body_of text)
        else []).
Proof.
  intros H.
  rewrite chunk_pdf_by_segments; unfold pdf_segments, PyStr.split.
  rewrite (split_from_absent _ None _ H).
  unfold enumerate, segments, segment, label.
  cbn -[emit_pdf emit_pptx body_of PyStr.strip].
  destruct (PyStr.truthy (PyStr.strip text));
    cbn -[emit_pdf emit_pptx body_of PyStr.strip]; [| reflexivity].
  now rewrite app_nil_r.
Qed.

Lemma chunk_pptx_unmarked (text file_path : string)
      (imgs : option (list Image)) (lks : option (list string)) :
  PyStr.contains "--- Slide " text = false ->
  _chunk_pptx text file_path imgs lks
  = Ok (if PyStr.truthy (PyStr.strip text)
        then emit_pptx file_path imgs lks 0 (0%Z, body_of text)
        else []).
Proof.
  intros H.
  rewrite chunk_pptx_by_segments; unfold pptx_segments, PyStr.split.
  rewrite (split_from_absent _ None _ H).
  unfold enumerate, segments, segment, label.
  cbn -[emit_pdf emit_pptx body_of PyStr.strip].
  destruct (PyStr.truthy (PyStr.strip text));
    cbn -[emit_pdf emit_pptx body_of PyStr.strip]; [| reflexivity].
  now rewrite app_nil_r.
Qed.

(** X8: without a page marker, resp. a slide marker, the text is one segment
    numbered 0: nothing is parsed, nothing can raise, and the document
    counts 0 pages, resp. slides. *)
Theorem text_without_marker_is_segment_zero
        (self : SmartDocumentChunker) (text file_path : string)
        (imgs : option (list Image)) (lks : option (list string)) :
  (PyStr.contains "--- Page " text = false ->
   _chunk_pdf self text file_path imgs lks
   = Ok (if PyStr.truthy (PyStr.strip text)
         then emit_pdf self file_path imgs lks 0 (0%Z, body_of text)
         else []))
  /\ (PyStr.contains "--- Slide " text = false ->
      _chunk_pptx text file_path imgs lks
      = Ok (if PyStr.truthy (PyStr.strip text)
            then emit_pptx file_path imgs lks 0 (0%Z, body_of text)
            else [])).
Proof.
  split; [apply chunk_pdf_unmarked | apply chunk_pptx_unmarked].
Qed.

Lemma text_without_marker_is_segment_zero_witness :
  PyStr.contains "--- Page " "Plain text of a scan" = false
  /\ _chunk_pdf chunker_1000 "Plain text of a scan" "scan.pdf" None None
     = Ok [pdf_document "scan.pdf" None None 0 0 "page_0"
             "Plain text of a scan"].
Proof.
  assert (H : PyStr.contains "--- Page " "Plain text of a scan" = false)
    by reflexivity.
  split; [exact H |].
  refine (eq_trans
            (proj1 (text_without_marker_is_segment_zero chunker_1000
                      "Plain text of a scan" "scan.pdf" None None) H) _).
  reflexivity.
Defined.

(** ** Numerals: [int(str(n))] *)

Lemma digit_char (c : ascii) :
  PyStr.isdigit c = true ->
  PyStr.int_space c = false /\ PyStr.isspace c = false.
Proof.
  unfold PyStr.isdigit, PyStr.int_space, PyStr.isspace, PyStr.between.
  intros H; apply andb_prop in H as [H1 H2].
  apply Nat.leb_le in H1; apply Nat.leb_le in H2.
  split; repeat (apply orb_false_iff; split);
    try (apply Nat.eqb_neq; lia);
    apply andb_false_iff;
    try (left; apply Nat.leb_gt; lia); right; apply Nat.leb_gt; lia.
Qed.

Lemma string_of_uint_digits (d : Decimal.uint) :
  digits_only (NilEmpty.string_of_uint d) = true.
Proof.
  unfold digits_only; apply negb_true_iff.
  induction d; cbn [NilEmpty.string_of_uint PyStr.any]; auto.
Qed.

Lemma str_of_nat_digits (k : nat) :
  digits_only (PyStr.str_of_int (Z.of_nat k)) = true.
Proof.
  unfold PyStr.str_of_int.
  destruct (Z.of_nat k) eqn:E; cbn [Z.to_int NilEmpty.string_of_int];
    [reflexivity | apply string_of_uint_digits | lia].
Qed.

Lemma digits_only_without (c : ascii) (s : string) :
  digits_only s = true -> PyStr.isdigit c = false ->
  PyStr.any (Ascii.eqb c) s = false.
Proof.
  unfold digits_only; intros H Hc; apply negb_true_iff in H.
  induction s as [|d s IH]; [reflexivity |].
  cbn [PyStr.any] in *; apply orb_false_iff in H as [Hd H].
  rewrite (IH H), orb_false_r.
  destruct (Ascii.eqb_spec c d) as [<-|]; [| reflexivity].
  rewrite Hc in Hd; discriminate.
Qed.

Lemma rstrip_with_none (sp : ascii -> bool) (s : string) :
  PyStr.any sp s = false -> PyStr.rstrip_with sp s = s.
Proof.
  induction s as [|c s IH]; [reflexivity |]; intros H.
  cbn [PyStr.any] in H; apply orb_false_iff in H as [Hc H].
  cbn [PyStr.rstrip_with]; rewrite (IH H), Hc; now destruct s.
Qed.

Lemma digits_only_no_space (s : string) :
  digits_only s = true -> PyStr.any PyStr.int_space s = false.
Proof.
  unfold digits_only; intros H; apply negb_true_iff in H.
  induction s as [|c s IH]; [reflexivity |].
  cbn [PyStr.any] in *; apply orb_false_iff in H as [Hc H].
  apply negb_false_iff in Hc.
  now rewrite (proj1 (digit_char c Hc)), (IH H).
Qed.

Lemma digits_uint (d : Decimal.uint) :
  forall (acc : Z) (n : nat),
    PyStr.digits acc n true (NilEmpty.string_of_uint d)
    = Some (uval acc d, (n + nb_digits d)%nat).
Proof.
  induction d; intros acc n;
    cbn [NilEmpty.string_of_uint PyStr.digits uval nb_digits];
    [now rewrite Nat.add_0_r | ..];
    match goal with
    | |- context [PyStr.isdigit ?c] =>
        change (PyStr.isdigit c) with true;
        let v := eval vm_compute in (PyStr.digit_val c) in
        change (PyStr.digit_val c) with v
    end;
    cbv iota; rewrite IHd, Nat.add_succ_r; reflexivity.
Qed.

Lemma digits_uint_first (d : Decimal.uint) (acc : Z) (n : nat) :
  d <> Nil ->
  PyStr.digits acc n false (NilEmpty.string_of_uint d)
  = Some (uval acc d, (n + nb_digits d)%nat).
Proof.
  intros Hd; destruct d; [contradiction | ..];
    cbn [NilEmpty.string_of_uint PyStr.digits uval nb_digits];
    match goal with
    | |- context [PyStr.isdigit ?c] =>
        change (PyStr.isdigit c) with true;
        let v := eval vm_compute in (PyStr.digit_val c) in
        change (PyStr.digit_val c) with v
    end;
    cbv iota; rewrite digits_uint, Nat.add_succ_r; reflexivity.
Qed.

Lemma uval_of_uint_acc (d : Decimal.uint) :
  forall acc : positive, Z.pos (Pos.of_uint_acc d acc) = uval (Z.pos acc) d.
Proof.
  induction d; intros acc; cbn [Pos.of_uint_acc uval]; [reflexivity | ..];
    rewrite IHd; f_equal; lia.
Qed.

Lemma uval_of_uint (d : Decimal.uint) : Z.of_uint d = uval 0 d.
Proof.
  unfold Z.of_uint.
  induction d; cbn [Pos.of_uint uval]; [reflexivity | exact IHd | ..];
    cbn [Z.of_N]; rewrite uval_of_uint_acc; reflexivity.
Qed.

Lemma uval_lower (d : Decimal.uint) :
  forall acc : Z,
    (0 <= acc)%Z -> (acc * 10 ^ Z.of_nat (nb_digits d) <= uval acc d)%Z.
Proof.
  induction d; intros acc Hacc; cbn [uval nb_digits];
    [cbn; lia | ..];
    rewrite Nat2Z.inj_succ, Z.pow_succ_r by lia;
    match goal with
    | |- (_ <= uval ?a _)%Z =>
        specialize (IHd a ltac:(lia));
        assert (0 < 10 ^ Z.of_nat (nb_digits d))%Z
          by (apply Z.pow_pos_nonneg; lia);
        nia
    end.
Qed.

Lemma to_uint_normal (p : positive) : unorm (Pos.to_uint p) = Pos.to_uint p.
Proof.
  pose proof (DecimalPos.Unsigned.to_of (Pos.to_uint p)) as H.
  now rewrite DecimalPos.Unsigned.of_to in H.
Qed.

Lemma to_uint_size (p : positive) :
  (10 ^ (Z.of_nat (nb_digits (Pos.to_uint p)) - 1) <= Z.pos p)%Z.
Proof.
  pose proof (DecimalZ.of_to (Z.pos p)) as V.
  cbn [Z.to_int Z.of_int] in V; rewrite uval_of_uint in V.
  pose proof (to_uint_normal p) as N.
  pose proof (DecimalPos.Unsigned.to_uint_nonzero p) as Z0.
  pose proof (DecimalPos.Unsigned.to_uint_nonnil p) as Z1.
  rewrite <- V; clear V.
  destruct (Pos.to_uint p) as [|l|l|l|l|l|l|l|l|l|l] eqn:E;
    [contradiction | | ..].
  1: { exfalso; rewrite DecimalFacts.unorm_D0 in N.
       destruct (nzhead l) eqn:Hl;
         [apply DecimalFacts.unorm_0 in Hl; rewrite Hl in N;
          apply Z0; now rewrite <- N | ..];
         rewrite DecimalFacts.unorm_nzhead in N
           by (rewrite Hl; discriminate);
         now apply DecimalFacts.nzhead_nonzero in N. }
  all: cbn [uval nb_digits];
    rewrite Nat2Z.inj_succ;
    replace (Z.succ (Z.of_nat (nb_digits l)) - 1)%Z
      with (Z.of_nat (nb_digits l)) by lia;
    match goal with
    | |- (_ <= uval ?a _)%Z => pose proof (uval_lower l a ltac:(lia))
    end;
    assert (0 < 10 ^ Z.of_nat (nb_digits l))%Z
      by (apply Z.pow_pos_nonneg; lia);
    nia.
Qed.

Lemma to_uint_digits (p : positive) :
  (Z.pos p < int_limit)%Z ->
  (nb_digits (Pos.to_uint p) <= PyStr.int_max_str_digits)%nat.
Proof.
  unfold int_limit, PyStr.int_max_str_digits; intros H.
  pose proof (to_uint_size p) as Sz.
  apply Nat.nlt_ge; intros G.
  assert (P : (10 ^ 4300 <= 10 ^ (Z.of_nat (nb_digits (Pos.to_uint p)) - 1))%Z).
  { clear H Sz; apply Z.pow_le_mono_r; lia. }
  exact (Z.lt_irrefl _
           (Z.le_lt_trans _ _ _ (Z.le_trans _ _ _ P Sz) H)).
Qed.

Lemma int_of_digits (c : ascii) (r : string) :
  PyStr.isdigit c = true ->
  digits_only r = true ->
  PyStr.int (String c r)
  = match PyStr.int_unsigned (String c r) with
    | Some v => Ok v
    | None => Raise ValueError
    end.
Proof.
  intros Hc Hr; unfold PyStr.int.
  assert (E : PyStr.rstrip_with PyStr.int_space
                (PyStr.lstrip_int (String c r)) = String c r).
  { cbn [PyStr.lstrip_int]; rewrite (proj1 (digit_char c Hc)).
    apply rstrip_with_none; cbn [PyStr.any].
    now rewrite (proj1 (digit_char c Hc)), digits_only_no_space. }
  rewrite E; clear E.
  destruct c as [b0 b1 b2 b3 b4 b5 b6 b7].
  destruct b0, b1, b2, b3, b4, b5, b6, b7;
    try reflexivity; discriminate Hc.
Qed.

(** [int] reads back what [str] writes. *)
Lemma int_str_of_int (n : Z) :
  (0 <= n < int_limit)%Z -> PyStr.int (PyStr.str_of_int n) = Ok n.
Proof.
  intros [H0 H1]; unfold PyStr.str_of_int.
  destruct n as [|p|p]; [reflexivity | | lia].
  cbn [Z.to_int NilEmpty.string_of_int].
  pose proof (DecimalPos.Unsigned.to_uint_nonnil p) as NN.
  pose proof (string_of_uint_digits (Pos.to_uint p)) as D.
  pose proof (digits_uint_first (Pos.to_uint p) 0 0 NN) as G.
  pose proof (DecimalZ.of_to (Z.pos p)) as V.
  cbn [Z.to_int Z.of_int] in V; rewrite uval_of_uint in V.
  pose proof (to_uint_digits p H1) as L.
  destruct (NilEmpty.string_of_uint (Pos.to_uint p)) as [|c r] eqn:E.
  - destruct (Pos.to_uint p); [contradiction | discriminate ..].
  - unfold digits_only in D; cbn [PyStr.any] in D.
    apply negb_true_iff, orb_false_iff in D as [Dc Dr].
    apply negb_false_iff in Dc.
    rewrite int_of_digits;
      [| exact Dc | unfold digits_only; now rewrite Dr].
    unfold PyStr.int_unsigned; rewrite G, V; cbn [Nat.add].
    apply Nat.leb_le in L; now rewrite L.
Qed.

Lemma str_of_nat_first (k : nat) :
  exists c r, PyStr.str_of_int (Z.of_nat k) = String c r
              /\ PyStr.isdigit c = true.
Proof.
  pose proof (str_of_nat_digits k) as D.
  unfold PyStr.str_of_int in *.
  destruct (Z.of_nat k) as [|p|p] eqn:E; [cbn; eauto | | lia].
  cbn [Z.to_int NilEmpty.string_of_int] in *.
  pose proof (DecimalPos.Unsigned.to_uint_nonnil p) as NN.
  destruct (NilEmpty.string_of_uint (Pos.to_uint p)) as [|c r] eqn:S.
  - destruct (Pos.to_uint p); [contradiction | discriminate ..].
  - exists c, r; split; [reflexivity |].
    unfold digits_only in D; cbn [PyStr.any] in D.
    apply negb_true_iff, orb_false_iff in D as [Dc _].
    now apply negb_false_iff in Dc.
Qed.

(** ** A segment that starts with its number *)

Lemma contains_app (sub a b : string) :
  PyStr.contains sub (a ++ sub ++ b) = true.
Proof. apply contains_spec; eauto. Qed.

Lemma label_numbered (i k : nat) (rest : string) :
  i <> 0%nat -> (Z.of_nat k < int_limit)%Z ->
  label i (numbered (Z.of_nat k) rest) = Ok (Z.of_nat k).
Proof.
  intros Hi Hk; rewrite label_parsed by exact Hi.
  unfold numbered, PyStr.split.
  rewrite (split_from_cut " " "---" None (PyStr.str_of_int (Z.of_nat k))
             (LF ++ rest) eq_refl).
  - cbn [PyStr.first hd]; apply int_str_of_int; lia.
  - apply no_cut_before_absent, digits_only_without;
      [apply str_of_nat_digits | reflexivity].
Qed.

Lemma body_of_numbered (k : nat) (rest : string) :
  body_of (numbered (Z.of_nat k) rest) = rest.
Proof.
  unfold body_of, numbered.
  replace (PyStr.str_of_int (Z.of_nat k) ++ " ---" ++ LF ++ rest)%string
    with ((PyStr.str_of_int (Z.of_nat k) ++ " ")
            ++ ("---" ++ LF) ++ rest)%string
    by (now rewrite !append_assoc).
  rewrite contains_app; unfold PyStr.split_max.
  change ("---" ++ LF)%string with (String "-" ("--" ++ LF)).
  rewrite (split_from_cut "-" ("--" ++ LF) (Some 1%nat) _ rest eq_refl).
  - cbn [PyStr.after_cut Nat.pred].
    now rewrite split_from_no_cut_left.
  - apply no_cut_before_absent; rewrite any_app.
    rewrite digits_only_without;
      [reflexivity | apply str_of_nat_digits | reflexivity].
Qed.

Lemma numbered_starts_clean (k : nat) (rest : string) :
  starts_clean (numbered (Z.of_nat k) rest) = true.
Proof.
  unfold numbered.
  destruct (str_of_nat_first k) as [c [r [-> Hc]]].
  cbn [append starts_clean].
  now rewrite (proj2 (digit_char c Hc)).
Qed.

Lemma segment_numbered (i k : nat) (rest : string) :
  i <> 0%nat -> (Z.of_nat k < int_limit)%Z ->
  segment (i, numbered (Z.of_nat k) rest) = Ok (Some (Z.of_nat k, rest)).
Proof.
  intros Hi Hk; unfold segment; cbn [fst snd].
  rewrite (strip_of_clean _ (numbered_starts_clean k rest)).
  cbn [negb]; rewrite label_numbered by assumption.
  cbn [bind]; now rewrite body_of_numbered.
Qed.

(** ** The text the extractors assemble *)

Lemma pdf_image_appends (w : World) (path : string) (i : nat)
      (a : string) (ims : list Image) (e : nat * option (string * string)) :
  fst (pdf_image w path i (a, ims) e)
  = (a ++ fst (pdf_image w path i ("", []) e))%string.
Proof.
  destruct e as [k [[b ext]|]]; cbn [pdf_image fst].
  - destruct (PyStr.truthy (PyStr.strip (extract_text_from_image w b true)));
      cbn [append]; [reflexivity | now rewrite append_empty_r].
  - now rewrite append_empty_r.
Qed.

Lemma pdf_images_append (w : World) (path : string) (i : nat)
      (l : list (nat * option (string * string))) :
  forall (a : string) (ims : list Image),
    fst (fold_left (pdf_image w path i) l (a, ims))
    = (a ++ fst (fold_left (pdf_image w path i) l ("", [])))%string.
Proof.
  induction l as [|e l IH]; intros a ims; cbn [fold_left].
  - cbn [fst]; now rewrite append_empty_r.
  - pose proof (pdf_image_appends w path i a ims e) as E.
    destruct (pdf_image w path i (a, ims) e) as [a1 ims1].
    destruct (pdf_image w path i ("", []) e) as [a0 ims0].
    cbn [fst] in E; subst a1.
    rewrite (IH (a ++ a0)%string ims1), (IH a0 ims0).
    now rewrite append_assoc.
Qed.

Lemma pdf_page_step_text (w : World) (path : string) (t : string)
      (ims : list Image) (lks : list string) (i : nat) (page : PdfPage) :
  fst (fst (pdf_page_step w path (t, ims, lks) (i, page)))
  = (t ++ LF ++ "--- Page "
       ++ numbered (Z.of_nat (S i)) (pdf_page_text w path (i, page)))%string.
Proof.
  unfold pdf_page_step, pdf_page_text, numbered; cbn [fst snd].
  match goal with
  | |- context [fold_left ?f ?l (?a, ims)] =>
      pose proof (pdf_images_append w path i l a ims) as E;
      destruct (fold_left f l (a, ims)) as [t1 ims1]
  end.
  cbn [fst] in *; rewrite E.
  rewrite (pdf_images_append w path i _ (get_text page) []).
  replace (Z.of_nat i + 1)%Z with (Z.of_nat (S i)) by lia.
  now rewrite !append_assoc.
Qed.

Lemma pdf_pages_text (w : World) (path : string) (pages : list PdfPage) :
  forall (a : nat) (t : string) (ims : list Image) (lks : list string),
    fst (fst (fold_left (pdf_page_step w path)
                (combine (seq a (List.length pages)) pages) (t, ims, lks)))
    = (t ++ marked "--- Page "
              (blocks_from (S a)
                 (map (pdf_page_text w path)
                    (combine (seq a (List.length pages)) pages))))%string.
Proof.
  induction pages as [|page pages IH]; intros a t ims lks;
    cbn [List.length seq combine fold_left map blocks_from marked].
  - cbn [fst]; now rewrite append_empty_r.
  - pose proof (pdf_page_step_text w path t ims lks a page) as E.
    destruct (pdf_page_step w path (t, ims, lks) (a, page))
      as [[t1 ims1] lks1].
    cbn [fst] in E; subst t1.
    rewrite IH; now rewrite !append_assoc.
Qed.

Lemma pptx_shape_appends (w : World) (path : string) (i : nat)
      (a : string) (ims : list Image) (lks : list string) (sh : Shape) :
  fst (fst (pptx_shape w path i (a, ims, lks) sh))
  = (a ++ fst (fst (pptx_shape w path i ("", [], []) sh)))%string.
Proof.
  unfold pptx_shape.
  destruct (shape_text sh) as [t|];
    [destruct (PyStr.truthy (PyStr.strip t)) |];
    (destruct (shape_image sh) as [[b|]|];
     [destruct (PyStr.truthy
                  (PyStr.strip (extract_text_from_image w b true))) | |]);
    cbn [fst append]; rewrite ?append_assoc, ?append_empty_r; reflexivity.
Qed.

Lemma pptx_shapes_append (w : World) (path : string) (i : nat)
      (l : list Shape) :
  forall (a : string) (ims : list Image) (lks : list string),
    fst (fst (fold_left (pptx_shape w path i) l (a, ims, lks)))
    = (a ++ fst (fst (fold_left (pptx_shape w path i) l ("", [], []))))%string.
Proof.
  induction l as [|sh l IH]; intros a ims lks; cbn [fold_left].
  - cbn [fst]; now rewrite append_empty_r.
  - pose proof (pptx_shape_appends w path i a ims lks sh) as E.
    destruct (pptx_shape w path i (a, ims, lks) sh) as [[a1 ims1] lks1].
    destruct (pptx_shape w path i ("", [], []) sh) as [[a0 ims0] lks0].
    cbn [fst] in E; subst a1.
    rewrite (IH (a ++ a0)%string ims1 lks1), (IH a0 ims0 lks0).
    now rewrite append_assoc.
Qed.

Lemma pptx_slide_step_text (w : World) (path : string) (t : string)
      (ims : list Image) (lks : list string) (i : nat) (shapes : list Shape) :
  fst (fst (pptx_slide_step w path (t, ims, lks) (i, shapes)))
  = (t ++ LF ++ "--- Slide "
       ++ numbered (Z.of_nat (S i))
            (pptx_slide_text w path (i, shapes)))%string.
Proof.
  unfold pptx_slide_step, pptx_slide_text, numbered; cbn [fst snd].
  match goal with
  | |- context [fold_left ?f ?l (?a, ims, lks)] =>
      pose proof (pptx_shapes_append w path i l a ims lks) as E;
      destruct (fold_left f l (a, ims, lks)) as [[t1 ims1] lks1]
  end.
  cbn [fst] in *; rewrite E.
  replace (Z.of_nat i + 1)%Z with (Z.of_nat (S i)) by lia.
  now rewrite !append_assoc.
Qed.

Lemma pptx_slides_text (w : World) (path : string)
      (slides : list (list Shape)) :
  forall (a : nat) (t : string) (ims : list Image) (lks : list string),
    fst (fst (fold_left (pptx_slide_step w path)
                (combine (seq a (List.length slides)) slides) (t, ims, lks)))
    = (t ++ marked "--- Slide "
              (blocks_from (S a)
                 (map (pptx_slide_text w path)
                    (combine (seq a (List.length slides)) slides))))%string.
Proof.
  induction slides as [|shapes slides IH]; intros a t ims lks;
    cbn [List.length seq combine fold_left map blocks_from marked].
  - cbn [fst]; now rewrite append_empty_r.
  - pose proof (pptx_slide_step_text w path t ims lks a shapes) as E.
    destruct (pptx_slide_step w path (t, ims, lks) (a, shapes))
      as [[t1 ims1] lks1].
    cbn [fst] in E; subst t1.
    rewrite IH; now rewrite !append_assoc.
Qed.

(** ** Reading the markers back *)

Lemma contains_app_blocked (c : ascii) (sep a b : string) :
  PyStr.any (Ascii.eqb c) sep = false ->
  PyStr.contains sep (a ++ String c b)
  = PyStr.contains sep a || PyStr.contains sep b.
Proof.
  intros H; induction a as [|e a IH].
  - pose proof (prefix_blocked c sep "" b H) as P.
    cbn [append PyStr.contains] in *.
    now rewrite P, orb_false_r.
  - pose proof (prefix_blocked c sep (String e a) b H) as P.
    cbn [append PyStr.contains] in *.
    now rewrite IH, P, orb_assoc.
Qed.

Lemma contains_absent_char (c : ascii) (sep a : string) :
  PyStr.any (Ascii.eqb c) sep = true ->
  PyStr.any (Ascii.eqb c) a = false ->
  PyStr.contains sep a = false.
Proof.
  intros Hs Ha; destruct (PyStr.contains sep a) eqn:E; [| reflexivity].
  apply contains_spec in E as [u [v ->]].
  rewrite !any_app, Hs, orb_true_r in Ha; discriminate.
Qed.

Lemma numbered_clear (c : ascii) (sep : string) (k : nat) (payload : string) :
  PyStr.any (Ascii.eqb (ascii_of_nat 10)) sep = false ->
  PyStr.any (Ascii.eqb c) sep = true ->
  PyStr.isdigit c = false ->
  PyStr.any (Ascii.eqb c) " ---" = false ->
  PyStr.contains sep payload = false ->
  PyStr.contains sep (numbered (Z.of_nat k) payload) = false.
Proof.
  intros HLF Hc Hd Hm Hp; unfold numbered.
  replace (PyStr.str_of_int (Z.of_nat k) ++ " ---" ++ LF ++ payload)%string
    with ((PyStr.str_of_int (Z.of_nat k) ++ " ---")
            ++ String (ascii_of_nat 10) payload)%string
    by (now rewrite !append_assoc).
  rewrite contains_app_blocked by exact HLF.
  rewrite Hp, orb_false_r.
  apply (contains_absent_char c); [exact Hc |].
  rewrite any_app, Hm, orb_false_r.
  apply digits_only_without; [apply str_of_nat_digits | exact Hd].
Qed.

Lemma split_marked (d : ascii) (sep' : string) (blocks : list string) :
  PyStr.any (Ascii.eqb (ascii_of_nat 10)) (String d sep') = false ->
  Forall (fun b => PyStr.contains (String d sep') b = false) blocks ->
  forall x : string,
    PyStr.contains (String d sep') x = false ->
    PyStr.split (x ++ marked (String d sep') blocks) (String d sep')
    = fields x blocks.
Proof.
  intros HLF HF; unfold PyStr.split.
  induction HF as [|b bs Hb HF IH]; intros x Hx; cbn [marked fields].
  - rewrite append_empty_r; now apply split_from_absent.
  - replace (x ++ LF ++ String d sep' ++ b ++ marked (String d sep') bs)%string
      with ((x ++ LF) ++ String d sep'
              ++ (b ++ marked (String d sep') bs))%string
      by (now rewrite !append_assoc).
    rewrite split_from_cut; [| reflexivity |].
    + cbn [PyStr.after_cut]; now rewrite (IH b Hb).
    + rewrite no_cut_before_app; apply andb_true_intro; split.
      * change (LF ++ String d sep' ++ b ++ marked (String d sep') bs)%string
          with (String (ascii_of_nat 10)
                  (String d sep' ++ b ++ marked (String d sep') bs)).
        rewrite no_cut_before_blocked by exact HLF.
        now rewrite Hx.
      * cbn [PyStr.any] in HLF; apply orb_false_iff in HLF as [Hd _].
        unfold LF; cbn [no_cut_before append].
        rewrite prefix_cons, Ascii.eqb_sym, Hd; reflexivity.
Qed.

Lemma length_blocks_from (k : nat) (payloads : list string) :
  List.length (blocks_from k payloads) = List.length payloads.
Proof.
  revert k; induction payloads as [|p ps IH]; intros k; cbn;
    [reflexivity | now rewrite IH].
Qed.

Lemma length_fields (x : string) (blocks : list string) :
  List.length (fields x blocks) = S (List.length blocks).
Proof.
  revert x; induction blocks as [|b bs IH]; intros x; cbn;
    [reflexivity | now rewrite IH].
Qed.

Lemma Forall_blocks_from (P : string -> Prop) (payloads : list string) :
  forall k : nat,
    (forall j p, In p payloads -> P (numbered (Z.of_nat j) p)) ->
    Forall P (blocks_from k payloads).
Proof.
  induction payloads as [|p ps IH]; intros k H; cbn [blocks_from];
    constructor.
  - apply H; now left.
  - apply IH; intros j q Hq; apply H; now right.
Qed.

Lemma segments_fields (ps : list string) :
  forall (p : string) (i k : nat),
    i <> 0%nat ->
    (Z.of_nat (k + List.length ps) < int_limit)%Z ->
    segments
      (combine
         (seq i (List.length (fields (numbered (Z.of_nat k) p)
                                (blocks_from (S k) ps))))
         (fields (numbered (Z.of_nat k) p) (blocks_from (S k) ps)))
    = Ok (bodies_from k p ps).
Proof.
  induction ps as [|q qs IH]; intros p i k Hi Hk;
    cbn [blocks_from fields List.length seq combine segments bodies_from].
  - rewrite segment_numbered by (exact Hi || lia); reflexivity.
  - replace (numbered (Z.of_nat k) p ++ LF)%string
      with (numbered (Z.of_nat k) (p ++ LF))
      by (unfold numbered; now rewrite !append_assoc).
    rewrite segment_numbered by (exact Hi || lia).
    cbn [List.length] in Hk.
    specialize (IH q (S i) (S k) ltac:(discriminate) ltac:(lia)).
    cbn [bind]; rewrite IH; reflexivity.
Qed.

(** The segments of a text made of numbered blocks. *)
Lemma segments_of_marked (d : ascii) (sep' : string) (payloads : list string) :
  PyStr.any (Ascii.eqb (ascii_of_nat 10)) (String d sep') = false ->
  Forall (fun b => PyStr.contains (String d sep') b = false)
    (blocks_from 1 payloads) ->
  (Z.of_nat (List.length payloads) < int_limit)%Z ->
  let text := marked (String d sep') (blocks_from 1 payloads) in
  segments (enumerate (PyStr.split text (String d sep')))
  = Ok (numbered_bodies payloads)
  /\ List.length (PyStr.split text (String d sep'))
     = S (List.length payloads).
Proof.
  intros HLF HF Hlim text.
  assert (E : PyStr.split text (String d sep')
              = fields "" (blocks_from 1 payloads)).
  { apply (split_marked d sep' _ HLF HF ""); reflexivity. }
  rewrite E, length_fields, length_blocks_from; split; [| reflexivity].
  unfold enumerate; destruct payloads as [|p ps].
  - reflexivity.
  - cbn [blocks_from fields List.length seq combine segments numbered_bodies].
    assert (B : segment (0%nat, ("" ++ LF)%string) = Ok None) by reflexivity.
    rewrite B; cbn [bind].
    cbn [List.length] in Hlim.
    rewrite (segments_fields ps p 1 1 ltac:(discriminate) ltac:(lia)).
    reflexivity.
Qed.

Lemma page_blocks_clear (payloads : list string) :
  Forall (fun p => PyStr.contains "--- Page " p = false) payloads ->
  Forall (fun b => PyStr.contains "--- Page " b = false)
    (blocks_from 1 payloads).
Proof.
  intros H; apply Forall_blocks_from; intros j p Hp.
  rewrite Forall_forall in H.
  apply (numbered_clear "P"); try reflexivity; auto.
Qed.

Lemma slide_blocks_clear (payloads : list string) :
  Forall (fun p => PyStr.contains "--- Slide " p = false) payloads ->
  Forall (fun b => PyStr.contains "--- Slide " b = false)
    (blocks_from 1 payloads).
Proof.
  intros H; apply Forall_blocks_from; intros j p Hp.
  rewrite Forall_forall in H.
  apply (numbered_clear "S"); try reflexivity; auto.
Qed.

Lemma extracted_pdf_chunks
        (w : World) (self : SmartDocumentChunker)
        (pdf_path file_path text : string)
        (imgs : list Image) (lks : list string) :
  extract_from_pdf w pdf_path = Ok (text, imgs, lks) ->
  (Z.of_nat (List.length (fitz_open w pdf_path)) < int_limit)%Z ->
  Forall (fun t => PyStr.contains "--- Page " t = false)
    (pdf_page_texts w pdf_path) ->
  _chunk_pdf self text file_path (Some imgs) (Some lks)
  = Ok (flat_map
          (emit_pdf self file_path (Some imgs) (Some lks)
             (Z.of_nat (List.length (fitz_open w pdf_path))))
          (numbered_bodies (pdf_page_texts w pdf_path))).
Proof.
  intros Hex Hlim Hclear; unfold extract_from_pdf in Hex.
  destruct (validate_file w pdf_path 50); [discriminate |].
  injection Hex as Hex.
  pose proof (pdf_pages_text w pdf_path (fitz_open w pdf_path) 0 "" [] [])
    as T.
  fold (enumerate (fitz_open w pdf_path)) in T.
  rewrite Hex in T; cbn [fst append] in T.
  fold (pdf_page_texts w pdf_path) in T.
  assert (L : List.length (pdf_page_texts w pdf_path)
              = List.length (fitz_open w pdf_path))
    by (unfold pdf_page_texts; now rewrite length_map, length_enumerate).
  rewrite <- L in Hlim.
  destruct (segments_of_marked "-" "-- Page " (pdf_page_texts w pdf_path)
              eq_refl (page_blocks_clear _ Hclear) Hlim) as [Sg N].
  rewrite chunk_pdf_by_segments; unfold pdf_segments.
  rewrite T, Sg, N, <- L; cbn [bind].
  rewrite Nat2Z.inj_succ, <- Z.add_1_r, Z.add_simpl_r; reflexivity.
Qed.

(** X9: the chunks of a text [extract_from_pdf] has written: when no page
    text holds the page marker, [_chunk_pdf] reads every page back under
    its own number, the text of each page but the last followed by the
    line feed of the next marker, and counts the pages of the pdf. *)
Theorem pdf_pages_are_read_back
        (w : World) (self : SmartDocumentChunker)
        (pdf_path file_path text : string)
        (imgs : list Image) (lks : list string) :
  extract_from_pdf w pdf_path = Ok (text, imgs, lks) ->
  (Z.of_nat (List.length (fitz_open w pdf_path)) < int_limit)%Z ->
  Forall (fun t => PyStr.contains "--- Page " t = false)
    (pdf_page_texts w pdf_path) ->
  _chunk_pdf self text file_path (Some imgs) (Some lks)
  = Ok (flat_map
          (emit_pdf self file_path (Some imgs) (Some lks)
             (Z.of_nat (List.length (fitz_open w pdf_path))))
          (numbered_bodies (pdf_page_texts w pdf_path))).
Proof.
  exact (extracted_pdf_chunks w self pdf_path file_path text imgs lks).
Qed.

Lemma pdf_pages_are_read_back_witness :
  extract_from_pdf sample_world "doc.pdf"
  = Ok ((LF ++ "--- Page 1 ---" ++ LF ++ "First page"
            ++ LF ++ "--- Page 2 ---" ++ LF ++ "Second page" ++ LF
            ++ "[Image OCR - doc_page2_img1.png]: "
            ++ "[OCR not available - no text extracted from image]")%string,
        [("doc_page2_img1.png",
          "[OCR not available - no text extracted from image]")],
        ["https://example.org"])
  /\ (Z.of_nat (List.length (fitz_open sample_world "doc.pdf")) < int_limit)%Z
  /\ Forall (fun t => PyStr.contains "--- Page " t = false)
       (pdf_page_texts sample_world "doc.pdf")
  /\ contents_of_result
       (_chunk_pdf chunker_1000
          (LF ++ "--- Page 1 ---" ++ LF ++ "First page"
              ++ LF ++ "--- Page 2 ---" ++ LF ++ "Second page" ++ LF
              ++ "[Image OCR - doc_page2_img1.png]: "
              ++ "[OCR not available - no text extracted from image]")
          "doc.pdf"
          (Some [("doc_page2_img1.png",
                  "[OCR not available - no text extracted from image]")])
          (Some ["https://example.org"]))
     = Ok [("First page" ++ LF)%string;
           ("Second page" ++ LF
              ++ "[Image OCR - doc_page2_img1.png]: "
              ++ "[OCR not available - no text extracted from image]")%string].
Proof.
  assert (H1 : extract_from_pdf sample_world "doc.pdf"
               = Ok ((LF ++ "--- Page 1 ---" ++ LF ++ "First page"
                         ++ LF ++ "--- Page 2 ---" ++ LF ++ "Second page" ++ LF
                         ++ "[Image OCR - doc_page2_img1.png]: "
                         ++ "[OCR not available - no text extracted from image]")%string,
                     [("doc_page2_img1.png",
                       "[OCR not available - no text extracted from image]")],
                     ["https://example.org"]))
    by reflexivity.
  assert (H2 : (Z.of_nat (List.length (fitz_open sample_world "doc.pdf"))
                < int_limit)%Z) by reflexivity.
  assert (H3 : Forall (fun t => PyStr.contains "--- Page " t = false)
                 (pdf_page_texts sample_world "doc.pdf"))
    by (repeat constructor).
  split; [exact H1 | split; [exact H2 | split; [exact H3 |]]].
  refine (eq_trans
            (f_equal contents_of_result
               (pdf_pages_are_read_back sample_world chunker_1000 "doc.pdf"
                  "doc.pdf" _ _ _ H1 H2 H3)) _).
  reflexivity.
Defined.

Lemma lstrip_app_LF (p : string) :
  PyStr.lstrip (p ++ LF)
  = if PyStr.truthy (PyStr.lstrip p) then (PyStr.lstrip p ++ LF)%string
    else "".
Proof.
  induction p as [|c p IH]; [reflexivity |].
  cbn [append PyStr.lstrip].
  destruct (PyStr.isspace c); [exact IH | reflexivity].
Qed.

Lemma strip_LF_end (p : string) : PyStr.strip (p ++ LF) = PyStr.strip p.
Proof.
  unfold PyStr.strip; rewrite lstrip_app_LF.
  destruct (PyStr.lstrip p) as [|c r]; [reflexivity |].
  cbn [PyStr.truthy]; apply rstrip_LF.
Qed.

Lemma emit_pptx_LF fp imgs lks total (n : Z) (p : string) :
  emit_pptx fp imgs lks total (n, (p ++ LF)%string)
  = emit_pptx fp imgs lks total (n, p).
Proof. unfold emit_pptx; now rewrite strip_LF_end. Qed.

Lemma emit_pptx_bodies fp imgs lks total (ps : list string) :
  forall (p : string) (k : nat),
    flat_map (emit_pptx fp imgs lks total) (bodies_from k p ps)
    = flat_map (emit_pptx fp imgs lks total)
        (map (fun e : nat * string => (Z.of_nat (fst e), snd e))
           (combine (seq k (List.length (p :: ps))) (p :: ps))).
Proof.
  induction ps as [|q qs IH]; intros p k.
  - reflexivity.
  - cbn [bodies_from flat_map]; rewrite emit_pptx_LF, (IH q (S k)).
    reflexivity.
Qed.

Lemma extracted_pptx_chunks
        (w : World) (pptx_path file_path text : string)
        (imgs : list Image) (lks : list string) :
  extract_from_pptx w pptx_path = Ok (text, imgs, lks) ->
  (Z.of_nat (List.length (Presentation w pptx_path)) < int_limit)%Z ->
  Forall (fun t => PyStr.contains "--- Slide " t = false)
    (pptx_slide_texts w pptx_path) ->
  _chunk_pptx text file_path (Some imgs) (Some lks)
  = Ok (flat_map
          (emit_pptx file_path (Some imgs) (Some lks)
             (Z.of_nat (List.length (Presentation w pptx_path))))
          (numbered_texts (pptx_slide_texts w pptx_path))).
Proof.
  intros Hex Hlim Hclear; unfold extract_from_pptx in Hex.
  destruct (validate_file w pptx_path 50); [discriminate |].
  injection Hex as Hex.
  pose proof (pptx_slides_text w pptx_path (Presentation w pptx_path)
                0 "" [] []) as T.
  fold (enumerate (Presentation w pptx_path)) in T.
  rewrite Hex in T; cbn [fst append] in T.
  fold (pptx_slide_texts w pptx_path) in T.
  assert (L : List.length (pptx_slide_texts w pptx_path)
              = List.length (Presentation w pptx_path))
    by (unfold pptx_slide_texts; now rewrite length_map, length_enumerate).
  rewrite <- L in Hlim.
  destruct (segments_of_marked "-" "-- Slide " (pptx_slide_texts w pptx_path)
              eq_refl (slide_blocks_clear _ Hclear) Hlim) as [Sg N].
  rewrite chunk_pptx_by_segments; unfold pptx_segments.
  rewrite T, Sg, N, <- L; cbn [bind].
  rewrite Nat2Z.inj_succ, <- Z.add_1_r, Z.add_simpl_r.
  unfold numbered_bodies, numbered_texts.
  destruct (pptx_slide_texts w pptx_path) as [|p ps]; [reflexivity |].
  now rewrite emit_pptx_bodies.
Qed.

(** X10: the chunks of a text [extract_from_pptx] has written: when no slide
    text holds the slide marker, [_chunk_pptx] gives one chunk for every
    slide whose text is not blank, with the number of the slide and its
    text stripped, and counts the slides of the deck. *)
Theorem pptx_slides_are_read_back
        (w : World) (pptx_path file_path text : string)
        (imgs : list Image) (lks : list string) :
  extract_from_pptx w pptx_path = Ok (text, imgs, lks) ->
  (Z.of_nat (List.length (Presentation w pptx_path)) < int_limit)%Z ->
  Forall (fun t => PyStr.contains "--- Slide " t = false)
    (pptx_slide_texts w pptx_path) ->
  _chunk_pptx text file_path (Some imgs) (Some lks)
  = Ok (flat_map
          (emit_pptx file_path (Some imgs) (Some lks)
             (Z.of_nat (List.length (Presentation w pptx_path))))
          (numbered_texts (pptx_slide_texts w pptx_path))).
Proof.
  exact (extracted_pptx_chunks w pptx_path file_path text imgs lks).
Qed.

Lemma pptx_slides_are_read_back_witness :
  extract_from_pptx sample_world "deck.pptx"
  = Ok ((LF ++ "--- Slide 1 ---" ++ LF ++ "Welcome" ++ LF
            ++ LF ++ "--- Slide 2 ---" ++ LF ++ "Agenda" ++ LF)%string,
        [], ["https://example.org"])
  /\ (Z.of_nat (List.length (Presentation sample_world "deck.pptx"))
      < int_limit)%Z
  /\ Forall (fun t => PyStr.contains "--- Slide " t = false)
       (pptx_slide_texts sample_world "deck.pptx")
  /\ _chunk_pptx
       (LF ++ "--- Slide 1 ---" ++ LF ++ "Welcome" ++ LF
           ++ LF ++ "--- Slide 2 ---" ++ LF ++ "Agenda" ++ LF)
       "deck.pptx" (Some []) (Some ["https://example.org"])
     = Ok [pptx_document "deck.pptx" (Some [])
             (Some ["https://example.org"]) 2 1 "Welcome";
           pptx_document "deck.pptx" (Some [])
             (Some ["https://example.org"]) 2 2 "Agenda"].
Proof.
  assert (H1 : extract_from_pptx sample_world "deck.pptx"
               = Ok ((LF ++ "--- Slide 1 ---" ++ LF ++ "Welcome" ++ LF
                         ++ LF ++ "--- Slide 2 ---" ++ LF ++ "Agenda"
                         ++ LF)%string,
                     [], ["https://example.org"]))
    by reflexivity.
  assert (H2 : (Z.of_nat (List.length (Presentation sample_world "deck.pptx"))
                < int_limit)%Z) by reflexivity.
  assert (H3 : Forall (fun t => PyStr.contains "--- Slide " t = false)
                 (pptx_slide_texts sample_world "deck.pptx"))
    by (repeat constructor).
  split; [exact H1 | split; [exact H2 | split; [exact H3 |]]].
  refine (eq_trans
            (pptx_slides_are_read_back sample_world "deck.pptx" "deck.pptx"
               _ _ _ H1 H2 H3) _).
  reflexivity.
Defined.

(** ** The images of a page *)

Lemma tagged_name (pre tag n m rest : string) :
  String.prefix n m = true ->
  PyStr.contains (tag ++ n) (pre ++ "_" ++ tag ++ m ++ rest) = true.
Proof.
  intros H; apply prefix_app in H as [r ->].
  apply contains_spec; exists (pre ++ "_")%string, (r ++ rest)%string.
  now rewrite !append_assoc.
Qed.

(** X11: an image that [extract_from_pdf] names after page [i + 1] is attached
    to every chunk of a page whose number, written in decimal, is
    [i + 1] or a prefix of it: to the chunks of its own page, and also,
    for an image of page 10, to those of page 1.  The same holds for
    slides. *)
Theorem page_images_reach_the_page_chunks :
  (forall (self : SmartDocumentChunker) (fp : string) (imgs : list Image)
          (lks : option (list string)) (total n : Z) (body : string)
          (pdf_path : string) (i k : nat) (ext ocr : string) (d : Document),
      In d (emit_pdf self fp (Some imgs) lks total (n, body)) ->
      In (pdf_image_name pdf_path i k ext, ocr) imgs ->
      String.prefix (PyStr.str_of_int n) (PyStr.str_of_int (Z.of_nat i + 1))
      = true ->
      exists l, images (metadata d) = Some l
                /\ In (pdf_image_name pdf_path i k ext, ocr) l)
  /\ (forall (fp : string) (imgs : list Image)
             (lks : option (list string)) (total n : Z) (body : string)
             (pptx_path : string) (i : nat) (ocr : string) (d : Document),
         In d (emit_pptx fp (Some imgs) lks total (n, body)) ->
         In (pptx_image_name pptx_path i, ocr) imgs ->
         String.prefix (PyStr.str_of_int n) (PyStr.str_of_int (Z.of_nat i + 1))
         = true ->
         exists l, images (metadata d) = Some l
                   /\ In (pptx_image_name pptx_path i, ocr) l).
Proof.
  split.
  - intros self fp imgs lks total n body pdf_path i k ext ocr d Hd Hin Hp.
    assert (C : PyStr.contains ("page" ++ PyStr.str_of_int n)
                  (pdf_image_name pdf_path i k ext) = true)
      by (unfold pdf_image_name; now apply (tagged_name _ "page")).
    unfold emit_pdf in Hd.
    destruct (PyStr.len body >? chunk_size self)%Z.
    + apply in_map_iff in Hd as [jc [<- _]].
      eexists; split; [reflexivity |].
      apply filter_In; split; [exact Hin | exact C].
    + destruct Hd as [<- | []].
      eexists; split; [reflexivity |].
      apply filter_In; split; [exact Hin | exact C].
  - intros fp imgs lks total n body pptx_path i ocr d Hd Hin Hp.
    assert (C : PyStr.contains ("slide" ++ PyStr.str_of_int n)
                  (pptx_image_name pptx_path i) = true)
      by (unfold pptx_image_name; now apply (tagged_name _ "slide")).
    unfold emit_pptx in Hd.
    destruct (PyStr.truthy (PyStr.strip body)); [| contradiction].
    destruct Hd as [<- | []].
    eexists; split; [reflexivity |].
    apply filter_In; split; [exact Hin | exact C].
Qed.

Lemma page_images_reach_the_page_chunks_witness :
  let img := (pdf_image_name "doc.pdf" 9 0 "png", "chart") in
  let d := pdf_document "doc.pdf" (Some [img]) None 12 1 "page_1" "Intro" in
  fst img = "doc_page10_img1.png"
  /\ In d (emit_pdf chunker_1000 "doc.pdf" (Some [img]) None 12
             (1%Z, "Intro"))
  /\ In img [img]
  /\ String.prefix (PyStr.str_of_int 1) (PyStr.str_of_int (Z.of_nat 9 + 1))
     = true
  /\ exists l, images (metadata d) = Some l /\ In img l.
Proof.
  intros img d.
  assert (H1 : In d (emit_pdf chunker_1000 "doc.pdf" (Some [img]) None 12
                       (1%Z, "Intro"))) by (left; reflexivity).
  assert (H2 : In img [img]) by (left; reflexivity).
  assert (H3 : String.prefix (PyStr.str_of_int 1)
                 (PyStr.str_of_int (Z.of_nat 9 + 1)) = true) by reflexivity.
  split; [reflexivity | split; [exact H1 | split; [exact H2 |
    split; [exact H3 |]]]].
  exact (proj1 page_images_reach_the_page_chunks chunker_1000 "doc.pdf"
           [img] None 12%Z 1%Z "Intro" "doc.pdf" 9%nat 0%nat "png" "chart" d
           H1 H2 H3).
Defined.

(** ** The type of a validated file *)

Lemma rfind_found (c : ascii) (s : string) :
  (0 <= rfind c s)%Z <-> PyStr.any (Ascii.eqb c) s = true.
Proof.
  induction s as [|d s IH]; cbn [rfind PyStr.any].
  - split; [lia | discriminate].
  - destruct (0 <=? rfind c s)%Z eqn:E.
    + apply Z.leb_le in E; rewrite (proj1 IH E), orb_true_r.
      split; [reflexivity | lia].
    + apply Z.leb_gt in E.
      destruct (PyStr.any (Ascii.eqb c) s);
        [pose proof (proj2 IH eq_refl); lia |].
      rewrite orb_false_r.
      destruct (Ascii.eqb c d); split; (reflexivity || lia || discriminate).
Qed.

Lemma rfind_lower_bound (c : ascii) (s : string) : (-1 <= rfind c s)%Z.
Proof.
  induction s as [|d s IH]; cbn [rfind]; [lia |].
  destruct (0 <=? rfind c s)%Z eqn:E; [apply Z.leb_le in E; lia |].
  destruct (Ascii.eqb c d); lia.
Qed.

Lemma substring_all (s : string) :
  String.substring 0 (String.length s) s = s.
Proof.
  induction s as [|c s IH]; cbn [String.length String.substring];
    [reflexivity | now rewrite IH].
Qed.

Lemma slice_from_rfind (c : ascii) (s : string) :
  (0 <= rfind c s)%Z ->
  slice_from (rfind c s) s = String c (after_last c s).
Proof.
  unfold slice_from; induction s as [|d s IH]; cbn [rfind after_last];
    [lia |].
  destruct (0 <=? rfind c s)%Z eqn:E.
  - apply Z.leb_le in E; intros _.
    rewrite (proj1 (rfind_found c s) E).
    replace (Z.to_nat (rfind c s + 1)) with (S (Z.to_nat (rfind c s)))
      by lia.
    cbn [String.length String.substring Nat.sub]; exact (IH E).
  - apply Z.leb_gt in E.
    assert (A : PyStr.any (Ascii.eqb c) s = false).
    { destruct (PyStr.any (Ascii.eqb c) s) eqn:A; [| reflexivity].
      apply rfind_found in A; lia. }
    rewrite A.
    destruct (Ascii.eqb_spec c d) as [<-|]; [intros _ | lia].
    cbn [Z.to_nat String.length Nat.sub String.substring].
    now rewrite substring_all.
Qed.

Lemma splitext_ext (p : string) :
  snd (splitext p) <> "" ->
  snd (splitext p) = String "." (after_last "." p).
Proof.
  unfold splitext.
  destruct ((rfind "." p >? rfind "/" p)%Z
            && name_before_dot p (Z.to_nat (rfind "/" p + 1))
                 (Z.to_nat (rfind "." p - (rfind "/" p + 1)))) eqn:E;
    cbn [snd]; [intros _ | contradiction].
  apply andb_prop in E as [E _].
  rewrite Z.gtb_ltb in E; apply Z.ltb_lt in E.
  pose proof (rfind_lower_bound "/" p).
  apply slice_from_rfind; lia.
Qed.

Lemma after_last_lower (s : string) :
  after_last "." (PyStr.lower s) = PyStr.lower (after_last "." s).
Proof.
  induction s as [|c s IH]; [reflexivity |].
  cbn [PyStr.lower after_last].
  fold (has_dot (PyStr.lower s)); fold (has_dot s).
  rewrite has_dot_lower, lower1_dot, IH.
  destruct (has_dot s); [reflexivity |].
  destruct (Ascii.eqb "." c); reflexivity.
Qed.

(** The chunker's extension of a path whose validated type is [type]. *)
Lemma validated_extension (w : World) (file_path : string) (max_size_mb : Z)
      (size : Z) (type : string) :
  validate_file w file_path max_size_mb = Valid size type ->
  In type supported_exts
  /\ type = String "." (PyStr.final (PyStr.split (PyStr.lower file_path) ".")).
Proof.
  unfold validate_file.
  destruct (negb (path_exists w file_path)); [discriminate |].
  destruct (getsize w file_path >? max_size_mb * (1024 * 1024))%Z;
    [discriminate |].
  destruct (existsb (String.eqb (PyStr.lower (snd (splitext file_path))))
              supported_exts) eqn:E; cbn [negb]; [| discriminate].
  intros H; injection H as _ <-.
  apply existsb_exists in E as [x [Hx E]].
  apply String.eqb_eq in E; subst x.
  split; [exact Hx |].
  rewrite final_split_dot, after_last_lower.
  destruct (snd (splitext file_path)) as [|c r] eqn:S0.
  - exfalso; cbn in Hx; intuition discriminate.
  - rewrite <- S0 in *.
    rewrite splitext_ext by (rewrite S0; discriminate).
    reflexivity.
Qed.

(** X12: a file that [validate_file] accepts is handled according to its type
    on both sides: [extract_content] calls the extractor of the type (its
    last branch, "unsupported", is never taken) and [chunk_document]
    applies the policy of the type; an image goes to [extract_from_image]
    and to the default policy. *)
Theorem validated_type_selects_extractor_and_policy
        (w : World) (self : SmartDocumentChunker)
        (file_path text : string) (imgs : option (list Image))
        (lks : option (list string)) (size : Z) (type : string) :
  validate_file w file_path 50 = Valid size type ->
  (type = ".pdf"
   /\ extract_content w file_path = extract_from_pdf w file_path
   /\ chunk_document self text file_path imgs lks
      = _chunk_pdf self text file_path imgs lks)
  \/ (type = ".docx"
      /\ extract_content w file_path = extract_from_docx w file_path
      /\ chunk_document self text file_path imgs lks
         = Ok (_chunk_docx self text file_path imgs lks))
  \/ (type = ".pptx"
      /\ extract_content w file_path = extract_from_pptx w file_path
      /\ chunk_document self text file_path imgs lks
         = _chunk_pptx text file_path imgs lks)
  \/ (type = ".txt"
      /\ extract_content w file_path = extract_from_txt w file_path
      /\ chunk_document self text file_path imgs lks
         = Ok (_chunk_txt self text file_path))
  \/ (In type image_exts
      /\ extract_content w file_path = extract_from_image w file_path
      /\ chunk_document self text file_path imgs lks
         = Ok (_chunk_default self text file_path imgs lks)).
Proof.
  intros H; destruct (validated_extension _ _ _ _ _ H) as [Hin Hext].
  unfold extract_content, chunk_document; rewrite H.
  cbn [supported_exts In] in Hin.
  destruct Hin as [E | [E | [E | [E | [E | [E | [E | [E | [E | []]]]]]]]]];
    subst type; injection Hext as Hext; rewrite <- Hext.
  - left; auto.
  - right; left; auto.
  - right; right; left; auto.
  - right; right; right; left; auto.
  - right; right; right; right; split; [cbn; auto | split; reflexivity].
  - right; right; right; right; split; [cbn; auto | split; reflexivity].
  - right; right; right; right; split; [cbn; auto | split; reflexivity].
  - right; right; right; right; split; [cbn; auto | split; reflexivity].
  - right; right; right; right; split; [cbn; auto 6 | split; reflexivity].
Qed.

Lemma validated_type_selects_extractor_and_policy_witness :
  validate_file sample_world "scans/Photo.JPG" 50 = Valid 2048 ".jpg"
  /\ extract_content sample_world "scans/Photo.JPG"
     = extract_from_image sample_world "scans/Photo.JPG"
  /\ types_of_result
       (chunk_document chunker_1000 "Hello" "scans/Photo.JPG" None None)
     = Ok ["unknown"].
Proof.
  assert (H : validate_file sample_world "scans/Photo.JPG" 50
              = Valid 2048 ".jpg") by reflexivity.
  split; [exact H |].
  destruct (validated_type_selects_extractor_and_policy sample_world
              chunker_1000 "scans/Photo.JPG" "Hello" None None _ _ H)
    as [[E _] | [[E _] | [[E _] | [[E _] | [_ [E1 E2]]]]]];
    try discriminate E.
  split; [exact E1 | rewrite E2; reflexivity].
Defined.

(** ** The paragraphs of a docx text *)

Lemma split_from_not_nil (sep : string) (s : string) :
  forall (limit : option nat) (skip : nat),
    PyStr.split_from sep limit skip s <> [].
Proof.
  induction s as [|c s IH]; intros limit skip; cbn [PyStr.split_from];
    [discriminate |].
  destruct skip; [| apply IH].
  destruct (PyStr.may_cut limit && String.prefix sep (String c s));
    [discriminate |].
  unfold PyStr.push; destruct (PyStr.split_from sep limit 0 s); discriminate.
Qed.

Lemma push_app (c : ascii) (l1 l2 : list string) :
  l1 <> [] -> PyStr.push c (l1 ++ l2) = PyStr.push c l1 ++ l2.
Proof. destruct l1; [contradiction | reflexivity]. Qed.

Lemma split_char_app (c : ascii) (a b : string) :
  PyStr.split (a ++ String c b) (String c "")
  = PyStr.split a (String c "") ++ PyStr.split b (String c "").
Proof.
  unfold PyStr.split; induction a as [|e a IH];
    cbn [append PyStr.split_from PyStr.may_cut andb].
  - rewrite prefix_cons, Ascii.eqb_refl.
    cbn [andb String.prefix String.length Nat.pred PyStr.after_cut].
    now destruct b.
  - rewrite !prefix_cons.
    assert (P : forall x, String.prefix "" x = true) by (now intros []).
    rewrite !P, !andb_true_r.
    destruct (Ascii.eqb c e);
      cbn [String.length Nat.pred PyStr.after_cut]; rewrite IH;
      [reflexivity |].
    apply push_app, split_from_not_nil.
Qed.

Lemma paragraphs_app (a b : string) :
  paragraphs (a ++ LF ++ b) = paragraphs a ++ paragraphs b.
Proof.
  unfold paragraphs.
  change (a ++ LF ++ b)%string with (a ++ String (ascii_of_nat 10) b)%string.
  change LF with (String (ascii_of_nat 10) "").
  now rewrite split_char_app, filter_app, map_app.
Qed.

Lemma paragraphs_closed_app (t u : string) :
  closed t -> paragraphs (t ++ u) = paragraphs t ++ paragraphs u.
Proof.
  intros [-> | [t' ->]]; [reflexivity |].
  rewrite append_assoc, paragraphs_app.
  replace (t' ++ LF)%string with (t' ++ LF ++ "")%string
    by (now rewrite append_empty_r).
  rewrite paragraphs_app; cbn [paragraphs]; now rewrite app_nil_r.
Qed.

Lemma paragraphs_line (x : string) :
  paragraphs (x ++ LF) = paragraphs x.
Proof.
  replace (x ++ LF)%string with (x ++ LF ++ "")%string
    by (now rewrite append_empty_r).
  rewrite paragraphs_app; apply app_nil_r.
Qed.

Lemma lstrip_empty_blank (s : string) :
  PyStr.lstrip s = "" -> blank s = true.
Proof.
  unfold blank; intros H; apply negb_true_iff.
  induction s as [|c s IH]; [reflexivity |].
  cbn [PyStr.lstrip PyStr.any] in *.
  destruct (PyStr.isspace c); [exact (IH H) | discriminate].
Qed.

Lemma strip_empty_blank (s : string) :
  PyStr.truthy (PyStr.strip s) = false -> blank s = true.
Proof.
  intros H; apply lstrip_empty_blank.
  destruct (lstrip_clean s) as [E | E]; [exact E | exfalso].
  apply rstrip_keeps_clean in E.
  unfold PyStr.strip in H.
  destruct (PyStr.rstrip (PyStr.lstrip s)); discriminate.
Qed.

Lemma blank_strip (s : string) : blank s = true -> PyStr.strip s = "".
Proof.
  unfold blank, PyStr.strip; intros H; apply negb_true_iff in H.
  assert (E : PyStr.lstrip s = "").
  { induction s as [|c s IH]; [reflexivity |].
    cbn [PyStr.any PyStr.lstrip] in *.
    apply orb_false_iff in H as [Hc H]; apply negb_false_iff in Hc.
    rewrite Hc; exact (IH H). }
  now rewrite E.
Qed.

Lemma split_from_blank (sep : string) (s : string) :
  blank s = true ->
  forall (limit : option nat) (skip : nat),
    Forall (fun f => blank f = true) (PyStr.split_from sep limit skip s).
Proof.
  unfold blank; intros H; apply negb_true_iff in H.
  induction s as [|c s IH]; intros limit skip; cbn [PyStr.split_from].
  - repeat constructor.
  - cbn [PyStr.any] in H; apply orb_false_iff in H as [Hc H].
    destruct skip; [| exact (IH H _ _)].
    destruct (PyStr.may_cut limit && String.prefix sep (String c s)).
    + constructor; [reflexivity | exact (IH H _ _)].
    + specialize (IH H limit 0%nat); unfold PyStr.push.
      destruct (PyStr.split_from sep limit 0 s) as [|f fs].
      * constructor; [| constructor].
        cbn [PyStr.any]; now rewrite Hc.
      * inversion IH as [|? ? Hf Hfs]; subst.
        constructor; [| exact Hfs].
        cbn [PyStr.any]; rewrite Hc; exact Hf.
Qed.

Lemma paragraphs_blank (t : string) :
  PyStr.truthy (PyStr.strip t) = false -> paragraphs t = [].
Proof.
  intros H; apply strip_empty_blank in H.
  unfold paragraphs, PyStr.split.
  pose proof (split_from_blank LF t H None 0) as F.
  induction F as [|f fs Hf _ IH]; [reflexivity |].
  cbn [filter]; now rewrite (blank_strip f Hf).
Qed.

Lemma docx_paras_text (paras : list Paragraph) :
  forall (t : string) (lks : list string),
    closed t ->
    closed (fst (fold_left docx_para_step paras (t, lks)))
    /\ paragraphs (fst (fold_left docx_para_step paras (t, lks)))
       = paragraphs t
           ++ flat_map (fun para => paragraphs (para_text para)) paras.
Proof.
  induction paras as [|para paras IH]; intros t lks Ht;
    cbn [fold_left flat_map docx_para_step].
  - cbn [fst]; now rewrite app_nil_r.
  - destruct (PyStr.truthy (PyStr.strip (para_text para))) eqn:B.
    + destruct (IH (t ++ para_text para ++ LF)%string
                  (lks ++ true_links (run_targets para))) as [C E].
      * right; exists (t ++ para_text para)%string.
        now rewrite append_assoc.
      * split; [exact C |].
        rewrite E, paragraphs_closed_app, paragraphs_line by exact Ht.
        now rewrite <- app_assoc.
    + destruct (IH t (lks ++ true_links (run_targets para)) Ht) as [C E].
      split; [exact C |].
      now rewrite E, (paragraphs_blank _ B).
Qed.

Lemma docx_rels_text (w : World) (path : string) (rels : list Rel) :
  forall (t : string) (ims : list Image) (n : nat),
    closed t ->
    exists added,
      snd (fst (fold_left (docx_rel_step w path) rels (t, ims, n)))
      = ims ++ added
      /\ paragraphs
           (fst (fst (fold_left (docx_rel_step w path) rels (t, ims, n))))
         = paragraphs t ++ flat_map ocr_paragraphs added.
Proof.
  induction rels as [|rel rels IH]; intros t ims n Ht;
    cbn [fold_left docx_rel_step].
  - exists []; cbn [fst snd flat_map]; now rewrite !app_nil_r.
  - destruct (PyStr.contains "image" (target_ref rel));
      [| exact (IH t ims n Ht)].
    destruct (target_blob rel) as [b|]; [| exact (IH t ims n Ht)].
    set (name := docx_image_name path n).
    set (ocr := extract_text_from_image w b true).
    destruct (PyStr.truthy (PyStr.strip ocr)) eqn:B.
    + destruct (IH (t ++ LF ++ ocr_line name ocr ++ LF)%string
                  (ims ++ [(name, ocr)]) (S n)) as [added [E1 E2]].
      * right; exists (t ++ LF ++ ocr_line name ocr)%string.
        now rewrite !append_assoc.
      * exists ((name, ocr) :: added); split.
        -- now rewrite E1, <- app_assoc.
        -- rewrite E2, paragraphs_closed_app by exact Ht.
           change (LF ++ ocr_line name ocr ++ LF)%string
             with ("" ++ LF ++ (ocr_line name ocr ++ LF))%string.
           rewrite (paragraphs_app "" (ocr_line name ocr ++ LF)).
           rewrite paragraphs_line; cbn [flat_map].
           unfold ocr_paragraphs at 2; cbn [fst snd]; rewrite B.
           cbn [paragraphs Datatypes.app].
           now rewrite <- app_assoc.
    + destruct (IH t (ims ++ [(name, ocr)]) (S n) Ht) as [added [E1 E2]].
      exists ((name, ocr) :: added); split.
      * now rewrite E1, <- app_assoc.
      * rewrite E2; cbn [flat_map].
        unfold ocr_paragraphs at 2; cbn [fst snd]; rewrite B.
        reflexivity.
Qed.

(** X13: the paragraphs [_chunk_docx] finds in a text [extract_from_docx] has
    written are the lines of the paragraphs of the document that are not
    blank, stripped and in their order, followed by the OCR lines of the
    images whose OCR text is not blank. *)
Theorem docx_paragraphs_are_read_back
        (w : World) (docx_path text : string)
        (imgs : list Image) (lks : list string) :
  extract_from_docx w docx_path = Ok (text, imgs, lks) ->
  paragraphs text
  = flat_map (fun para => paragraphs (para_text para))
      (doc_paragraphs (docx_Document w docx_path))
    ++ flat_map ocr_paragraphs imgs.
Proof.
  unfold extract_from_docx.
  destruct (validate_file w docx_path 50); [discriminate |].
  destruct (docx_paras_text (doc_paragraphs (docx_Document w docx_path))
              "" [] (or_introl eq_refl)) as [C E].
  destruct (fold_left docx_para_step
              (doc_paragraphs (docx_Document w docx_path)) ("", []))
    as [t1 lks1].
  cbn [fst] in C, E.
  destruct (docx_rels_text w docx_path (doc_rels (docx_Document w docx_path))
              t1 [] 0 C) as [added [E1 E2]].
  destruct (fold_left (docx_rel_step w docx_path)
              (doc_rels (docx_Document w docx_path)) (t1, [], 0%nat))
    as [[t2 ims2] n2].
  cbn [fst snd Datatypes.app] in E1, E2.
  intros H; injection H as <- <- <-.
  now rewrite E2, E, E1.
Qed.

Lemma docx_paragraphs_are_read_back_witness :
  extract_from_docx sample_world "letter.docx"
  = Ok (("Title" ++ LF ++ "Body text" ++ LF)%string, [], [])
  /\ paragraphs ("Title" ++ LF ++ "Body text" ++ LF)
     = ["Title"; "Body text"].
Proof.
  assert (H : extract_from_docx sample_world "letter.docx"
              = Ok (("Title" ++ LF ++ "Body text" ++ LF)%string, [], []))
    by reflexivity.
  split; [exact H |].
  refine (eq_trans
            (docx_paragraphs_are_read_back sample_world "letter.docx"
               _ _ _ H) _).
  reflexivity.
Defined.

(** ** The text before a rule *)

Lemma not_blank_with (c : ascii) (s : string) :
  PyStr.isspace c = false ->
  PyStr.any (Ascii.eqb c) s = true ->
  PyStr.truthy (PyStr.strip s) = true.
Proof.
  intros Hc Hs.
  destruct (PyStr.truthy (PyStr.strip s)) eqn:E; [reflexivity | exfalso].
  apply strip_empty_blank in E; unfold blank in E.
  apply negb_true_iff in E.
  induction s as [|d s IH]; [discriminate |].
  cbn [PyStr.any] in *.
  apply orb_false_iff in E as [Ed E].
  destruct (Ascii.eqb_spec c d) as [<-|]; [| auto].
  rewrite Hc in Ed; discriminate.
Qed.

Lemma body_of_after_rule (a b : string) :
  PyStr.any (Ascii.eqb "-") a = false ->
  body_of (a ++ "---" ++ LF ++ b) = b.
Proof.
  intros Ha; unfold body_of.
  replace (a ++ "---" ++ LF ++ b)%string
    with (a ++ ("---" ++ LF) ++ b)%string by (now rewrite !append_assoc).
  rewrite contains_app; unfold PyStr.split_max.
  change ("---" ++ LF)%string with (String "-" ("--" ++ LF)).
  rewrite (split_from_cut "-" ("--" ++ LF) (Some 1%nat) a b eq_refl).
  - cbn [PyStr.after_cut Nat.pred].
    now rewrite split_from_no_cut_left.
  - now apply no_cut_before_absent.
Qed.

Lemma rule_not_blank (a b : string) :
  PyStr.truthy (PyStr.strip (a ++ "---" ++ LF ++ b)) = true.
Proof.
  apply (not_blank_with "-"); [reflexivity |].
  rewrite any_app; cbn [append PyStr.any].
  now rewrite Ascii.eqb_refl, orb_true_r.
Qed.

(** X14: in a text without page marker, resp. slide marker, everything up to
    and including the first line that ends in ["---"] is dropped: the
    only chunk material is what follows it. *)
Theorem text_before_a_rule_is_dropped
        (self : SmartDocumentChunker) (a b file_path : string)
        (imgs : option (list Image)) (lks : option (list string)) :
  PyStr.any (Ascii.eqb "-") a = false ->
  (PyStr.contains "--- Page " (a ++ "---" ++ LF ++ b) = false ->
   _chunk_pdf self (a ++ "---" ++ LF ++ b) file_path imgs lks
   = Ok (emit_pdf self file_path imgs lks 0 (0%Z, b)))
  /\ (PyStr.contains "--- Slide " (a ++ "---" ++ LF ++ b) = false ->
      _chunk_pptx (a ++ "---" ++ LF ++ b) file_path imgs lks
      = Ok (emit_pptx file_path imgs lks 0 (0%Z, b))).
Proof.
  intros Ha; split; intros H.
  - rewrite (chunk_pdf_unmarked _ _ _ _ _ H).
    now rewrite rule_not_blank, body_of_after_rule.
  - rewrite (chunk_pptx_unmarked _ _ _ _ H).
    now rewrite rule_not_blank, body_of_after_rule.
Qed.

Lemma text_before_a_rule_is_dropped_witness :
  PyStr.any (Ascii.eqb "-") ("Title" ++ LF) = false
  /\ PyStr.contains "--- Page " ("Title" ++ LF ++ "---" ++ LF ++ "Body") = false
  /\ contents_of_result
       (_chunk_pdf chunker_1000 ("Title" ++ LF ++ "---" ++ LF ++ "Body")
          "notes.pdf" None None)
     = Ok ["Body"].
Proof.
  assert (H1 : PyStr.any (Ascii.eqb "-") ("Title" ++ LF) = false)
    by reflexivity.
  assert (H2 : PyStr.contains "--- Page "
                 (("Title" ++ LF) ++ "---" ++ LF ++ "Body") = false)
    by reflexivity.
  split; [exact H1 | split; [exact H2 |]].
  refine (eq_trans
            (f_equal contents_of_result
               (proj1 (text_before_a_rule_is_dropped chunker_1000
                         ("Title" ++ LF) "Body" "notes.pdf" None None H1)
                  H2)) _).
  reflexivity.
Defined.

(** ** The names of the extracted images *)

Lemma char_delimits (c : ascii) (a b t u : string) :
  PyStr.any (Ascii.eqb c) a = false ->
  PyStr.any (Ascii.eqb c) b = false ->
  (a ++ String c t)%string = (b ++ String c u)%string ->
  a = b /\ t = u.
Proof.
  revert b; induction a as [|x a IH]; intros b Ha Hb E.
  - destruct b as [|y b]; cbn [append] in E.
    + injection E as ->; auto.
    + cbn [PyStr.any] in Hb; apply orb_false_iff in Hb as [Hy _].
      injection E as <- _; rewrite Ascii.eqb_refl in Hy; discriminate.
  - cbn [PyStr.any] in Ha; apply orb_false_iff in Ha as [Hx Ha].
    destruct b as [|y b]; cbn [append] in E.
    + injection E as -> _; rewrite Ascii.eqb_refl in Hx; discriminate.
    + cbn [PyStr.any] in Hb; apply orb_false_iff in Hb as [_ Hb].
      injection E as -> E.
      destruct (IH b Ha Hb E) as [-> ->]; auto.
Qed.

Lemma str_of_succ_without (c : ascii) (k : nat) :
  PyStr.isdigit c = false ->
  PyStr.any (Ascii.eqb c) (PyStr.str_of_int (Z.of_nat k + 1)) = false.
Proof.
  intros Hc; replace (Z.of_nat k + 1)%Z with (Z.of_nat (S k)) by lia.
  apply digits_only_without; [apply str_of_nat_digits | exact Hc].
Qed.

Lemma pdf_image_name_inj (path : string) (i i' k k' : nat)
      (ext ext' : string) :
  pdf_image_name path i k ext = pdf_image_name path i' k' ext' ->
  i = i' /\ k = k'.
Proof.
  unfold pdf_image_name; intros E.
  apply append_inv_head in E.
  change ("_page" ++ ?x)%string with (String "_" ("page" ++ x)) in E.
  cbn [append] in E; injection E as E.
  change ("_img" ++ ?x)%string with (String "_" ("img" ++ x)) in E.
  apply (char_delimits "_") in E as [E1 E2];
    try (apply str_of_succ_without; reflexivity).
  apply str_of_int_inj in E1.
  cbn [append] in E2; injection E2 as E2.
  change ("." ++ ?x)%string with (String "." x) in E2.
  apply (char_delimits ".") in E2 as [E2 _];
    try (apply str_of_succ_without; reflexivity).
  apply str_of_int_inj in E2; lia.
Qed.

Lemma map_flat_map {A B C : Type} (g : B -> C) (f : A -> list B)
      (l : list A) :
  map g (flat_map f l) = flat_map (fun x => map g (f x)) l.
Proof.
  induction l as [|x l IH]; cbn [flat_map map]; [reflexivity |].
  now rewrite map_app, IH.
Qed.

Lemma enumerate_keys_NoDup {A : Type} (l : list A) (a : nat) :
  NoDup (map (fun e : nat * A => Z.of_nat (fst e))
           (combine (seq a (List.length l)) l)).
Proof.
  rewrite (map_fst_enumerate Z.of_nat l a).
  apply NoDup_map_injective; [intros x y; lia | apply seq_NoDup].
Qed.

Lemma pdf_image_images (w : World) (path : string) (i : nat)
      (l : list (nat * option (string * string))) :
  forall (a : string) (ims : list Image),
    snd (fold_left (pdf_image w path i) l (a, ims))
    = ims ++ flat_map (pdf_image_entry w path i) l.
Proof.
  induction l as [|[k img] l IH]; intros a ims; cbn [fold_left flat_map].
  - cbn [snd]; now rewrite app_nil_r.
  - unfold pdf_image at 2, pdf_image_entry at 1; cbn [fst snd].
    destruct img as [[b ext]|]; rewrite IH.
    + now rewrite <- app_assoc.
    + reflexivity.
Qed.

Lemma pdf_page_step_images (w : World) (path : string) (t : string)
      (ims : list Image) (lks : list string) (entry : nat * PdfPage) :
  snd (fst (pdf_page_step w path (t, ims, lks) entry))
  = ims ++ pdf_page_images w path entry.
Proof.
  destruct entry as [i page].
  unfold pdf_page_step, pdf_page_images; cbn [fst snd].
  match goal with
  | |- context [fold_left ?f ?l (?a, ims)] =>
      pose proof (pdf_image_images w path i l a ims) as E;
      destruct (fold_left f l (a, ims)) as [t1 ims1]
  end.
  exact E.
Qed.

Lemma pdf_pages_images (w : World) (path : string)
      (l : list (nat * PdfPage)) :
  forall (t : string) (ims : list Image) (lks : list string),
    snd (fst (fold_left (pdf_page_step w path) l (t, ims, lks)))
    = ims ++ flat_map (pdf_page_images w path) l.
Proof.
  induction l as [|e l IH]; intros t ims lks; cbn [fold_left flat_map].
  - cbn [fst snd]; now rewrite app_nil_r.
  - pose proof (pdf_page_step_images w path t ims lks e) as E.
    destruct (pdf_page_step w path (t, ims, lks) e) as [[t1 ims1] lks1].
    cbn [fst snd] in E; subst ims1.
    now rewrite IH, <- app_assoc.
Qed.

Lemma pdf_page_names_NoDup (w : World) (path : string)
      (entry : nat * PdfPage) :
  NoDup (map fst (pdf_page_images w path entry)).
Proof.
  unfold pdf_page_images, enumerate; rewrite map_flat_map.
  apply (NoDup_flat_map (fun e => Z.of_nat (fst e)) _
           (fun n name => exists k ext,
                n = Z.of_nat k
                /\ name = pdf_image_name path (fst entry) k ext)).
  - intros [k [[b ext]|]] name; unfold pdf_image_entry; cbn [fst snd map In];
      [intros [<- | []]; eauto | contradiction].
  - intros n m name [k [ext [-> E1]]] [k' [ext' [-> E2]]].
    rewrite E1 in E2; apply pdf_image_name_inj in E2 as [_ <-]; reflexivity.
  - intros [k [[b ext]|]]; unfold pdf_image_entry; cbn [fst snd map];
      repeat constructor; auto.
  - apply enumerate_keys_NoDup.
Qed.

Lemma docx_rels_names (w : World) (path : string) (rels : list Rel) :
  forall (t : string) (ims : list Image) (n : nat),
    exists m : nat,
      map fst (snd (fst (fold_left (docx_rel_step w path) rels (t, ims, n))))
      = map fst ims
          ++ map (fun k => ((stem path ++ "_img")
                              ++ PyStr.str_of_int (Z.of_nat k))%string)
               (seq (S n) m).
Proof.
  induction rels as [|rel rels IH]; intros t ims n;
    cbn [fold_left docx_rel_step].
  - exists 0%nat; cbn [fst snd seq map]; now rewrite app_nil_r.
  - destruct (PyStr.contains "image" (target_ref rel));
      [| exact (IH t ims n)].
    destruct (target_blob rel) as [b|]; [| exact (IH t ims n)].
    match goal with
    | |- context [fold_left _ rels (?t', ?ims', S n)] =>
        destruct (IH t' ims' (S n)) as [m E]
    end.
    exists (S m); rewrite E, map_app; cbn [map fst seq].
    rewrite <- app_assoc; cbn [Datatypes.app].
    do 2 f_equal; unfold docx_image_name.
    replace (Z.of_nat n + 1)%Z with (Z.of_nat (S n)) by lia.
    now rewrite append_assoc.
Qed.

Lemma fold_left_invariant {S A : Type} (I : S -> Prop) (f : S -> A -> S)
      (l : list A) :
  (forall s x, In x l -> I s -> I (f s x)) ->
  forall s, I s -> I (fold_left f l s).
Proof.
  induction l as [|x l IH]; intros H s Hs; cbn [fold_left]; [exact Hs |].
  apply IH; [intros s' y Hy; apply H; now right |].
  apply H; [now left | exact Hs].
Qed.

Lemma pptx_shape_names (w : World) (path : string) (slides i : nat)
      (st : Extracted) (sh : Shape) :
  (i < slides)%nat ->
  Forall (fun img => slide_name path slides (fst img)) (snd (fst st)) ->
  Forall (fun img => slide_name path slides (fst img))
    (snd (fst (pptx_shape w path i st sh))).
Proof.
  intros Hi H; destruct st as [[t ims] lks]; unfold pptx_shape.
  cbn [fst snd] in H.
  destruct (shape_image sh) as [[b|]|]; cbn [fst snd]; try exact H.
  apply Forall_app; split; [exact H |].
  constructor; [| constructor].
  exists i; cbn [fst]; auto.
Qed.

(** X15: the names of the images of one document are pairwise distinct for a
    pdf and for a docx file; for a pptx file a name only tells the slide,
    so that two pictures of one slide share their name. *)
Theorem extracted_image_names :
  (forall (w : World) (pdf_path text : string) (imgs : list Image)
          (lks : list string),
      extract_from_pdf w pdf_path = Ok (text, imgs, lks) ->
      NoDup (map fst imgs))
  /\ (forall (w : World) (docx_path text : string) (imgs : list Image)
             (lks : list string),
         extract_from_docx w docx_path = Ok (text, imgs, lks) ->
         NoDup (map fst imgs))
  /\ (forall (w : World) (pptx_path text : string) (imgs : list Image)
             (lks : list string),
         extract_from_pptx w pptx_path = Ok (text, imgs, lks) ->
         Forall (fun img =>
                   slide_name pptx_path
                     (List.length (Presentation w pptx_path)) (fst img))
           imgs)
  /\ match extract_from_pptx two_pictures_world "deck.pptx" with
     | Ok (_, imgs, _) => map fst imgs
     | Raise _ => []
     end = ["deck_slide1_img"; "deck_slide1_img"].
Proof.
  split; [| split; [| split]].
  - intros w path text imgs lks H; unfold extract_from_pdf in H.
    destruct (validate_file w path 50); [discriminate |].
    injection H as H.
    pose proof (pdf_pages_images w path (enumerate (fitz_open w path))
                  "" [] []) as E.
    rewrite H in E; cbn [fst snd Datatypes.app] in E; subst imgs.
    rewrite map_flat_map; unfold enumerate.
    apply (NoDup_flat_map (fun e => Z.of_nat (fst e)) _
             (fun n name => exists i k ext,
                  n = Z.of_nat i /\ name = pdf_image_name path i k ext)).
    + intros [i page] name Hn; cbn [fst].
      unfold pdf_page_images in Hn; rewrite map_flat_map in Hn.
      apply in_flat_map in Hn as [[k [[b ext]|]] [_ Hn]];
        unfold pdf_image_entry in Hn; cbn [fst snd map In] in Hn;
        [destruct Hn as [<- | []]; eauto | contradiction].
    + intros n m name [i [k [ext [-> E1]]]] [i' [k' [ext' [-> E2]]]].
      rewrite E1 in E2; apply pdf_image_name_inj in E2 as [<- _].
      reflexivity.
    + intros e; apply pdf_page_names_NoDup.
    + apply enumerate_keys_NoDup.
  - intros w path text imgs lks H; unfold extract_from_docx in H.
    destruct (validate_file w path 50); [discriminate |].
    destruct (fold_left docx_para_step
                (doc_paragraphs (docx_Document w path)) ("", []))
      as [t1 lks1].
    destruct (docx_rels_names w path (doc_rels (docx_Document w path))
                t1 [] 0) as [m E].
    destruct (fold_left (docx_rel_step w path)
                (doc_rels (docx_Document w path)) (t1, [], 0%nat))
      as [[t2 ims2] n2].
    injection H as _ <- _.
    cbn [fst snd map Datatypes.app] in E; rewrite E.
    apply numbered_ids_NoDup.
  - intros w path text imgs lks H; unfold extract_from_pptx in H.
    destruct (validate_file w path 50); [discriminate |].
    injection H as H.
    assert (G : Forall (fun img =>
                          slide_name path
                            (List.length (Presentation w path)) (fst img))
                  (snd (fst (fold_left (pptx_slide_step w path)
                               (enumerate (Presentation w path))
                               ("", [], [])))));
      [| now rewrite H in G].
    apply (fold_left_invariant
             (fun st : Extracted =>
                Forall (fun img =>
                          slide_name path
                            (List.length (Presentation w path)) (fst img))
                  (snd (fst st))));
      [| constructor].
    intros [[t ims] lks0] [i shapes] Hin Hst.
    apply in_combine_l, in_seq in Hin.
    assert (Hi : (i < List.length (Presentation w path))%nat) by lia.
    unfold pptx_slide_step.
    match goal with
    | |- context [fold_left ?f shapes ?s0] =>
        pose proof (fold_left_invariant
                      (fun st : Extracted =>
                         Forall (fun img =>
                                   slide_name path
                                     (List.length (Presentation w path))
                                     (fst img))
                           (snd (fst st)))
                      f shapes) as Inv2;
        specialize (Inv2
                      (fun s x _ Hs =>
                         pptx_shape_names w path _ i s x Hi Hs) s0 Hst);
        destruct (fold_left f shapes s0) as [[t1 ims1] lks1]
    end.
    exact Inv2.
  - reflexivity.
Qed.

Lemma extracted_image_names_witness :
  extract_from_pdf sample_world "doc.pdf"
  = Ok ((LF ++ "--- Page 1 ---" ++ LF ++ "First page"
            ++ LF ++ "--- Page 2 ---" ++ LF ++ "Second page" ++ LF
            ++ "[Image OCR - doc_page2_img1.png]: "
            ++ "[OCR not available - no text extracted from image]")%string,
        [("doc_page2_img1.png",
          "[OCR not available - no text extracted from image]")],
        ["https://example.org"])
  /\ NoDup ["doc_page2_img1.png"].
Proof.
  assert (H : extract_from_pdf sample_world "doc.pdf"
              = Ok ((LF ++ "--- Page 1 ---" ++ LF ++ "First page"
                        ++ LF ++ "--- Page 2 ---" ++ LF ++ "Second page" ++ LF
                        ++ "[Image OCR - doc_page2_img1.png]: "
                        ++ "[OCR not available - no text extracted from image]")%string,
                    [("doc_page2_img1.png",
                      "[OCR not available - no text extracted from image]")],
                    ["https://example.org"]))
    by reflexivity.
  split; [exact H |].
  exact (proj1 extracted_image_names sample_world "doc.pdf" _ _ _ H).
Defined.

(** ** The identifiers of the chunks of an extracted document *)

Lemma bodies_from_numbers (ps : list string) :
  forall (p : string) (k : nat),
    map fst (bodies_from k p ps)
    = map Z.of_nat (seq k (S (List.length ps))).
Proof.
  induction ps as [|q qs IH]; intros p k; cbn [bodies_from map fst].
  - reflexivity.
  - rewrite (IH q (S k)); reflexivity.
Qed.

Lemma numbered_bodies_NoDup (payloads : list string) :
  NoDup (map fst (numbered_bodies payloads)).
Proof.
  destruct payloads as [|p ps]; [constructor |].
  unfold numbered_bodies; rewrite bodies_from_numbers.
  apply NoDup_map_injective; [intros x y; lia | apply seq_NoDup].
Qed.

Lemma numbered_texts_NoDup (payloads : list string) :
  NoDup (map fst (numbered_texts payloads)).
Proof.
  unfold numbered_texts; rewrite map_map; cbn [fst].
  apply enumerate_keys_NoDup.
Qed.

(** X16: the chunks [_chunk_pdf], resp. [_chunk_pptx], makes of a text
    [extract_from_pdf], resp. [extract_from_pptx], has written have
    pairwise distinct identifiers, when no page or slide text holds the
    marker. *)
Theorem extracted_chunk_ids_are_distinct :
  (forall (w : World) (self : SmartDocumentChunker)
          (pdf_path file_path text : string)
          (imgs : list Image) (lks : list string),
      extract_from_pdf w pdf_path = Ok (text, imgs, lks) ->
      (Z.of_nat (List.length (fitz_open w pdf_path)) < int_limit)%Z ->
      Forall (fun t => PyStr.contains "--- Page " t = false)
        (pdf_page_texts w pdf_path) ->
      exists docs,
        _chunk_pdf self text file_path (Some imgs) (Some lks) = Ok docs
        /\ NoDup (ids_of docs))
  /\ (forall (w : World) (pptx_path file_path text : string)
             (imgs : list Image) (lks : list string),
         extract_from_pptx w pptx_path = Ok (text, imgs, lks) ->
         (Z.of_nat (List.length (Presentation w pptx_path)) < int_limit)%Z ->
         Forall (fun t => PyStr.contains "--- Slide " t = false)
           (pptx_slide_texts w pptx_path) ->
         exists docs,
           _chunk_pptx text file_path (Some imgs) (Some lks) = Ok docs
           /\ NoDup (ids_of docs)).
Proof.
  split.
  - intros w self pdf_path fp text imgs lks H1 H2 H3.
    eexists; split;
      [exact (extracted_pdf_chunks w self pdf_path fp text imgs lks
                H1 H2 H3) |].
    rewrite ids_of_flat_map.
    apply (NoDup_flat_map fst _ (labelled "page_")).
    + intros seg id; apply emit_pdf_labelled.
    + intros n m id; apply labelled_inj.
    + intros seg; apply emit_pdf_NoDup.
    + apply numbered_bodies_NoDup.
  - intros w pptx_path fp text imgs lks H1 H2 H3.
    eexists; split;
      [exact (extracted_pptx_chunks w pptx_path fp text imgs lks H1 H2 H3) |].
    rewrite ids_of_flat_map.
    apply (NoDup_flat_map fst _ (labelled "slide_")).
    + intros seg id; apply emit_pptx_labelled.
    + intros n m id; apply labelled_inj.
    + intros seg; apply emit_pptx_NoDup.
    + apply numbered_texts_NoDup.
Qed.

Lemma extracted_chunk_ids_are_distinct_witness :
  extract_from_pptx sample_world "deck.pptx"
  = Ok ((LF ++ "--- Slide 1 ---" ++ LF ++ "Welcome" ++ LF
            ++ LF ++ "--- Slide 2 ---" ++ LF ++ "Agenda" ++ LF)%string,
        [], ["https://example.org"])
  /\ (Z.of_nat (List.length (Presentation sample_world "deck.pptx"))
      < int_limit)%Z
  /\ Forall (fun t => PyStr.contains "--- Slide " t = false)
       (pptx_slide_texts sample_world "deck.pptx")
  /\ exists docs,
       _chunk_pptx
         (LF ++ "--- Slide 1 ---" ++ LF ++ "Welcome" ++ LF
             ++ LF ++ "--- Slide 2 ---" ++ LF ++ "Agenda" ++ LF)
         "deck.pptx" (Some []) (Some ["https://example.org"])
       = Ok docs
       /\ NoDup (ids_of docs).
Proof.
  assert (H1 : extract_from_pptx sample_world "deck.pptx"
               = Ok ((LF ++ "--- Slide 1 ---" ++ LF ++ "Welcome" ++ LF
                         ++ LF ++ "--- Slide 2 ---" ++ LF ++ "Agenda"
                         ++ LF)%string,
                     [], ["https://example.org"]))
    by reflexivity.
  assert (H2 : (Z.of_nat (List.length (Presentation sample_world "deck.pptx"))
                < int_limit)%Z) by reflexivity.
  assert (H3 : Forall (fun t => PyStr.contains "--- Slide " t = false)
                 (pptx_slide_texts sample_world "deck.pptx"))
    by (repeat constructor).
  split; [exact H1 | split; [exact H2 | split; [exact H3 |]]].
  exact (proj2 extracted_chunk_ids_are_distinct sample_world "deck.pptx"
           "deck.pptx" _ _ _ H1 H2 H3).
Defined.

(** ** Without an OCR engine *)

Lemma ocr_without_engine (w : World) (image_bytes : string) (use : bool) :
  GOOGLE_VISION_AVAILABLE w = false ->
  TESSERACT_AVAILABLE w = false ->
  extract_text_from_image w image_bytes use = ocr_not_available.
Proof.
  intros G T; unfold extract_text_from_image.
  now rewrite G, T, andb_false_r.
Qed.

Lemma concat_empty_cons (y : string) (rest : list string) :
  String.concat "" (y :: rest) = (y ++ String.concat "" rest)%string.
Proof.
  destruct rest; cbn [String.concat append]; now rewrite ?append_empty_r.
Qed.

Lemma pdf_image_text_closed (w : World) (path : string) (i : nat)
      (l : list (nat * option (string * string))) :
  fst (fold_left (pdf_image w path i) l ("", []))
  = String.concat ""
      (map (fun img => LF ++ ocr_line (fst img) (snd img))%string
         (filter (fun img => PyStr.truthy (PyStr.strip (snd img)))
            (flat_map (pdf_image_entry w path i) l))).
Proof.
  induction l as [|[k img] l IH]; cbn [fold_left flat_map]; [reflexivity |].
  unfold pdf_image at 2, pdf_image_entry at 1; cbn [fst snd].
  destruct img as [[b ext]|]; cbn [Datatypes.app filter fst snd];
    [| exact IH].
  rewrite pdf_images_append, IH.
  destruct (PyStr.truthy (PyStr.strip (extract_text_from_image w b true)));
    cbn [map fst snd append]; [| reflexivity].
  now rewrite concat_empty_cons, !append_assoc.
Qed.

(** X17: when neither OCR engine is installed, every image that can be read
    gets the same fixed text for OCR text, and this text is written into
    the text of its page: the text of a pdf page is the text of the page
    followed by one line per image, each holding that fixed text. *)
Theorem missing_ocr_engine_is_written_into_the_text
        (w : World) (pdf_path : string) (entry : nat * PdfPage) :
  GOOGLE_VISION_AVAILABLE w = false ->
  TESSERACT_AVAILABLE w = false ->
  Forall (fun img => snd img = ocr_not_available)
    (pdf_page_images w pdf_path entry)
  /\ pdf_page_text w pdf_path entry
     = (get_text (snd entry)
          ++ String.concat ""
               (map (fun img => LF ++ ocr_line (fst img) ocr_not_available)
                  (pdf_page_images w pdf_path entry)))%string.
Proof.
  intros G T.
  assert (F : Forall (fun img => snd img = ocr_not_available)
                (pdf_page_images w pdf_path entry)).
  { unfold pdf_page_images; apply Forall_forall; intros img Hin.
    apply in_flat_map in Hin as [[k [[b ext]|]] [_ Hin]];
      unfold pdf_image_entry in Hin; cbn [fst snd In] in Hin;
      [destruct Hin as [<- | []] | contradiction].
    cbn [snd]; now apply ocr_without_engine. }
  split; [exact F |].
  unfold pdf_page_text; rewrite pdf_images_append, pdf_image_text_closed.
  fold (pdf_page_images w pdf_path entry).
  f_equal; f_equal.
  induction F as [|img imgs Himg _ IH]; [reflexivity |].
  cbn [filter map]; rewrite Himg.
  change (PyStr.truthy (PyStr.strip ocr_not_available)) with true.
  cbn [map]; now rewrite Himg, IH.
Qed.

Lemma missing_ocr_engine_is_written_into_the_text_witness :
  let page := {| get_text := "Second page";
                 get_images := [Some ("bytes", "png")];
                 get_links := [] |} in
  GOOGLE_VISION_AVAILABLE sample_world = false
  /\ TESSERACT_AVAILABLE sample_world = false
  /\ pdf_page_text sample_world "doc.pdf" (1%nat, page)
     = ("Second page" ++ LF ++ "[Image OCR - doc_page2_img1.png]: "
          ++ ocr_not_available)%string.
Proof.
  intros page.
  split; [reflexivity | split; [reflexivity |]].
  refine (eq_trans
            (proj2 (missing_ocr_engine_is_written_into_the_text sample_world
                      "doc.pdf" (1%nat, page) eq_refl eq_refl)) _).
  reflexivity.
Defined.
